(** * ClassHub: a shallow embedding of [app.py]

    The Flask handlers of [app.py] are embedded as functions in a small
    state-and-exception monad over a SQLite connection.  A table is the list
    of its rows in rowid order together with its AUTOINCREMENT counter; a
    connection separates the committed database from the working copy of the
    open transaction, so that [db.commit()] and the rollback that happens
    when a request dies with an uncaught exception are both visible.

    A connection also keeps the list of the snapshots it committed, so that
    a statement can say when a handler commits and not only what the
    database is in the end.

    A Python float and a REAL column are binary64 values, here the
    primitive floats of the kernel; exact rationals appear only in the
    statements that bound the rounding error.  A Python int bound to a
    statement has to fit SQLite's 64-bit INTEGER.  Library routines whose
    result is fixed outside [app.py] (str.strip, str.lower, werkzeug's
    password hash, the order SQLite gives to the rows of an ORDER BY, its
    coercion of a text to the affinity of a column) are section variables
    of the handlers; [Lib] gives an instance of each to run them.  The
    dashboard and logout pages are left out. *)

From Stdlib Require Import String Ascii List ZArith QArith Bool Lia.
From Stdlib Require Import Qround Permutation Sorted DecimalString.
From Stdlib Require Import OrderedTypeEx RelationClasses Floats Qabs.
From Stdlib Require Uint63.
Import ListNotations.

Local Open Scope string_scope.
Local Open Scope Z_scope.

(** ** Python values *)

(** [request.form]: a multi-dict; [get] answers the first value of a key. *)
Definition form_data := list (string * string).

Fixpoint form_get (f : form_data) (k : string) : option string :=
  match f with
  | [] => None
  | (k', v) :: f' => if String.eqb k' k then Some v else form_get f' k
  end.

(** Truth value of a [str | None]. *)
Definition truthy (o : option string) : bool :=
  match o with
  | Some s => negb (String.eqb s "")
  | None => false
  end.

(** [x or d] for [x : str | None] and [d : str]. *)
Definition or_str (o : option string) (d : string) : string :=
  match o with
  | Some s => if String.eqb s "" then d else s
  | None => d
  end.

(** [x == y] for [x : str | None] and [y : str]. *)
Definition eq_opt_str (o : option string) (s : string) : bool :=
  match o with
  | Some a => String.eqb a s
  | None => false
  end.

(** [x in (...)] for [x : str | None]. *)
Definition in_strs (o : option string) (l : list string) : bool :=
  existsb (eq_opt_str o) l.

(** [str(n)] for an integer. *)
Definition str_of_Z (n : Z) : string := NilZero.string_of_int (Z.to_int n).

(** [float(n)] for an int [0 <= n < 2^63]; the ints converted below are
    lengths of lists, far smaller, for which the conversion is exact. *)
Definition float_of_Z (n : Z) : float := PrimFloat.of_uint63 (Uint63.of_Z n).

(** ** The relational schema ([init_db]) *)

Record user := User
  { u_id : Z; u_name : string; u_email : string; u_password_hash : string;
    u_role : string; u_created_at : string }.

Record announcement := Announcement
  { an_id : Z; an_title : string; an_body : string; an_created_at : string;
    an_created_by : option Z }.

Record assignment := Assignment
  { as_id : Z; as_title : string; as_description : option string;
    as_due_date : option string; as_created_at : string;
    as_created_by : option Z }.

(** What a REAL column holds once a text was bound to it: the binary64
    number SQLite read from the text, or the text itself when it does not
    look like a number. *)
Inductive real_value :=
| RealNumber (x : float)
| RealText (t : string).

Record submission := Submission
  { sub_id : Z; sub_assignment_id : Z; sub_student_id : Z;
    sub_content : option string; sub_submitted_at : string;
    sub_score : option real_value; sub_feedback : option string }.

Record quiz := Quiz
  { qz_id : Z; qz_title : string; qz_created_at : string;
    qz_created_by : option Z }.

Record quiz_question := QuizQuestion
  { qq_id : Z; qq_quiz_id : Z; qq_prompt : string;
    qq_choice_a : string; qq_choice_b : string; qq_choice_c : string;
    qq_choice_d : string; qq_correct : string }.

Record quiz_response := QuizResponse
  { qr_id : Z; qr_quiz_id : Z; qr_student_id : Z; qr_submitted_at : string;
    qr_score : float }.

Record quiz_answer := QuizAnswer
  { qa_id : Z; qa_response_id : Z; qa_question_id : Z;
    qa_answer : option string }.

(** A table: rows in rowid order and the [sqlite_sequence] counter. *)
Record table (A : Type) := Table { rows : list A; seq : Z }.
Arguments Table {A} _ _.
Arguments rows {A} _.
Arguments seq {A} _.

Record store := Store
  { users : table user;
    announcements_t : table announcement;
    assignments_t : table assignment;
    submissions : table submission;
    quizzes_t : table quiz;
    quiz_questions : table quiz_question;
    quiz_responses : table quiz_response;
    quiz_answers : table quiz_answer }.

Definition with_users (s : store) (t : table user) : store :=
  Store t (announcements_t s) (assignments_t s) (submissions s) (quizzes_t s)
        (quiz_questions s) (quiz_responses s) (quiz_answers s).

Definition with_submissions (s : store) (t : table submission) : store :=
  Store (users s) (announcements_t s) (assignments_t s) t (quizzes_t s)
        (quiz_questions s) (quiz_responses s) (quiz_answers s).

Definition with_quizzes (s : store) (t : table quiz) : store :=
  Store (users s) (announcements_t s) (assignments_t s) (submissions s) t
        (quiz_questions s) (quiz_responses s) (quiz_answers s).

Definition with_quiz_questions (s : store) (t : table quiz_question) : store :=
  Store (users s) (announcements_t s) (assignments_t s) (submissions s)
        (quizzes_t s) t (quiz_responses s) (quiz_answers s).

Definition with_quiz_responses (s : store) (t : table quiz_response) : store :=
  Store (users s) (announcements_t s) (assignments_t s) (submissions s)
        (quizzes_t s) (quiz_questions s) t (quiz_answers s).

Definition with_quiz_answers (s : store) (t : table quiz_answer) : store :=
  Store (users s) (announcements_t s) (assignments_t s) (submissions s)
        (quizzes_t s) (quiz_questions s) (quiz_responses s) t.

(** INTEGER PRIMARY KEY AUTOINCREMENT: one more than the larger of the
    largest rowid present and the counter.  SQLite refuses the INSERT once
    the rowids are used up, at 2^63-1; the statements that look a new row
    up by its id say that the id is still a 64-bit integer. *)
Definition max_rowid (ids : list Z) : Z := fold_right Z.max 0 ids.

Definition next_rowid {A} (rowid : A -> Z) (t : table A) : Z :=
  Z.max (max_rowid (map rowid (rows t))) (seq t) + 1.

Definition insert_row {A} (rowid : A -> Z) (mk : Z -> A) (t : table A)
  : table A :=
  let i := next_rowid rowid t in Table (rows t ++ [mk i]) i.

Definition update_rows {A} (sel : A -> bool) (upd : A -> A) (t : table A)
  : table A :=
  Table (map (fun r => if sel r then upd r else r) (rows t)) (seq t).

(** ** The connection and the handler monad *)

Inductive exn :=
| IntegrityError (constraint : string)
| TypeError
| OverflowError
| ZeroDivisionError.

(** [committed] is the database as other connections see it, [working] the
    copy of the open transaction, [commits] the snapshots this connection
    has committed so far, the latest first. *)
Record conn := Conn
  { committed : store; working : store; commits : list store }.

Definition db (A : Type) : Type := conn -> (exn + A) * conn.

Definition ret {A} (a : A) : db A := fun c => (inr a, c).

Definition bind {A B} (m : db A) (k : A -> db B) : db B :=
  fun c =>
    match m c with
    | (inl e, c') => (inl e, c')
    | (inr a, c') => k a c'
    end.

Definition raise {A} (e : exn) : db A := fun c => (inl e, c).

(** [try: m except sqlite3.IntegrityError: h] *)
Definition try_integrity {A} (m : db A) (h : db A) : db A :=
  fun c =>
    match m c with
    | (inl (IntegrityError _), c') => h c'
    | r => r
    end.

Declare Scope db_scope.
Delimit Scope db_scope with db.
Notation "x <- m ;; k" := (bind m (fun x => k))
  (at level 100, m at next level, right associativity) : db_scope.
Notation "m ;; k" := (bind m (fun _ => k))
  (at level 100, right associativity) : db_scope.
Local Open Scope db_scope.

(** A SELECT reads the working copy. *)
Definition query {A} (f : store -> A) : db A :=
  fun c => (inr (f (working c)), c).

(** A SELECT that may raise while its parameters are bound. *)
Definition fetch {A} (f : store -> exn + A) : db A :=
  fun c =>
    match f (working c) with
    | inl e => (inl e, c)
    | inr a => (inr a, c)
    end.

(** An INSERT or UPDATE changes the working copy, or raises and changes
    nothing. *)
Definition execute (f : store -> exn + store) : db unit :=
  fun c =>
    match f (working c) with
    | inl e => (inl e, c)
    | inr w => (inr tt, Conn (committed c) w (commits c))
    end.

(** [db.commit()] *)
Definition commit : db unit :=
  fun c => (inr tt, Conn (working c) (working c) (working c :: commits c)).

(** [for x in l: acc = body(acc, x)] *)
Fixpoint for_each {A S} (l : list A) (body : S -> A -> db S) (acc : S)
  : db S :=
  match l with
  | [] => ret acc
  | x :: l' => acc' <- body acc x ;; for_each l' body acc'
  end.

(** ** Requests and responses *)

Inductive http_method := GET | POST.

Record identity := Identity
  { id_id : Z; id_name : string; id_role : string; id_email : string }.

(** [now] is the value of [datetime.datetime.utcnow().isoformat()] read by
    the request. *)
Record request := Request
  { method : http_method; form : form_data; session : option identity;
    now : string }.

Inductive endpoint :=
| EpRegister | EpLogin | EpAssignments
| EpAssignmentDetail (aid : Z) | EpQuizzes | EpQuizTake (qid : Z).

(** [FlashScore pct] is [f"Quiz submitted. Score: {pct:.0f}%"]. *)
Inductive flash_msg :=
| Flash (message category : string)
| FlashScore (pct : float).

Inductive view :=
| RegisterPage
| AnnouncementsPage (listing : list (announcement * option string))
| AssignmentDetailPage (a : assignment) (own : option submission)
                       (subs : list (submission * option string))
| QuizFormPage
| QuizTakePage (qz : quiz) (questions : list quiz_question)
               (results : list (quiz_response * option string)).

Inductive response :=
| Redirect (target : endpoint) (flashed : option flash_msg)
| Render (page : view).

(** What the client sees: a response, or the 500 page of an uncaught
    exception. *)
Inductive outcome :=
| Responded (r : response)
| ServerError (e : exn).

(** One request: [get_db] opens a connection on the database, the handler
    runs, [_close] closes the connection; what was not committed is lost. *)
Definition serve (h : db response) (s : store) : outcome * store :=
  match h (Conn s s []) with
  | (inl e, c) => (ServerError e, committed c)
  | (inr r, c) => (Responded r, committed c)
  end.

(** The snapshots one request commits, in the order of the commits. *)
Definition commit_log {A} (h : db A) (s : store) : list store :=
  rev (commits (snd (h (Conn s s [])))).

Definition is_post (r : request) : bool :=
  match method r with POST => true | GET => false end.

(** ["user" in session and session["user"]["role"] == role] *)
Definition has_role (r : request) (role : string) : bool :=
  match session r with
  | Some u => String.eqb (id_role u) role
  | None => false
  end.

(** [session["user"]["id"]], read only under [has_role]. *)
Definition session_id (r : request) : Z :=
  match session r with
  | Some u => id_id u
  | None => 0
  end.

(** ** SQL statements *)

(** A Python int can be bound to a parameter when it fits SQLite's 64-bit
    INTEGER; [sqlite3] raises OverflowError otherwise, before the statement
    runs.  The ids checked here come from the URL ([<int:aid>] accepts any
    run of digits); the id of the session was read from [users.id] by
    [login]. *)
Definition sqlite_int (i : Z) : bool :=
  (- 2 ^ 63 <=? i) && (i <? 2 ^ 63).

Definition bind_int {A} (i : Z) (result : A) : exn + A :=
  if sqlite_int i then inr result else inl OverflowError.

Definition labels : list string := ["A"; "B"; "C"; "D"].
Definition roles : list string := ["teacher"; "student"].

Definition in_list (s : string) (l : list string) : bool :=
  existsb (String.eqb s) l.

(** [a LEFT JOIN users u ON u.id = fk(a)], projecting [u.name]. *)
Definition left_join_user {A} (fk : A -> option Z) (us : list user) (a : A)
  : list (A * option string) :=
  match filter (fun u => match fk a with
                         | Some i => u_id u =? i
                         | None => false
                         end) us with
  | [] => [(a, None)]
  | m => map (fun u => (a, Some (u_name u))) m
  end.

(** WHERE assignment_id=? AND student_id=? *)
Definition sub_of (aid uid : Z) (r : submission) : bool :=
  (sub_assignment_id r =? aid) && (sub_student_id r =? uid).

(** WHERE quiz_id=? AND student_id=? *)
Definition resp_of (qid uid : Z) (r : quiz_response) : bool :=
  (qr_quiz_id r =? qid) && (qr_student_id r =? uid).

(** INSERT INTO users(name,email,password_hash,role,created_at) *)
Definition insert_user (name email hash role created_at : string) (s : store)
  : exn + store :=
  if negb (in_list role roles) then
    inl (IntegrityError "CHECK constraint failed: role")
  else if existsb (fun u => String.eqb (u_email u) email) (rows (users s)) then
    inl (IntegrityError "UNIQUE constraint failed: users.email")
  else
    inr (with_users s
           (insert_row u_id (fun i => User i name email hash role created_at)
                       (users s))).

(** SELECT * FROM assignments WHERE id=? *)
Definition select_assignment (aid : Z) (s : store)
  : exn + option assignment :=
  bind_int aid (find (fun a => as_id a =? aid) (rows (assignments_t s))).

(** SELECT * FROM submissions WHERE assignment_id=? AND student_id=? *)
Definition select_submission (aid uid : Z) (s : store) : option submission :=
  find (sub_of aid uid) (rows (submissions s)).

(** UPDATE submissions SET content=?, submitted_at=? WHERE id=? *)
Definition update_submission (content submitted_at : string) (id : Z)
  (s : store) : exn + store :=
  inr (with_submissions s
         (update_rows (fun r => sub_id r =? id)
            (fun r => Submission (sub_id r) (sub_assignment_id r)
                        (sub_student_id r) (Some content) submitted_at
                        (sub_score r) (sub_feedback r))
            (submissions s))).

(** INSERT INTO submissions(assignment_id,student_id,content,submitted_at) *)
Definition insert_submission (aid uid : Z) (content submitted_at : string)
  (s : store) : exn + store :=
  if existsb (sub_of aid uid) (rows (submissions s)) then
    inl (IntegrityError
           "UNIQUE constraint failed: submissions.assignment_id, submissions.student_id")
  else
    inr (with_submissions s
           (insert_row sub_id
              (fun i => Submission i aid uid (Some content) submitted_at
                          None None)
              (submissions s))).

(** INSERT INTO quizzes(title, created_at, created_by) *)
Definition insert_quiz (title created_at : string) (uid : Z) (s : store)
  : exn + store :=
  inr (with_quizzes s
         (insert_row qz_id (fun i => Quiz i title created_at (Some uid))
                     (quizzes_t s))).

(** SELECT id FROM quizzes ORDER BY id DESC LIMIT 1 *)
Definition select_last_quiz_id (s : store) : option Z :=
  match map qz_id (rows (quizzes_t s)) with
  | [] => None
  | i :: l => Some (fold_right Z.max i l)
  end.

(** INSERT INTO quiz_questions(quiz_id,prompt,choice_a,...,correct) *)
Definition insert_quiz_question (quiz_id : Z) (prompt a b c d correct : string)
  (s : store) : exn + store :=
  if negb (in_list correct labels) then
    inl (IntegrityError "CHECK constraint failed: correct")
  else
    inr (with_quiz_questions s
           (insert_row qq_id
              (fun i => QuizQuestion i quiz_id prompt a b c d correct)
              (quiz_questions s))).

(** SELECT * FROM quizzes WHERE id=? *)
Definition select_quiz (qid : Z) (s : store) : exn + option quiz :=
  bind_int qid (find (fun q => qz_id q =? qid) (rows (quizzes_t s))).

(** SELECT * FROM quiz_questions WHERE quiz_id=?  (rows in storage order) *)
Definition select_questions (qid : Z) (s : store) : list quiz_question :=
  filter (fun q => qq_quiz_id q =? qid) (rows (quiz_questions s)).

(** SELECT id FROM quiz_responses WHERE quiz_id=? AND student_id=? *)
Definition select_response (qid uid : Z) (s : store) : option quiz_response :=
  find (resp_of qid uid) (rows (quiz_responses s)).

(** INSERT INTO quiz_responses(quiz_id,student_id,submitted_at); the score
    column takes its DEFAULT 0. *)
Definition insert_quiz_response (qid uid : Z) (submitted_at : string)
  (s : store) : exn + store :=
  if existsb (resp_of qid uid) (rows (quiz_responses s)) then
    inl (IntegrityError
           "UNIQUE constraint failed: quiz_responses.quiz_id, quiz_responses.student_id")
  else
    inr (with_quiz_responses s
           (insert_row qr_id
              (fun i => QuizResponse i qid uid submitted_at 0%float)
              (quiz_responses s))).

(** INSERT INTO quiz_answers(response_id,question_id,answer); the CHECK
    accepts NULL and the four labels. *)
Definition insert_quiz_answer (resp_id question_id : Z) (ans : option string)
  (s : store) : exn + store :=
  match ans with
  | Some a =>
      if in_list a labels then
        inr (with_quiz_answers s
               (insert_row qa_id
                  (fun i => QuizAnswer i resp_id question_id ans)
                  (quiz_answers s)))
      else inl (IntegrityError "CHECK constraint failed: answer")
  | None =>
      inr (with_quiz_answers s
             (insert_row qa_id
                (fun i => QuizAnswer i resp_id question_id None)
                (quiz_answers s)))
  end.

(** UPDATE quiz_responses SET score=? WHERE id=? *)
Definition update_response_score (pct : float) (id : Z) (s : store)
  : exn + store :=
  inr (with_quiz_responses s
         (update_rows (fun r => qr_id r =? id)
            (fun r => QuizResponse (qr_id r) (qr_quiz_id r) (qr_student_id r)
                        (qr_submitted_at r) pct)
            (quiz_responses s))).

(** [request.form.get(f"q{q['id']}")] *)
Definition submitted_answer (f : form_data) (q : quiz_question)
  : option string :=
  form_get f ("q" ++ str_of_Z (qq_id q)).

(** [len(l) or 1] *)
Definition len_or_1 {A} (l : list A) : Z :=
  if (Z.of_nat (length l) =? 0) then 1 else Z.of_nat (length l).

(** [x / n] for a float [x] and an int [n]: the int is converted and the
    quotient is the binary64 one; a zero divisor raises. *)
Definition py_truediv (x : float) (n : Z) : db float :=
  if n =? 0 then raise ZeroDivisionError
  else ret (x / float_of_Z n)%float.

(** [f"q{i}_prompt"] and its like. *)
Definition question_key (i : Z) (suffix : string) : string :=
  "q" ++ str_of_Z i ++ suffix.

(** The five fields and the label of form row [i], when the guard
    [prompt and a and b and c and d and correct in ("A","B","C","D")]
    lets the row through. *)
Definition question_row (f : form_data) (i : Z)
  : option (string * string * string * string * string * string) :=
  let prompt := form_get f (question_key i "_prompt") in
  let a := form_get f (question_key i "_a") in
  let b := form_get f (question_key i "_b") in
  let c := form_get f (question_key i "_c") in
  let d := form_get f (question_key i "_d") in
  let correct := form_get f (question_key i "_correct") in
  if truthy prompt && truthy a && truthy b && truthy c && truthy d
     && in_strs correct labels
  then
    match prompt, a, b, c, d, correct with
    | Some p, Some a, Some b, Some c, Some d, Some k => Some (p, a, b, c, d, k)
    | _, _, _, _, _, _ => None
    end
  else None.

(** The body of the loop [for i in range(1,6)] of [quiz_new]. *)
Definition question_step (quiz_id : Z) (f : form_data) (_ : unit) (i : Z)
  : db unit :=
  match question_row f i with
  | Some (prompt, a, b, c, d, correct) =>
      execute (insert_quiz_question quiz_id prompt a b c d correct)
  | None => ret tt
  end.

(** The body of the loop [for q in questions] of [quiz_take]. *)
Definition answer_step (resp_id : Z) (f : form_data) (score : float)
  (q : quiz_question) : db float :=
  let ans := submitted_answer f q in
  execute (insert_quiz_answer resp_id (qq_id q) ans) ;;
  ret (if eq_opt_str ans (qq_correct q) then (score + 1)%float else score).

(** ** The handlers *)

Section Handlers.

(** [str.strip] and [str.lower]. *)
Variables py_strip py_lower : string -> string.

(** [werkzeug.security.generate_password_hash]. *)
Variable generate_password_hash : string -> string.

(** SQLite's ORDER BY key DESC on a TEXT key. *)
Variable order_by_desc : forall A : Type, (A -> string) -> list A -> list A.

(** The rowid a text parameter compares equal to under INTEGER affinity. *)
Variable text_as_rowid : string -> option Z.

(** What a text bound to a REAL column is stored as. *)
Variable real_affinity : string -> real_value.

(** UPDATE submissions SET score=?, feedback=? WHERE id=?  The three
    parameters are texts of the form, or NULL for a field that is absent. *)
Definition update_grade (score feedback : option string) (sid : string)
  (s : store) : exn + store :=
  inr (with_submissions s
         (update_rows
            (fun r => match text_as_rowid sid with
                      | Some i => sub_id r =? i
                      | None => false
                      end)
            (fun r => Submission (sub_id r) (sub_assignment_id r)
                        (sub_student_id r) (sub_content r)
                        (sub_submitted_at r)
                        (option_map real_affinity score) feedback)
            (submissions s))).

(** SELECT a.*, u.name AS author FROM announcements a
    LEFT JOIN users u ON a.created_by=u.id ORDER BY created_at DESC *)
Definition select_announcements (s : store)
  : list (announcement * option string) :=
  order_by_desc _ (fun r => an_created_at (fst r))
    (flat_map (left_join_user an_created_by (rows (users s)))
              (rows (announcements_t s))).

(** SELECT s.*, u.name AS student_name FROM submissions s
    LEFT JOIN users u ON u.id=s.student_id
    WHERE s.assignment_id=? ORDER BY submitted_at DESC *)
Definition select_submissions_of (aid : Z) (s : store)
  : list (submission * option string) :=
  order_by_desc _ (fun r => sub_submitted_at (fst r))
    (flat_map (left_join_user (fun r => Some (sub_student_id r))
                              (rows (users s)))
              (filter (fun r => sub_assignment_id r =? aid)
                      (rows (submissions s)))).

(** SELECT r.*, u.name AS student_name FROM quiz_responses r
    LEFT JOIN users u ON u.id=r.student_id
    WHERE r.quiz_id=? ORDER BY submitted_at DESC *)
Definition select_results (qid : Z) (s : store)
  : list (quiz_response * option string) :=
  order_by_desc _ (fun r => qr_submitted_at (fst r))
    (flat_map (left_join_user (fun r => Some (qr_student_id r))
                              (rows (users s)))
              (filter (fun r => qr_quiz_id r =? qid)
                      (rows (quiz_responses s)))).

Definition register (req : request) : db response :=
  if is_post req then
    let name := py_strip (or_str (form_get (form req) "name") "") in
    let email := py_lower (py_strip (or_str (form_get (form req) "email") "")) in
    let pw := or_str (form_get (form req) "password") "" in
    let role := form_get (form req) "role" in
    match role with
    | Some r =>
        if String.eqb name "" || String.eqb email "" || String.eqb pw ""
           || negb (in_list r roles)
        then ret (Redirect EpRegister
                    (Some (Flash "Fill all fields correctly." "danger")))
        else
          try_integrity
            (execute (insert_user name email (generate_password_hash pw) r
                                  (now req)) ;;
             commit ;;
             ret (Redirect EpLogin
                    (Some (Flash "Registration successful. Please login."
                                 "success"))))
            (ret (Redirect EpRegister
                    (Some (Flash "Email already registered." "warning"))))
    | None =>
        ret (Redirect EpRegister
               (Some (Flash "Fill all fields correctly." "danger")))
    end
  else ret (Render RegisterPage).

Definition announcements : db response :=
  listing <- query select_announcements ;;
  ret (Render (AnnouncementsPage listing)).

Definition assignment_detail (aid : Z) (req : request) : db response :=
  a <- fetch (select_assignment aid) ;;
  match a with
  | None =>
      ret (Redirect EpAssignments
             (Some (Flash "Assignment not found." "warning")))
  | Some a =>
      let uid := session_id req in
      own <- (if has_role req "student"
              then query (select_submission aid uid)
              else ret None) ;;
      if has_role req "student" && is_post req then
        let content := or_str (form_get (form req) "content") "" in
        ex <- query (select_submission aid uid) ;;
        match ex with
        | Some ex => execute (update_submission content (now req) (sub_id ex))
        | None => execute (insert_submission aid uid content (now req))
        end ;;
        commit ;;
        ret (Redirect (EpAssignmentDetail aid)
               (Some (Flash "Submission saved." "success")))
      else
        subs <- (if has_role req "teacher"
                 then query (select_submissions_of aid)
                 else ret []) ;;
        let sid := form_get (form req) "sid" in
        let score := form_get (form req) "score" in
        let feedback := form_get (form req) "feedback" in
        match sid with
        | Some sid' =>
            if has_role req "teacher" && is_post req && truthy sid then
              execute (update_grade score feedback sid') ;;
              commit ;;
              ret (Redirect (EpAssignmentDetail aid)
                     (Some (Flash "Graded." "success")))
            else ret (Render (AssignmentDetailPage a own subs))
        | None => ret (Render (AssignmentDetailPage a own subs))
        end
  end.

Definition quiz_new (req : request) : db response :=
  if negb (has_role req "teacher") then
    ret (Redirect EpLogin (Some (Flash "Teacher login required." "warning")))
  else if is_post req then
    let title := or_str (form_get (form req) "title") "Untitled Quiz" in
    execute (insert_quiz title (now req) (session_id req)) ;;
    commit ;;
    last <- query select_last_quiz_id ;;
    match last with
    | None => raise TypeError
    | Some quiz_id =>
        for_each [1; 2; 3; 4; 5] (question_step quiz_id (form req)) tt ;;
        commit ;;
        ret (Redirect EpQuizzes (Some (Flash "Quiz created." "success")))
    end
  else ret (Render QuizFormPage).

Definition quiz_take (qid : Z) (req : request) : db response :=
  quiz <- fetch (select_quiz qid) ;;
  match quiz with
  | None => ret (Redirect EpQuizzes (Some (Flash "Quiz not found." "warning")))
  | Some quiz =>
      questions <- query (select_questions qid) ;;
      if is_post req then
        if negb (has_role req "student") then
          ret (Redirect EpLogin
                 (Some (Flash "Student login required." "warning")))
        else
          let uid := session_id req in
          ex <- query (select_response qid uid) ;;
          match ex with
          | Some _ =>
              ret (Redirect (EpQuizTake qid)
                     (Some (Flash "You already submitted this quiz." "info")))
          | None =>
              execute (insert_quiz_response qid uid (now req)) ;;
              resp <- query (select_response qid uid) ;;
              match resp with
              | None => raise TypeError
              | Some resp =>
                  let resp_id := qr_id resp in
                  score <- for_each questions
                             (answer_step resp_id (form req)) 0%float ;;
                  let total := len_or_1 questions in
                  ratio <- py_truediv score total ;;
                  let pct := (ratio * 100)%float in
                  execute (update_response_score pct resp_id) ;;
                  commit ;;
                  ret (Redirect EpQuizzes (Some (FlashScore pct)))
              end
          end
      else
        results <- (if has_role req "teacher"
                    then query (select_results qid)
                    else ret []) ;;
        ret (Render (QuizTakePage quiz questions results))
  end.

End Handlers.

(** ** Vocabulary of the statements *)

(** An answer the CHECK on [quiz_answers.answer] accepts. *)
Definition answer_ok (o : option string) : bool :=
  match o with
  | Some a => in_list a labels
  | None => true
  end.

(** Number of questions whose submitted answer equals the correct label. *)
Definition correct_count (f : form_data) (qs : list quiz_question) : Z :=
  Z.of_nat (length (filter (fun q => eq_opt_str (submitted_answer f q)
                                                (qq_correct q)) qs)).

(** The answer rows one submission appends, question by question. *)
Definition add_answers (resp_id : Z) (f : form_data) (qs : list quiz_question)
  (t : table quiz_answer) : table quiz_answer :=
  fold_left
    (fun t q => insert_row qa_id
                  (fun i => QuizAnswer i resp_id (qq_id q) (submitted_answer f q))
                  t)
    qs t.

(** The running value of [score] in the loop of [quiz_take]. *)
Definition tally (f : form_data) (qs : list quiz_question) (score : float)
  : float :=
  fold_left
    (fun sc q => if eq_opt_str (submitted_answer f q) (qq_correct q)
                 then (sc + 1)%float else sc)
    qs score.

(** The percentage [quiz_take] computes for a form. *)
Definition percentage (f : form_data) (qs : list quiz_question) : float :=
  (tally f qs 0 / float_of_Z (len_or_1 qs) * 100)%float.

(** [count / total * 100] in binary64 for two integers. *)
Definition percentage64 (count total : Z) : float :=
  (float_of_Z count / float_of_Z total * 100)%float.

(** The rational a finite binary64 value stands for. *)
Definition Q_of_float (x : float) : Q :=
  match Prim2SF x with
  | S754_finite sign m e =>
      let v := if 0 <=? e then inject_Z (Z.pos m * 2 ^ e)
               else (Z.pos m # Pos.shiftl 1 (Z.to_N (- e)))%Q in
      if sign then Qopp v else v
  | _ => 0%Q
  end.

(** A percentage: a finite float between 0 and 100. *)
Definition is_percentage (x : float) : bool :=
  PrimFloat.is_finite x && PrimFloat.leb 0 x && PrimFloat.leb x 100.

(** The quizzes the arithmetic facts below were checked for, one by one;
    [quiz_new] stores five questions at most. *)
Definition quiz_size_limit : nat := 100.

(** Adding 1.0 to the float of a count gives the float of the next count. *)
Definition counts_exact (n : nat) : bool :=
  forallb (fun c => PrimFloat.Leibniz.eqb
                      (float_of_Z (Z.of_nat c) + 1)%float
                      (float_of_Z (Z.of_nat c + 1)))
          (List.seq 0 n).

(** [x] is within 2^-45 of [count / total * 100]. *)
Definition near_percentage (x : float) (count total : Z) : Prop :=
  (Qabs (Q_of_float x - inject_Z count / inject_Z total * 100)
   <= 1 # 35184372088832)%Q.

Definition near_percentageb (x : float) (count total : Z) : bool :=
  match (Qabs (Q_of_float x - inject_Z count / inject_Z total * 100)
         ?= 1 # 35184372088832)%Q with
  | Gt => false
  | _ => true
  end.

(** The binary64 percentage of [c] out of [t] is a percentage and is near
    the exact one. *)
Definition percentage_checked (c t : nat) : bool :=
  is_percentage (percentage64 (Z.of_nat c) (Z.of_nat t))
  && near_percentageb (percentage64 (Z.of_nat c) (Z.of_nat t))
                      (Z.of_nat c) (Z.of_nat t).

(** The database after one quiz submission went through: one response row
    carrying the percentage, and one answer row per question. *)
Definition record_submission (s : store) (qid uid : Z) (submitted_at : string)
  (f : form_data) : store :=
  let qs := select_questions qid s in
  let rid := next_rowid qr_id (quiz_responses s) in
  with_quiz_answers
    (with_quiz_responses s
       (Table (rows (quiz_responses s)
               ++ [QuizResponse rid qid uid submitted_at (percentage f qs)])
              rid))
    (add_answers rid f qs (quiz_answers s)).

(** How [quiz_take] reports a second attempt (AlreadySubmittedError). *)
Definition AlreadySubmittedError (qid : Z) : response :=
  Redirect (EpQuizTake qid)
           (Some (Flash "You already submitted this quiz." "info")).

(** How [register] reports a taken address (DuplicateEmailError). *)
Definition DuplicateEmailError : response :=
  Redirect EpRegister (Some (Flash "Email already registered." "warning")).

(** What an answer row holds besides its rowid. *)
Definition answer_fields (a : quiz_answer) : Z * Z * option string :=
  (qa_response_id a, qa_question_id a, qa_answer a).

(** [s'] is [s] with one whole quiz submission added: the response row with
    its final score, one answer row per question of the quiz in question
    order, and nothing else. *)
Definition fully_recorded (s s' : store) (qid uid : Z) (submitted_at : string)
  (f : form_data) : Prop :=
  let qs := select_questions qid s in
  exists (rid : Z) (answers : list quiz_answer),
    rows (quiz_responses s')
    = (rows (quiz_responses s)
       ++ [QuizResponse rid qid uid submitted_at (percentage f qs)])%list
    /\ rows (quiz_answers s') = (rows (quiz_answers s) ++ answers)%list
    /\ map answer_fields answers
       = map (fun q => (rid, qq_id q, submitted_answer f q)) qs
    /\ users s' = users s
    /\ announcements_t s' = announcements_t s
    /\ assignments_t s' = assignments_t s
    /\ submissions s' = submissions s
    /\ quizzes_t s' = quizzes_t s
    /\ quiz_questions s' = quiz_questions s.

(** The key of the UNIQUE(assignment_id, student_id) constraint. *)
Definition sub_pair (r : submission) : Z * Z :=
  (sub_assignment_id r, sub_student_id r).

(** PRIMARY KEY and UNIQUE(assignment_id, student_id) on [submissions]. *)
Definition submissions_ok (s : store) : Prop :=
  NoDup (map sub_id (rows (submissions s)))
  /\ NoDup (map sub_pair (rows (submissions s))).

(** [request.form.get("content") or ""] *)
Definition submitted_content (req : request) : string :=
  or_str (form_get (form req) "content") "".

(** The database after [assignment_detail] has served a request: the
    student branch upserts, the teacher branch grades, every other path
    writes nothing. *)
Definition assignment_detail_effect (text_as_rowid : string -> option Z)
  (real_affinity : string -> real_value)
  (aid : Z) (req : request) (s : store) : store :=
  match select_assignment aid s with
  | inr (Some _) =>
      if has_role req "student" && is_post req then
        match select_submission aid (session_id req) s with
        | Some ex =>
            with_submissions s
              (update_rows (fun r => sub_id r =? sub_id ex)
                 (fun r => Submission (sub_id r) (sub_assignment_id r)
                             (sub_student_id r) (Some (submitted_content req))
                             (now req) (sub_score r) (sub_feedback r))
                 (submissions s))
        | None =>
            with_submissions s
              (insert_row sub_id
                 (fun i => Submission i aid (session_id req)
                             (Some (submitted_content req)) (now req) None None)
                 (submissions s))
        end
      else
        match form_get (form req) "sid" with
        | Some sid =>
            if has_role req "teacher" && is_post req && negb (String.eqb sid "")
            then
              with_submissions s
                (update_rows
                   (fun r => match text_as_rowid sid with
                             | Some i => sub_id r =? i
                             | None => false
                             end)
                   (fun r => Submission (sub_id r) (sub_assignment_id r)
                               (sub_student_id r) (sub_content r)
                               (sub_submitted_at r)
                               (option_map real_affinity
                                           (form_get (form req) "score"))
                               (form_get (form req) "feedback"))
                   (submissions s))
            else s
        | None => s
        end
  | _ => s
  end.

(** A run of requests to [assignment_detail], each with its assignment id. *)
Definition serve_assignment_requests
  (order_by_desc : forall A : Type, (A -> string) -> list A -> list A)
  (text_as_rowid : string -> option Z)
  (real_affinity : string -> real_value)
  (reqs : list (Z * request)) (s : store) : store :=
  fold_left
    (fun s r => snd (serve (assignment_detail order_by_desc text_as_rowid
                                              real_affinity
                                              (fst r) (snd r)) s))
    reqs s.

(** A form field that is there and not empty. *)
Definition filled (o : option string) (v : string) : Prop :=
  o = Some v /\ v <> "".

(** Row [i] of the quiz form carries a prompt, four choices and one of the
    four labels. *)
Definition fully_filled (f : form_data) (i : Z)
  (row : string * string * string * string * string * string) : Prop :=
  let '(p, a, b, c, d, k) := row in
  filled (form_get f (question_key i "_prompt")) p
  /\ filled (form_get f (question_key i "_a")) a
  /\ filled (form_get f (question_key i "_b")) b
  /\ filled (form_get f (question_key i "_c")) c
  /\ filled (form_get f (question_key i "_d")) d
  /\ form_get f (question_key i "_correct") = Some k /\ In k labels.

(** What a question row holds besides its rowid. *)
Definition question_fields (q : quiz_question)
  : Z * (string * string * string * string * string * string) :=
  (qq_quiz_id q,
   (qq_prompt q, qq_choice_a q, qq_choice_b q, qq_choice_c q, qq_choice_d q,
    qq_correct q)).

(** [kept_rows f quiz_id idx l]: going through the form rows [idx] in
    order, [l] lists the fields of every fully filled row under [quiz_id],
    and has nothing for a row that is not fully filled. *)
Inductive kept_rows (f : form_data) (quiz_id : Z)
  : list Z
    -> list (Z * (string * string * string * string * string * string))
    -> Prop :=
| kept_done : kept_rows f quiz_id [] []
| kept_take i idx row l :
    fully_filled f i row ->
    kept_rows f quiz_id idx l ->
    kept_rows f quiz_id (i :: idx) ((quiz_id, row) :: l)
| kept_skip i idx l :
    (forall row, ~ fully_filled f i row) ->
    kept_rows f quiz_id idx l ->
    kept_rows f quiz_id (i :: idx) l.

(** The question rows one run of the loop of [quiz_new] appends. *)
Definition add_questions (quiz_id : Z) (f : form_data) (idx : list Z)
  (t : table quiz_question) : table quiz_question :=
  fold_left
    (fun t i => match question_row f i with
                | Some (p, a, b, c, d, k) =>
                    insert_row qq_id
                      (fun id => QuizQuestion id quiz_id p a b c d k) t
                | None => t
                end)
    idx t.

(** The quiz row [quiz_new] inserts. *)
Definition new_quiz (s : store) (req : request) : quiz :=
  Quiz (next_rowid qz_id (quizzes_t s))
       (or_str (form_get (form req) "title") "Untitled Quiz")
       (now req) (Some (session_id req)).

(** [quiz_new] from the statement after its first [db.commit()] on. *)
Definition quiz_new_questions (req : request) : db response :=
  last <- query select_last_quiz_id ;;
  match last with
  | None => raise TypeError
  | Some quiz_id =>
      for_each [1; 2; 3; 4; 5] (question_step quiz_id (form req)) tt ;;
      commit ;;
      ret (Redirect EpQuizzes (Some (Flash "Quiz created." "success")))
  end.

(** The fields of a registration form as [register] reads them. *)
Definition form_name (strip : string -> string) (req : request) : string :=
  strip (or_str (form_get (form req) "name") "").

Definition form_email (strip lower : string -> string) (req : request)
  : string :=
  lower (strip (or_str (form_get (form req) "email") "")).

Definition form_password (req : request) : string :=
  or_str (form_get (form req) "password") "".

Definition form_role (req : request) : string :=
  match form_get (form req) "role" with
  | Some r => r
  | None => ""
  end.

(** The form passes the check [not name or not email or not pw or role not
    in ("teacher","student")]. *)
Definition fields_ok (strip lower : string -> string) (req : request) : bool :=
  negb (String.eqb (form_name strip req) "")
  && negb (String.eqb (form_email strip lower req) "")
  && negb (String.eqb (form_password req) "")
  && in_strs (form_get (form req) "role") roles.

(** Some user row holds the address. *)
Definition email_taken (email : string) (s : store) : bool :=
  existsb (fun u => String.eqb (u_email u) email) (rows (users s)).

(** The user row a registration inserts. *)
Definition new_user (strip lower hash : string -> string) (s : store)
  (req : request) : user :=
  User (next_rowid u_id (users s)) (form_name strip req)
       (form_email strip lower req) (hash (form_password req))
       (form_role req) (now req).

(** ** Instances of the library routines *)

Module Lib.

(** [str.lower] on ASCII text. *)
Definition lower_char (c : ascii) : ascii :=
  let n := nat_of_ascii c in
  if (Nat.leb 65 n && Nat.leb n 90)%bool then ascii_of_nat (n + 32) else c.

Fixpoint lower (s : string) : string :=
  match s with
  | EmptyString => EmptyString
  | String c s' => String (lower_char c) (lower s')
  end.

(** [str.strip] on ASCII text: blanks, tabs and line breaks go. *)
Definition is_space (c : ascii) : bool :=
  let n := nat_of_ascii c in
  (Nat.eqb n 32 || (Nat.leb 9 n && Nat.leb n 13))%bool.

Fixpoint lstrip (l : list ascii) : list ascii :=
  match l with
  | c :: l' => if is_space c then lstrip l' else l
  | [] => []
  end.

Definition strip (s : string) : string :=
  string_of_list_ascii
    (rev (lstrip (rev (lstrip (list_ascii_of_string s))))).

(** A stand-in for the salted hash: it only has to be some string. *)
Definition hash (pw : string) : string := "pbkdf2:" ++ pw.

(** Decimal text read as a rowid. *)
Definition rowid_of_text (s : string) : option Z :=
  option_map Z.of_int (NilZero.int_of_string s).

(** An ORDER BY ... DESC that keeps rows with equal keys in the order it
    met them: insertion sort. *)
Fixpoint insert_desc {A} (key : A -> string) (x : A) (l : list A) : list A :=
  match l with
  | [] => [x]
  | y :: l' =>
      if String.leb (key y) (key x) then x :: l
      else y :: insert_desc key x l'
  end.

Definition sort_desc (A : Type) (key : A -> string) (l : list A) : list A :=
  fold_right (insert_desc key) [] l.

(** REAL affinity on the texts the examples bind: a run of decimal digits
    that stands for a number below 2^53 is stored as that number. *)
Definition is_digit (c : ascii) : bool :=
  let n := nat_of_ascii c in (Nat.leb 48 n && Nat.leb n 57)%bool.

Definition real_of_text (s : string) : real_value :=
  match s, NilZero.int_of_string s with
  | String _ _, Some n =>
      if forallb is_digit (list_ascii_of_string s) && (Z.of_int n <? 2 ^ 53)
      then RealNumber (float_of_Z (Z.of_int n))
      else RealText s
  | _, _ => RealText s
  end.

End Lib.

(** [x] may stand before [y] under ORDER BY key DESC: TEXT keys compare
    byte by byte. *)
Definition desc_by {A} (key : A -> string) (x y : A) : Prop :=
  String.leb (key y) (key x) = true.

(** What ORDER BY key DESC promises about its result: the same rows, each
    before all rows with a smaller or equal key.  It says nothing about
    the order of rows with equal keys. *)
Definition sorts_desc
  (order : forall A : Type, (A -> string) -> list A -> list A) : Prop :=
  forall (A : Type) (key : A -> string) (l : list A),
    Permutation (order A key l) l
    /\ StronglySorted (desc_by key) (order A key l).

(** What SQLite's sorter does beyond that: rows with equal keys leave it
    in the order in which the scan fed them, which for these queries is the
    rowid order of the table on the left of the join. *)
Definition keeps_ties
  (order : forall A : Type, (A -> string) -> list A -> list A) : Prop :=
  forall (A : Type) (key : A -> string) (l : list A) (k : string),
    filter (fun x => String.eqb (key x) k) (order A key l)
    = filter (fun x => String.eqb (key x) k) l.

(** The rows of a table are kept in rowid order. *)
Definition in_rowid_order {A} (rowid : A -> Z) (t : table A) : Prop :=
  StronglySorted Z.lt (map rowid (rows t)).

(** The author a LEFT JOIN on [users.id] shows for a row. *)
Definition author_of (s : store) (created_by : option Z) : option string :=
  match created_by with
  | Some i => option_map u_name (find (fun u => u_id u =? i) (rows (users s)))
  | None => None
  end.

(** Announcements with equal [created_at] come in ascending id. *)
Definition ties_in_id_order (l : list announcement) : Prop :=
  forall (l1 l2 l3 : list announcement) (a b : announcement),
    l = (l1 ++ a :: l2 ++ b :: l3)%list ->
    an_created_at a = an_created_at b ->
    an_id a < an_id b.

(** ** A small database to run the handlers on *)

Module Demo.

Definition teacher : user :=
  User 1 "Teacher Demo" "teacher@classhub.local" "pbkdf2:password123"
       "teacher" "2024-01-01T09:00:00".
Definition student : user :=
  User 2 "Student Demo" "student@classhub.local" "pbkdf2:password123"
       "student" "2024-01-01T09:00:00".

Definition as_teacher : identity :=
  Identity 1 "Teacher Demo" "teacher" "teacher@classhub.local".
Definition as_student : identity :=
  Identity 2 "Student Demo" "student" "student@classhub.local".

Definition questions : list quiz_question :=
  [ QuizQuestion 1 1 "ClassHub is?" "Course hub" "Bank" "Game" "Shop" "A";
    QuizQuestion 2 1 "Who posts assignments?" "Parents" "Teachers"
                 "Students" "Guests" "B";
    QuizQuestion 3 1 "Theme colors are?" "Orange/White" "Green/Black"
                 "Purple/Gold" "Blue/Gray" "C" ].

Definition quiz1 : quiz :=
  Quiz 1 "Orientation Quiz" "2024-01-01T09:00:00" (Some 1).

Definition assignment1 : assignment :=
  Assignment 1 "Sample Assignment" (Some "Submit a paragraph or a link.")
             (Some "2024-01-08") "2024-01-01T09:00:00" (Some 1).

Definition db0 : store :=
  Store (Table [teacher; student] 2)
        (Table [Announcement 1 "Welcome to ClassHub"
                  "Explore assignments, discussions, and quizzes."
                  "2024-01-01T09:00:00" (Some 1)] 1)
        (Table [assignment1] 1)
        (Table [] 0)
        (Table [quiz1] 1)
        (Table questions 3)
        (Table [] 0)
        (Table [] 0).

(** The second answer is not a label: its INSERT breaks the CHECK after
    the response row and the first answer row were written. *)
Definition bad_answers : request :=
  Request POST [("q1", "A"); ("q2", "X"); ("q3", "C")] (Some as_student)
          "2024-01-02T10:00:00".

(** The student answers A, A, C: the second answer is wrong. *)
Definition answers : request :=
  Request POST [("q1", "A"); ("q2", "A"); ("q3", "C")] (Some as_student)
          "2024-01-02T10:00:00".

(** Requests to the detail page of the sample assignment. *)
Definition first_draft : request :=
  Request POST [("content", "first draft")] (Some as_student)
          "2024-01-03T10:00:00".
Definition second_draft : request :=
  Request POST [("content", "second draft")] (Some as_student)
          "2024-01-05T18:30:00".
Definition grading : request :=
  Request POST [("sid", "1"); ("score", "90"); ("feedback", "Good start")]
          (Some as_teacher) "2024-01-04T08:00:00".
Definition anonymous_post : request :=
  Request POST [("content", "hello"); ("sid", "1"); ("score", "100")] None
          "2024-01-04T09:00:00".
Definition teacher_post_without_sid : request :=
  Request POST [("score", "100"); ("feedback", "n/a")] (Some as_teacher)
          "2024-01-04T09:30:00".

(** The database once the student has handed in and the teacher graded. *)
Definition db_graded : store :=
  serve_assignment_requests Lib.sort_desc Lib.rowid_of_text Lib.real_of_text
    [(1, first_draft); (1, grading)] db0.

(** A quiz form: rows 1 and 3 are complete, row 2 lacks choice D, row 4
    has a label outside A-D, row 5 is empty. *)
Definition quiz_form : request :=
  Request POST
    [ ("title", "Week 1");
      ("q1_prompt", "2+2?"); ("q1_a", "3"); ("q1_b", "4"); ("q1_c", "5");
      ("q1_d", "6"); ("q1_correct", "B");
      ("q2_prompt", "Capital of France?"); ("q2_a", "Paris"); ("q2_b", "Rome");
      ("q2_c", "Oslo"); ("q2_d", ""); ("q2_correct", "A");
      ("q3_prompt", "H2O is?"); ("q3_a", "Salt"); ("q3_b", "Gold");
      ("q3_c", "Water"); ("q3_d", "Air"); ("q3_correct", "C");
      ("q4_prompt", "Largest planet?"); ("q4_a", "Mars"); ("q4_b", "Venus");
      ("q4_c", "Earth"); ("q4_d", "Jupiter"); ("q4_correct", "E");
      ("q5_prompt", "") ]
    (Some as_teacher) "2024-01-06T12:00:00".

(** A quiz form with a title and no complete row. *)
Definition empty_quiz_form : request :=
  Request POST [("title", "Draft"); ("q1_prompt", "To be written")]
          (Some as_teacher) "2024-01-07T12:00:00".

(** Two registration forms whose addresses differ in letter case (and in
    blanks around them). *)
Definition ada_registers : request :=
  Request POST [("name", "Ada"); ("email", "  Ada@Example.ORG ");
                ("password", "s3cret"); ("role", "student")]
          None "2024-01-08T08:00:00".

(** Two notices posted at the same instant, and a later one. *)
Definition db_notices : store :=
  Store (users db0)
        (Table [ Announcement 1 "Welcome to ClassHub"
                   "Explore assignments, discussions, and quizzes."
                   "2024-01-01T09:00:00" (Some 1);
                 Announcement 2 "Room change" "We meet in room 12."
                   "2024-01-01T09:00:00" (Some 1);
                 Announcement 3 "Quiz on Friday" "Chapters 1 to 3."
                   "2024-01-02T15:00:00" None ] 3)
        (assignments_t db0) (submissions db0) (quizzes_t db0)
        (quiz_questions db0) (quiz_responses db0) (quiz_answers db0).

End Demo.

(** ** The other pages of [app.py] *)

(** Where the handlers below redirect to, and what they render. *)
Inductive route :=
| To (e : endpoint)
| ToDashboard | ToAnnouncements.

Inductive screen :=
| LoginPage
| HomePage (latest : list announcement)
| AnnouncementFormPage
| AssignmentsPage (listing : list (assignment * option string))
| AssignmentFormPage
| QuizzesPage (listing : list (quiz * option string)).

Inductive reply :=
| Go (target : route) (flashed : option flash_msg)
| Show (page : screen).

(** One request to a handler of any result type: what it returns, or the
    exception it dies with, and the database it leaves. *)
Definition run {A} (h : db A) (s : store) : (exn + A) * store :=
  match h (Conn s s []) with
  | (r, c) => (r, committed c)
  end.

(** SELECT * FROM users WHERE email=? *)
Definition select_user_by_email (email : string) (s : store) : option user :=
  find (fun u => String.eqb (u_email u) email) (rows (users s)).

(** INSERT INTO announcements(title,body,created_at,created_by) *)
Definition insert_announcement (title body created_at : string) (uid : Z)
  (s : store) : exn + store :=
  inr (Store (users s)
             (insert_row an_id
                (fun i => Announcement i title body created_at (Some uid))
                (announcements_t s))
             (assignments_t s) (submissions s) (quizzes_t s)
             (quiz_questions s) (quiz_responses s) (quiz_answers s)).

(** INSERT INTO assignments(title,description,due_date,created_at,created_by) *)
Definition insert_assignment (title description : string)
  (due_date : option string) (created_at : string) (uid : Z) (s : store)
  : exn + store :=
  inr (Store (users s) (announcements_t s)
             (insert_row as_id
                (fun i => Assignment i title (Some description) due_date
                            created_at (Some uid))
                (assignments_t s))
             (submissions s) (quizzes_t s)
             (quiz_questions s) (quiz_responses s) (quiz_answers s)).

(** [x or None] for [x : str | None]. *)
Definition or_null (o : option string) : option string :=
  match o with
  | Some s => if String.eqb s "" then None else Some s
  | None => None
  end.

(** The identity [login] puts into the session for a user row. *)
Definition identity_of (u : user) : identity :=
  Identity (u_id u) (u_name u) (u_role u) (u_email u).

(** ["user" not in session or session["user"]["role"] != "teacher"] *)
Definition not_teacher (req : request) : bool :=
  negb (has_role req "teacher").

Section OtherHandlers.

Variables py_strip py_lower : string -> string.

(** [werkzeug.security.check_password_hash]. *)
Variable check_password_hash : string -> string -> bool.

Variable order_by_desc : forall A : Type, (A -> string) -> list A -> list A.

(** SELECT * FROM announcements ORDER BY created_at DESC LIMIT 4 *)
Definition select_latest_announcements (s : store) : list announcement :=
  firstn 4 (order_by_desc _ an_created_at (rows (announcements_t s))).

(** SELECT a.*, u.name AS author FROM assignments a
    LEFT JOIN users u ON a.created_by=u.id ORDER BY created_at DESC *)
Definition select_assignments (s : store)
  : list (assignment * option string) :=
  order_by_desc _ (fun r => as_created_at (fst r))
    (flat_map (left_join_user as_created_by (rows (users s)))
              (rows (assignments_t s))).

(** SELECT q.*, u.name AS author FROM quizzes q
    LEFT JOIN users u ON q.created_by=u.id ORDER BY created_at DESC *)
Definition select_quizzes (s : store) : list (quiz * option string) :=
  order_by_desc _ (fun r => qz_created_at (fst r))
    (flat_map (left_join_user qz_created_by (rows (users s)))
              (rows (quizzes_t s))).

(** The handler returns its response and the session it leaves. *)
Definition login (req : request) : db (reply * option identity) :=
  if is_post req then
    let email := py_lower (py_strip (or_str (form_get (form req) "email") "")) in
    let pw := or_str (form_get (form req) "password") "" in
    user <- query (select_user_by_email email) ;;
    match user with
    | Some u =>
        if check_password_hash (u_password_hash u) pw then
          ret (Go ToDashboard (Some (Flash "Welcome back!" "success")),
               Some (identity_of u))
        else
          ret (Go (To EpLogin) (Some (Flash "Invalid credentials." "danger")),
               session req)
    | None =>
        ret (Go (To EpLogin) (Some (Flash "Invalid credentials." "danger")),
             session req)
    end
  else ret (Show LoginPage, session req).

Definition index : db reply :=
  ann <- query select_latest_announcements ;;
  ret (Show (HomePage ann)).

Definition announcement_new (req : request) : db reply :=
  if not_teacher req then
    ret (Go (To EpLogin) (Some (Flash "Teacher login required." "warning")))
  else if is_post req then
    execute (insert_announcement (or_str (form_get (form req) "title") "Untitled")
                                 (or_str (form_get (form req) "body") "")
                                 (now req) (session_id req)) ;;
    commit ;;
    ret (Go ToAnnouncements (Some (Flash "Announcement posted." "success")))
  else ret (Show AnnouncementFormPage).

Definition assignments : db reply :=
  listing <- query select_assignments ;;
  ret (Show (AssignmentsPage listing)).

Definition assignment_new (req : request) : db reply :=
  if not_teacher req then
    ret (Go (To EpLogin) (Some (Flash "Teacher login required." "warning")))
  else if is_post req then
    execute (insert_assignment (or_str (form_get (form req) "title") "Untitled")
                               (or_str (form_get (form req) "description") "")
                               (or_null (form_get (form req) "due_date"))
                               (now req) (session_id req)) ;;
    commit ;;
    ret (Go (To EpAssignments)
            (Some (Flash "Assignment created successfully." "success")))
  else ret (Show AssignmentFormPage).

Definition quizzes : db reply :=
  listing <- query select_quizzes ;;
  ret (Show (QuizzesPage listing)).

End OtherHandlers.

(** ** Discussions and the demo data: the whole database *)

Module Forum.

Record discussion := Discussion
  { d_id : Z; d_topic : string; d_created_at : string;
    d_created_by : option Z }.

Record discussion_post := DiscussionPost
  { p_id : Z; p_discussion_id : Z; p_author_id : Z; p_body : string;
    p_created_at : string }.

(** The eight tables above and the two of the discussions. *)
Record database := Database
  { core : store;
    discussions_t : table discussion;
    discussion_posts : table discussion_post }.

Record fconn := FConn { fcommitted : database; fworking : database }.

Definition fdb (A : Type) : Type := fconn -> (exn + A) * fconn.

Definition fret {A} (a : A) : fdb A := fun c => (inr a, c).

Definition fbind {A B} (m : fdb A) (k : A -> fdb B) : fdb B :=
  fun c =>
    match m c with
    | (inl e, c') => (inl e, c')
    | (inr a, c') => k a c'
    end.

Definition fraise {A} (e : exn) : fdb A := fun c => (inl e, c).

Declare Scope fdb_scope.
Delimit Scope fdb_scope with fdb.
Notation "x <- m ;; k" := (fbind m (fun x => k))
  (at level 100, m at next level, right associativity) : fdb_scope.
Notation "m ;; k" := (fbind m (fun _ => k))
  (at level 100, right associativity) : fdb_scope.
Local Open Scope fdb_scope.

Definition fquery {A} (f : database -> A) : fdb A :=
  fun c => (inr (f (fworking c)), c).

Definition ffetch {A} (f : database -> exn + A) : fdb A :=
  fun c =>
    match f (fworking c) with
    | inl e => (inl e, c)
    | inr a => (inr a, c)
    end.

Definition fexecute (f : database -> exn + database) : fdb unit :=
  fun c =>
    match f (fworking c) with
    | inl e => (inl e, c)
    | inr w => (inr tt, FConn (fcommitted c) w)
    end.

Definition fcommit : fdb unit :=
  fun c => (inr tt, FConn (fworking c) (fworking c)).

Fixpoint ffor_each {A S} (l : list A) (body : S -> A -> fdb S) (acc : S)
  : fdb S :=
  match l with
  | [] => fret acc
  | x :: l' => acc' <- body acc x ;; ffor_each l' body acc'
  end.

(** One request, or one call at start-up, on the whole database. *)
Definition frun {A} (h : fdb A) (s : database) : (exn + A) * database :=
  match h (FConn s s) with
  | (r, c) => (r, fcommitted c)
  end.

(** A statement on one of the eight tables, run on the whole database. *)
Definition on_core (f : store -> exn + store) (s : database)
  : exn + database :=
  match f (core s) with
  | inl e => inl e
  | inr s' => inr (Database s' (discussions_t s) (discussion_posts s))
  end.

(** INSERT INTO discussions(topic, created_at, created_by) *)
Definition insert_discussion (topic created_at : string) (uid : Z)
  (s : database) : exn + database :=
  inr (Database (core s)
                (insert_row d_id
                   (fun i => Discussion i topic created_at (Some uid))
                   (discussions_t s))
                (discussion_posts s)).

(** INSERT INTO discussion_posts(discussion_id,author_id,body,created_at) *)
Definition insert_post (did uid : Z) (body created_at : string)
  (s : database) : exn + database :=
  inr (Database (core s) (discussions_t s)
                (insert_row p_id
                   (fun i => DiscussionPost i did uid body created_at)
                   (discussion_posts s))).

(** SELECT * FROM discussions WHERE id=?  The id comes from the URL and
    has to fit a 64-bit INTEGER to be bound. *)
Definition select_discussion (did : Z) (s : database)
  : exn + option discussion :=
  bind_int did (find (fun d => d_id d =? did) (rows (discussions_t s))).

Inductive froute :=
| ToLogin | ToDiscussions | ToDiscussionDetail (did : Z).

Inductive fpage :=
| DiscussionsPage (listing : list (discussion * option string))
| DiscussionFormPage
| DiscussionDetailPage (d : discussion)
                       (posts : list (discussion_post * option string)).

Inductive freply :=
| FGo (target : froute) (flashed : option flash_msg)
| FShow (page : fpage).

Section ForumHandlers.

Variables order_by_desc order_by_asc
  : forall A : Type, (A -> string) -> list A -> list A.

(** SELECT d.*, u.name AS author FROM discussions d
    LEFT JOIN users u ON d.created_by=u.id ORDER BY created_at DESC *)
Definition select_discussions (s : database)
  : list (discussion * option string) :=
  order_by_desc _ (fun r => d_created_at (fst r))
    (flat_map (left_join_user d_created_by (rows (users (core s))))
              (rows (discussions_t s))).

(** SELECT p.*, u.name AS author FROM discussion_posts p
    LEFT JOIN users u ON u.id=p.author_id
    WHERE p.discussion_id=? ORDER BY created_at ASC *)
Definition select_posts (did : Z) (s : database)
  : list (discussion_post * option string) :=
  order_by_asc _ (fun r => p_created_at (fst r))
    (flat_map (left_join_user (fun p => Some (p_author_id p))
                              (rows (users (core s))))
              (filter (fun p => p_discussion_id p =? did)
                      (rows (discussion_posts s)))).

Definition discussions : fdb freply :=
  listing <- fquery select_discussions ;;
  fret (FShow (DiscussionsPage listing)).


Definition discussion_detail (did : Z) (req : request) : fdb freply :=
  d <- ffetch (select_discussion did) ;;
  match d with
  | None =>
      fret (FGo ToDiscussions (Some (Flash "Discussion not found." "warning")))
  | Some d =>
      posts <- fquery (select_posts did) ;;
      if is_post req then
        match session req with
        | None => fret (FGo ToLogin (Some (Flash "Login first." "warning")))
        | Some u =>
            let body := or_str (form_get (form req) "body") "" in
            fexecute (insert_post did (id_id u) body (now req)) ;;
            fcommit ;;
            fret (FGo (ToDiscussionDetail did) None)
        end
      else fret (FShow (DiscussionDetailPage d posts))
  end.

End ForumHandlers.

(** What [seed_demo] reads from outside the database: the two values of
    [utcnow().isoformat()], the due date a week ahead, and the two salted
    hashes of "password123". *)
Record seed_env := SeedEnv
  { se_now_users : string; se_now_content : string; se_due : string;
    se_hash_teacher : string; se_hash_student : string }.

Definition seed_questions
  : list (string * string * string * string * string * string) :=
  [ ("ClassHub is?", "Bank", "Course hub", "Game", "Shop", "B");
    ("Who posts assignments?", "Parents", "Students", "Teachers", "Guests",
     "C");
    ("Theme colors are?", "Orange/White", "Green/Black", "Purple/Gold",
     "Blue/Gray", "A") ].

(** SELECT id FROM users WHERE role='teacher' LIMIT 1 *)
Definition select_a_teacher (s : database) : option user :=
  find (fun u => String.eqb (u_role u) "teacher") (rows (users (core s))).

Definition seed_demo (e : seed_env) : fdb unit :=
  n_users <- fquery (fun s => length (rows (users (core s)))) ;;
  (if Nat.eqb n_users 0 then
     fexecute (on_core (insert_user "Teacher Demo" "teacher@classhub.local"
                          (se_hash_teacher e) "teacher" (se_now_users e))) ;;
     fexecute (on_core (insert_user "Student Demo" "student@classhub.local"
                          (se_hash_student e) "student" (se_now_users e))) ;;
     fcommit
   else fret tt) ;;
  n_ann <- fquery (fun s => length (rows (announcements_t (core s)))) ;;
  if Nat.eqb n_ann 0 then
    teacher <- fquery select_a_teacher ;;
    match teacher with
    | None => fraise TypeError
    | Some t =>
        let tid := u_id t in
        let now := se_now_content e in
        fexecute (on_core (insert_announcement "Welcome to ClassHub"
                             "Explore assignments, discussions, and quizzes."
                             now tid)) ;;
        fexecute (on_core (insert_assignment "Sample Assignment"
                             "Submit a paragraph or a link."
                             (Some (se_due e)) now tid)) ;;
        fexecute (insert_discussion "Introduce yourself" now tid) ;;
        fexecute (on_core (insert_quiz "Orientation Quiz" now tid)) ;;
        last <- fquery (fun s => select_last_quiz_id (core s)) ;;
        match last with
        | None => fraise TypeError
        | Some qid =>
            ffor_each seed_questions
              (fun _ q =>
                 let '(p, a, b, c, d, ans) := q in
                 fexecute (on_core (insert_quiz_question qid p a b c d ans)))
              tt ;;
            fcommit
        end
    end
  else fret tt.

End Forum.

(** ** Vocabulary of the further statements *)

(** PRIMARY KEY, UNIQUE(email) and the CHECK on [role] of [users]. *)
Definition users_ok (s : store) : Prop :=
  NoDup (map u_id (rows (users s)))
  /\ NoDup (map u_email (rows (users s)))
  /\ Forall (fun u => In (u_role u) roles) (rows (users s)).

(** The key of the UNIQUE(quiz_id, student_id) constraint. *)
Definition resp_pair (r : quiz_response) : Z * Z :=
  (qr_quiz_id r, qr_student_id r).

(** PRIMARY KEY and UNIQUE(quiz_id, student_id) on [quiz_responses]. *)
Definition responses_ok (s : store) : Prop :=
  NoDup (map qr_id (rows (quiz_responses s)))
  /\ NoDup (map resp_pair (rows (quiz_responses s))).

(** Every stored quiz score is a percentage. *)
Definition scores_in_range (s : store) : Prop :=
  Forall (fun r => is_percentage (qr_score r) = true)
         (rows (quiz_responses s)).

(** Every answer row belongs to a response row that is there, and holds no
    answer or one of the four labels. *)
Definition answers_sound (s : store) : Prop :=
  Forall (fun a => answer_ok (qa_answer a) = true
                   /\ exists r, In r (rows (quiz_responses s))
                                /\ qr_id r = qa_response_id a)
         (rows (quiz_answers s)).

(** [x] may stand before [y] under ORDER BY key ASC. *)
Definition asc_by {A} (key : A -> string) (x y : A) : Prop :=
  String.leb (key x) (key y) = true.

(** What ORDER BY key ASC promises about its result. *)
Definition sorts_asc
  (order : forall A : Type, (A -> string) -> list A -> list A) : Prop :=
  forall (A : Type) (key : A -> string) (l : list A),
    Permutation (order A key l) l
    /\ StronglySorted (asc_by key) (order A key l).

(** Further instances of the library routines. *)
Module Lib2.

(** [check_password_hash] for the stand-in hash. *)
Definition check_hash (h pw : string) : bool := String.eqb h (Lib.hash pw).

(** An ORDER BY ... ASC by insertion sort. *)
Fixpoint insert_asc {A} (key : A -> string) (x : A) (l : list A) : list A :=
  match l with
  | [] => [x]
  | y :: l' =>
      if String.leb (key x) (key y) then x :: l
      else y :: insert_asc key x l'
  end.

Definition sort_asc (A : Type) (key : A -> string) (l : list A) : list A :=
  fold_right (insert_asc key) [] l.

End Lib2.

(** Every question row belongs to a quiz that is there (the foreign key
    of [quiz_questions], which SQLite does not enforce here). *)
Definition questions_refer (s : store) : Prop :=
  forall q, In q (rows (quiz_questions s)) ->
            exists z, In z (rows (quizzes_t s)) /\ qz_id z = qq_quiz_id q.

(** [seed_demo] from its second count on: the demo content. *)
Definition seed_content (e : Forum.seed_env) : Forum.fdb unit :=
  Forum.fbind
    (Forum.fquery (fun s => length (rows (announcements_t (Forum.core s)))))
    (fun n_ann =>
       if Nat.eqb n_ann 0 then
         Forum.fbind (Forum.fquery Forum.select_a_teacher)
           (fun teacher =>
              match teacher with
              | None => Forum.fraise TypeError
              | Some t =>
                  let tid := u_id t in
                  let now := Forum.se_now_content e in
                  Forum.fbind
                    (Forum.fexecute
                       (Forum.on_core
                          (insert_announcement "Welcome to ClassHub"
                             "Explore assignments, discussions, and quizzes."
                             now tid)))
                    (fun _ =>
                  Forum.fbind
                    (Forum.fexecute
                       (Forum.on_core
                          (insert_assignment "Sample Assignment"
                             "Submit a paragraph or a link."
                             (Some (Forum.se_due e)) now tid)))
                    (fun _ =>
                  Forum.fbind
                    (Forum.fexecute
                       (Forum.insert_discussion "Introduce yourself" now tid))
                    (fun _ =>
                  Forum.fbind
                    (Forum.fexecute
                       (Forum.on_core (insert_quiz "Orientation Quiz" now tid)))
                    (fun _ =>
                  Forum.fbind
                    (Forum.fquery (fun s => select_last_quiz_id (Forum.core s)))
                    (fun last =>
                       match last with
                       | None => Forum.fraise TypeError
                       | Some qid =>
                           Forum.fbind
                             (Forum.ffor_each Forum.seed_questions
                                (fun _ q =>
                                   let '(p, a, b, c, d, ans) := q in
                                   Forum.fexecute
                                     (Forum.on_core
                                        (insert_quiz_question qid p a b c d ans)))
                                tt)
                             (fun _ => Forum.fcommit)
                       end)))))
              end)
       else Forum.fret tt).

(** The two demo users on top of the users of [s]. *)
Definition with_seed_users (e : Forum.seed_env) (s : Forum.database)
  : Forum.database :=
  Forum.Database
    (with_users (Forum.core s)
       (insert_row u_id
          (fun i => User i "Student Demo" "student@classhub.local"
                         (Forum.se_hash_student e) "student"
                         (Forum.se_now_users e))
          (insert_row u_id
             (fun i => User i "Teacher Demo" "teacher@classhub.local"
                            (Forum.se_hash_teacher e) "teacher"
                            (Forum.se_now_users e))
             (users (Forum.core s)))))
    (Forum.discussions_t s) (Forum.discussion_posts s).

(** The demo content on top of [s], created by the user [tid]. *)
Definition with_seed_content (e : Forum.seed_env) (tid : Z)
  (s : Forum.database) : Forum.database :=
  let c := Forum.core s in
  let now := Forum.se_now_content e in
  let qid := next_rowid qz_id (quizzes_t c) in
  Forum.Database
    (Store (users c)
       (insert_row an_id
          (fun i => Announcement i "Welcome to ClassHub"
                      "Explore assignments, discussions, and quizzes."
                      now (Some tid))
          (announcements_t c))
       (insert_row as_id
          (fun i => Assignment i "Sample Assignment"
                      (Some "Submit a paragraph or a link.")
                      (Some (Forum.se_due e)) now (Some tid))
          (assignments_t c))
       (submissions c)
       (insert_row qz_id (fun i => Quiz i "Orientation Quiz" now (Some tid))
                   (quizzes_t c))
       (fold_left
          (fun t q =>
             let '(p, a, b, c, d, ans) := q in
             insert_row qq_id (fun i => QuizQuestion i qid p a b c d ans) t)
          Forum.seed_questions (quiz_questions c))
       (quiz_responses c) (quiz_answers c))
    (insert_row Forum.d_id
       (fun i => Forum.Discussion i "Introduce yourself" now (Some tid))
       (Forum.discussions_t s))
    (Forum.discussion_posts s).

(** The thread of a discussion: its posts in storage order. *)
Definition thread (did : Z) (s : Forum.database) : list Forum.discussion_post :=
  filter (fun p => Forum.p_discussion_id p =? did)
         (rows (Forum.discussion_posts s)).

(** The demo database with a discussion and two posts. *)
Definition forum_demo : Forum.database :=
  Forum.Database Demo.db0
    (Table [Forum.Discussion 1 "Introduce yourself" "2024-01-01T09:00:00"
                             (Some 1)] 1)
    (Table [Forum.DiscussionPost 1 1 2 "Hi, I am the student."
                                 "2024-01-02T08:00:00";
            Forum.DiscussionPost 2 1 1 "Welcome!" "2024-01-02T09:00:00"] 2).

(** A database without any row, and the values [seed_demo] reads. *)
Definition empty_database : Forum.database :=
  Forum.Database
    (Store (Table [] 0) (Table [] 0) (Table [] 0) (Table [] 0)
           (Table [] 0) (Table [] 0) (Table [] 0) (Table [] 0))
    (Table [] 0) (Table [] 0).

Definition demo_seed_env : Forum.seed_env :=
  Forum.SeedEnv "2024-01-01T09:00:00" "2024-01-01T09:00:01" "2024-01-08"
                "pbkdf2:password123" "pbkdf2:password123".

(** ** Stepping through a handler *)

Lemma bind_query {A B} (f : store -> A) (k : A -> db B) (c : conn) :
  bind (query f) k c = k (f (working c)) c.
Proof. reflexivity. Qed.

Lemma bind_ret {A B} (a : A) (k : A -> db B) (c : conn) :
  bind (ret a) k c = k a c.
Proof. reflexivity. Qed.

Lemma bind_fetch_ok {A B} (f : store -> exn + A) (k : A -> db B) (c : conn)
  (a : A) :
  f (working c) = inr a -> bind (fetch f) k c = k a c.
Proof. intros H. unfold bind, fetch. now rewrite H. Qed.

Lemma bind_fetch_err {A B} (f : store -> exn + A) (k : A -> db B) (c : conn)
  (e : exn) :
  f (working c) = inl e -> bind (fetch f) k c = (inl e, c).
Proof. intros H. unfold bind, fetch. now rewrite H. Qed.

Lemma bind_execute_ok {B} f (k : unit -> db B) (c : conn) (w : store) :
  f (working c) = inr w ->
  bind (execute f) k c = k tt (Conn (committed c) w (commits c)).
Proof. intros H. unfold bind, execute. now rewrite H. Qed.

Lemma bind_execute_err {B} f (k : unit -> db B) (c : conn) (e : exn) :
  f (working c) = inl e ->
  bind (execute f) k c = (inl e, c).
Proof. intros H. unfold bind, execute. now rewrite H. Qed.

Lemma bind_commit {B} (k : unit -> db B) (c : conn) :
  bind commit k c
  = k tt (Conn (working c) (working c) (working c :: commits c)).
Proof. reflexivity. Qed.

Lemma bind_assoc {A B C} (m : db A) (k : A -> db B) (h : B -> db C) (c : conn) :
  bind (bind m k) h c = bind m (fun a => bind (k a) h) c.
Proof. unfold bind. destruct (m c) as [[e | a] c']; reflexivity. Qed.

(** ** Binding an id of the URL *)

Lemma bind_int_found {A} (i : Z) (r a : A) :
  bind_int i r = inr a -> sqlite_int i = true /\ r = a.
Proof.
  unfold bind_int. destruct (sqlite_int i); [| discriminate].
  intros [= ->]. split; reflexivity.
Qed.

Lemma bind_int_raised {A} (i : Z) (r : A) (e : exn) :
  bind_int i r = inl e -> sqlite_int i = false /\ e = OverflowError.
Proof.
  unfold bind_int. destruct (sqlite_int i); [discriminate |].
  intros [= <-]. split; reflexivity.
Qed.

Lemma bind_int_ok {A} (i : Z) (r : A) :
  sqlite_int i = true -> bind_int i r = inr r.
Proof. unfold bind_int. now intros ->. Qed.

(** ** Facts about SELECT ... WHERE over a list of rows *)

Lemma find_none_existsb {A} (p : A -> bool) (l : list A) :
  find p l = None -> existsb p l = false.
Proof.
  induction l as [| x l IH]; simpl; [reflexivity |].
  destruct (p x); [discriminate | exact IH].
Qed.

Lemma find_app_none {A} (p : A -> bool) (l l' : list A) :
  find p l = None -> find p (l ++ l') = find p l'.
Proof.
  induction l as [| x l IH]; simpl; [reflexivity |].
  destruct (p x); [discriminate | exact IH].
Qed.

Lemma max_rowid_ge (ids : list Z) (i : Z) : In i ids -> i <= max_rowid ids.
Proof.
  induction ids as [| j ids IH]; simpl; [tauto |].
  intros [-> | H]; [lia | specialize (IH H); lia].
Qed.

Lemma next_rowid_fresh {A} (rowid : A -> Z) (t : table A) (r : A) :
  In r (rows t) -> rowid r < next_rowid rowid t.
Proof.
  intros H. unfold next_rowid.
  pose proof (max_rowid_ge (map rowid (rows t)) (rowid r) (in_map rowid _ _ H)).
  lia.
Qed.

(** ** The answer loop of [quiz_take] *)

Lemma insert_quiz_answer_ok resp_id question_id ans s :
  answer_ok ans = true ->
  insert_quiz_answer resp_id question_id ans s =
  inr (with_quiz_answers s
         (insert_row qa_id (fun i => QuizAnswer i resp_id question_id ans)
                     (quiz_answers s))).
Proof.
  destruct ans as [a |]; simpl; [| reflexivity].
  intros ->. reflexivity.
Qed.

Lemma insert_quiz_answer_err resp_id question_id ans s :
  answer_ok ans = false ->
  insert_quiz_answer resp_id question_id ans s
  = inl (IntegrityError "CHECK constraint failed: answer").
Proof.
  destruct ans as [a |]; simpl; [| discriminate].
  intros ->. reflexivity.
Qed.

Lemma with_quiz_answers_same s : with_quiz_answers s (quiz_answers s) = s.
Proof. destruct s; reflexivity. Qed.

(** When every answer passes the CHECK the loop runs to its end. *)
Lemma answer_loop_ok resp_id f qs : forall score c,
  forallb (fun q => answer_ok (submitted_answer f q)) qs = true ->
  for_each qs (answer_step resp_id f) score c =
  (inr (tally f qs score),
   Conn (committed c)
        (with_quiz_answers (working c)
           (add_answers resp_id f qs (quiz_answers (working c))))
        (commits c)).
Proof.
  induction qs as [| q qs IH]; intros score c H; simpl.
  - unfold ret. rewrite with_quiz_answers_same. destruct c; reflexivity.
  - simpl in H. apply andb_prop in H as [Hq Hqs].
    unfold answer_step at 1. rewrite bind_assoc.
    erewrite bind_execute_ok by (apply insert_quiz_answer_ok; exact Hq).
    rewrite bind_ret, IH by exact Hqs. reflexivity.
Qed.

(** When some answer fails the CHECK the loop raises, and nothing has been
    committed meanwhile. *)
Lemma answer_loop_err resp_id f qs : forall score c,
  forallb (fun q => answer_ok (submitted_answer f q)) qs = false ->
  exists c', for_each qs (answer_step resp_id f) score c
             = (inl (IntegrityError "CHECK constraint failed: answer"), c')
             /\ committed c' = committed c /\ commits c' = commits c.
Proof.
  induction qs as [| q qs IH]; intros score c H; simpl in *; [discriminate |].
  unfold answer_step at 1. rewrite bind_assoc.
  destruct (answer_ok (submitted_answer f q)) eqn:Hq.
  - erewrite bind_execute_ok by (apply insert_quiz_answer_ok; exact Hq).
    rewrite bind_ret. simpl in H.
    destruct (IH (if eq_opt_str (submitted_answer f q) (qq_correct q)
                  then (score + 1)%float else score)
                 (Conn (committed c)
                    (with_quiz_answers (working c)
                       (insert_row qa_id
                          (fun i => QuizAnswer i resp_id (qq_id q)
                                      (submitted_answer f q))
                          (quiz_answers (working c))))
                    (commits c)) H)
      as (c' & -> & Hc & Hl).
    exists c'. repeat split; assumption.
  - erewrite bind_execute_err by (apply insert_quiz_answer_err; exact Hq).
    exists c. repeat split.
Qed.

(** ** The arithmetic of the percentage *)

Lemma len_or_1_max {A} (l : list A) :
  len_or_1 l = Z.max (Z.of_nat (length l)) 1.
Proof.
  unfold len_or_1. destruct (Z.eqb_spec (Z.of_nat (length l)) 0); lia.
Qed.

(** [len(questions) or 1] is never the zero that [score/total] would raise
    on. *)
Lemma bind_truediv {A B} (x : float) (l : list A) (k : float -> db B)
  (c : conn) :
  bind (py_truediv x (len_or_1 l)) k c
  = k (x / float_of_Z (len_or_1 l))%float c.
Proof.
  unfold py_truediv.
  destruct (Z.eqb_spec (len_or_1 l) 0) as [H | H]; [| reflexivity].
  rewrite len_or_1_max in H. lia.
Qed.

Lemma counts_exact_limit : counts_exact quiz_size_limit = true.
Proof. vm_compute. reflexivity. Qed.

Lemma float_succ (c : nat) :
  (c < quiz_size_limit)%nat ->
  (float_of_Z (Z.of_nat c) + 1)%float = float_of_Z (Z.of_nat c + 1).
Proof.
  intros H. apply FloatAxioms.Leibniz.eqb_spec.
  pose proof counts_exact_limit as Hall. unfold counts_exact in Hall.
  rewrite forallb_forall in Hall. apply Hall. apply in_seq. lia.
Qed.

(** The float the loop counts in holds the number of right answers. *)
Lemma tally_count f qs : forall c : nat,
  (c + length qs <= quiz_size_limit)%nat ->
  tally f qs (float_of_Z (Z.of_nat c))
  = float_of_Z (Z.of_nat c + correct_count f qs).
Proof.
  unfold tally, correct_count.
  induction qs as [| q qs IH]; intros c Hc; cbn [fold_left filter length].
  - now rewrite Z.add_0_r.
  - cbn [length] in Hc.
    destruct (eq_opt_str (submitted_answer f q) (qq_correct q)).
    + rewrite float_succ by lia.
      replace (Z.of_nat c + 1) with (Z.of_nat (S c)) by lia.
      rewrite IH by lia. f_equal. cbn [length]. lia.
    + apply IH. lia.
Qed.

Lemma correct_count_range f qs :
  0 <= correct_count f qs <= Z.of_nat (length qs).
Proof.
  unfold correct_count.
  pose proof (filter_length_le
                (fun q => eq_opt_str (submitted_answer f q) (qq_correct q)) qs).
  lia.
Qed.

Lemma percentage_count f qs :
  (length qs <= quiz_size_limit)%nat ->
  percentage f qs
  = percentage64 (correct_count f qs) (Z.max (Z.of_nat (length qs)) 1).
Proof.
  intros H. unfold percentage, percentage64.
  change 0%float with (float_of_Z (Z.of_nat 0)).
  rewrite tally_count by (cbn [Nat.add]; exact H).
  now rewrite len_or_1_max.
Qed.

Lemma forallb_seq (P : nat -> bool) (a n x : nat) :
  forallb P (List.seq a n) = true -> (a <= x < a + n)%nat -> P x = true.
Proof.
  intros H Hx. rewrite forallb_forall in H. apply H. now apply in_seq.
Qed.

(** Every total from 1 to [quiz_size_limit] with every count up to the
    total has been checked. *)
Lemma percentages_checked :
  forallb (fun t => forallb (fun c => percentage_checked c t)
                            (List.seq 0 (S t)))
          (List.seq 1 quiz_size_limit) = true.
Proof. vm_compute. reflexivity. Qed.

Lemma near_percentage_reflect x c t :
  near_percentageb x c t = true -> near_percentage x c t.
Proof.
  unfold near_percentageb, near_percentage. intros H.
  apply Qle_alt. intros Hgt. rewrite Hgt in H. discriminate.
Qed.

Lemma percentage64_checked (c t : nat) :
  (1 <= t <= quiz_size_limit)%nat -> (c <= t)%nat ->
  is_percentage (percentage64 (Z.of_nat c) (Z.of_nat t)) = true
  /\ near_percentage (percentage64 (Z.of_nat c) (Z.of_nat t))
                     (Z.of_nat c) (Z.of_nat t).
Proof.
  intros Ht Hc.
  pose proof (forallb_seq _ 1 quiz_size_limit t percentages_checked) as H.
  cbv beta in H.
  assert (Ht' : (1 <= t < 1 + quiz_size_limit)%nat) by lia.
  specialize (H Ht').
  pose proof (forallb_seq _ 0 (S t) c H) as H'.
  cbv beta in H'.
  assert (Hc' : (0 <= c < 0 + S t)%nat) by lia.
  specialize (H' Hc').
  apply andb_prop in H' as [H1 H2].
  split; [exact H1 | now apply near_percentage_reflect].
Qed.

(** The percentage of a quiz of at most [quiz_size_limit] questions lies
    between 0 and 100 and within 2^-45 of the exact quotient. *)
Lemma percentage_sound f qs :
  (length qs <= quiz_size_limit)%nat ->
  is_percentage (percentage f qs) = true
  /\ near_percentage (percentage f qs) (correct_count f qs)
                     (Z.max (Z.of_nat (length qs)) 1).
Proof.
  intros H. rewrite percentage_count by exact H.
  pose proof (correct_count_range f qs) as Hr.
  set (c := correct_count f qs) in *.
  assert (Hc : c = Z.of_nat (Z.to_nat c)) by lia.
  assert (Ht : Z.max (Z.of_nat (length qs)) 1
               = Z.of_nat (Nat.max (length qs) 1)) by lia.
  rewrite Ht, Hc. unfold quiz_size_limit in H.
  apply percentage64_checked; unfold quiz_size_limit; lia.
Qed.

(** ** [quiz_take]: the POST of a student *)

Lemma update_fresh_row {A} (rowid : A -> Z) (upd : A -> A) (t : table A) :
  map (fun r => if rowid r =? next_rowid rowid t then upd r else r) (rows t)
  = rows t.
Proof.
  rewrite <- (map_id (rows t)) at 2. apply map_ext_in. intros r Hr.
  pose proof (next_rowid_fresh rowid t r Hr).
  destruct (Z.eqb_spec (rowid r) (next_rowid rowid t)); [lia | reflexivity].
Qed.

Section QuizTake.

Variable order_by_desc : forall A : Type, (A -> string) -> list A -> list A.
Variables (s : store) (qid : Z) (req : request) (qz : quiz).

Hypothesis Hquiz : select_quiz qid s = inr (Some qz).
Hypothesis Hpost : is_post req = true.
Hypothesis Hrole : has_role req "student" = true.
Hypothesis Hnew : select_response qid (session_id req) s = None.

Let uid := session_id req.
Let qs := select_questions qid s.
Let rid := next_rowid qr_id (quiz_responses s).

Lemma quiz_take_prefix :
  quiz_take order_by_desc qid req (Conn s s []) =
  bind (for_each qs (answer_step rid (form req)) 0%float)
    (fun score =>
       (ratio <- py_truediv score (len_or_1 qs) ;;
        let pct := (ratio * 100)%float in
        execute (update_response_score pct rid) ;;
        commit ;;
        ret (Redirect EpQuizzes (Some (FlashScore pct))))%db)
    (Conn s (with_quiz_responses s
               (insert_row qr_id
                  (fun i => QuizResponse i qid uid (now req) 0%float)
                  (quiz_responses s)))
          []).
Proof.
  unfold quiz_take. erewrite bind_fetch_ok by exact Hquiz.
  cbv beta iota. rewrite bind_query, Hpost, Hrole. cbn [negb working].
  cbv beta iota. rewrite bind_query. cbn [working]. rewrite Hnew.
  cbv beta iota.
  erewrite bind_execute_ok.
  2:{ unfold insert_quiz_response. cbn [working].
      unfold select_response in Hnew.
      rewrite (find_none_existsb _ _ Hnew). reflexivity. }
  rewrite bind_query. cbn [working committed commits].
  unfold select_response at 1. unfold insert_row, with_quiz_responses.
  cbn [quiz_responses rows].
  unfold select_response in Hnew.
  rewrite (find_app_none _ _ _ Hnew). unfold resp_of at 1. cbn [find qr_quiz_id qr_student_id].
  rewrite !Z.eqb_refl. cbn [andb qr_id]. cbv beta iota.
  reflexivity.
Qed.

Lemma quiz_take_accepts :
  forallb (fun q => answer_ok (submitted_answer (form req) q)) qs = true ->
  quiz_take order_by_desc qid req (Conn s s []) =
  (inr (Redirect EpQuizzes (Some (FlashScore (percentage (form req) qs)))),
   let s' := record_submission s qid uid (now req) (form req) in
   Conn s' s' [s']).
Proof.
  intros Hok. rewrite quiz_take_prefix.
  unfold bind at 1. rewrite answer_loop_ok by exact Hok.
  cbn [working committed commits].
  rewrite bind_truediv. cbv zeta.
  erewrite bind_execute_ok by reflexivity.
  rewrite bind_commit. unfold ret. cbn [working committed commits].
  unfold record_submission, percentage. fold qs. fold rid.
  unfold update_rows, insert_row. simpl rows. simpl seq.
  rewrite map_app. unfold rid.
  rewrite !(update_fresh_row qr_id). cbn [map qr_id].
  rewrite Z.eqb_refl. reflexivity.
Qed.

Lemma quiz_take_rejects :
  forallb (fun q => answer_ok (submitted_answer (form req) q)) qs = false ->
  exists c, quiz_take order_by_desc qid req (Conn s s [])
            = (inl (IntegrityError "CHECK constraint failed: answer"), c)
            /\ committed c = s /\ commits c = [].
Proof.
  intros Hbad. rewrite quiz_take_prefix.
  destruct (answer_loop_err rid (form req) qs 0%float
              (Conn s (with_quiz_responses s
                         (insert_row qr_id
                            (fun i => QuizResponse i qid uid (now req) 0%float)
                            (quiz_responses s)))
                    []) Hbad)
    as (c & Hrun & Hc & Hl).
  exists c. unfold bind. rewrite Hrun. repeat split; assumption.
Qed.

End QuizTake.

Lemma quiz_take_second_attempt
  (order_by_desc : forall A : Type, (A -> string) -> list A -> list A)
  (s : store) (qid : Z) (req : request) (qz : quiz) (prior : quiz_response) :
  select_quiz qid s = inr (Some qz) ->
  is_post req = true ->
  has_role req "student" = true ->
  select_response qid (session_id req) s = Some prior ->
  quiz_take order_by_desc qid req (Conn s s [])
  = (inr (AlreadySubmittedError qid), Conn s s []).
Proof.
  intros Hquiz Hpost Hrole Hprior.
  unfold quiz_take. erewrite bind_fetch_ok by exact Hquiz.
  cbv beta iota.
  rewrite bind_query, Hpost, Hrole. cbn [negb working]. cbv beta iota.
  rewrite bind_query. cbn [working]. rewrite Hprior. reflexivity.
Qed.

(** The response row an accepted submission leaves for the pair. *)
Lemma record_submission_response s qid uid submitted_at f :
  select_response qid uid s = None ->
  select_response qid uid (record_submission s qid uid submitted_at f)
  = Some (QuizResponse (next_rowid qr_id (quiz_responses s)) qid uid
            submitted_at (percentage f (select_questions qid s))).
Proof.
  intros Hnew. unfold select_response, record_submission.
  cbn [quiz_responses with_quiz_answers with_quiz_responses rows].
  unfold select_response in Hnew.
  rewrite (find_app_none _ _ _ Hnew). unfold resp_of at 1.
  cbn [find qr_quiz_id qr_student_id]. rewrite !Z.eqb_refl. reflexivity.
Qed.

(** Every request either leaves the database alone and commits nothing, or
    is an accepted submission, with all that this takes and one commit. *)
Lemma quiz_take_outcome
  (order_by_desc : forall A : Type, (A -> string) -> list A -> list A)
  (s : store) (qid : Z) (req : request) :
  let h := quiz_take order_by_desc qid req in
  (snd (serve h s) = s
   /\ commit_log h s = []
   /\ (is_post req = false \/ has_role req "student" = false ->
       (sqlite_int qid = true -> exists r, fst (serve h s) = Responded r)
       /\ (sqlite_int qid = false
           -> fst (serve h s) = ServerError OverflowError)))
  \/ (exists qz,
         select_quiz qid s = inr (Some qz)
         /\ is_post req = true
         /\ has_role req "student" = true
         /\ select_response qid (session_id req) s = None
         /\ forallb (fun q => answer_ok (submitted_answer (form req) q))
                    (select_questions qid s) = true
         /\ serve h s
            = (Responded (Redirect EpQuizzes
                            (Some (FlashScore
                                     (percentage (form req)
                                                 (select_questions qid s))))),
               record_submission s qid (session_id req) (now req) (form req))
         /\ commit_log h s
            = [record_submission s qid (session_id req) (now req) (form req)]).
Proof.
  intros h. subst h.
  destruct (select_quiz qid s) as [e | [qz |]] eqn:Hsel.
  { left. pose proof Hsel as Hb. unfold select_quiz in Hb.
    apply bind_int_raised in Hb as [Hint ->].
    unfold serve, commit_log, quiz_take.
    erewrite bind_fetch_err by exact Hsel.
    cbn. repeat split; congruence. }
  2:{ left. pose proof Hsel as Hb. unfold select_quiz in Hb.
      apply bind_int_found in Hb as [Hint _].
      unfold serve, commit_log, quiz_take.
      erewrite bind_fetch_ok by exact Hsel.
      cbn. repeat split; [eexists; reflexivity | congruence]. }
  pose proof Hsel as Hb. unfold select_quiz in Hb.
  apply bind_int_found in Hb as [Hint _].
  destruct (is_post req) eqn:Hpost.
  2:{ left. unfold serve, commit_log, quiz_take.
      erewrite bind_fetch_ok by exact Hsel.
      cbv beta iota. rewrite bind_query, Hpost.
      destruct (has_role req "teacher"); cbn; repeat split;
        try congruence; eexists; reflexivity. }
  destruct (has_role req "student") eqn:Hrole.
  2:{ left. unfold serve, commit_log, quiz_take.
      erewrite bind_fetch_ok by exact Hsel.
      cbv beta iota. rewrite bind_query, Hpost, Hrole.
      cbn. repeat split; [eexists; reflexivity | congruence]. }
  destruct (select_response qid (session_id req) s) as [prior |] eqn:Hprior.
  { left. unfold serve, commit_log.
    rewrite (quiz_take_second_attempt order_by_desc s qid req qz prior
               Hsel Hpost Hrole Hprior).
    cbn. split; [reflexivity |]. split; [reflexivity |].
    intros [H | H]; discriminate H. }
  destruct (forallb (fun q => answer_ok (submitted_answer (form req) q))
                    (select_questions qid s)) eqn:Hok.
  - right. exists qz. unfold serve, commit_log.
    rewrite (quiz_take_accepts order_by_desc s qid req qz
               Hsel Hpost Hrole Hprior Hok).
    repeat split; assumption.
  - left.
    destruct (quiz_take_rejects order_by_desc s qid req qz
                Hsel Hpost Hrole Hprior Hok) as (c & Hrun & Hc & Hl).
    unfold serve, commit_log. rewrite Hrun. cbn [fst snd]. rewrite Hl.
    split; [exact Hc |]. split; [reflexivity |].
    intros [H | H]; discriminate H.
Qed.

(** ** C1: the stored percentage *)

(** C1. A student's POST to an existing quiz they have not answered yet, with
    every answer absent or one of the four labels, stores a response whose
    score is the number of answers equal to the correct label, divided by
    the larger of the number of questions and 1, times 100, evaluated in
    binary64 as Python does; the stored number is a percentage and lies
    within 2^-45 of the exact quotient.  The arithmetic was checked for
    quizzes of up to [quiz_size_limit] questions. *)
Theorem quiz_take_score :
  forall (order_by_desc : forall A : Type, (A -> string) -> list A -> list A)
         (s : store) (qid : Z) (req : request) (qz : quiz),
    select_quiz qid s = inr (Some qz) ->
    is_post req = true ->
    has_role req "student" = true ->
    select_response qid (session_id req) s = None ->
    forallb (fun q => answer_ok (submitted_answer (form req) q))
            (select_questions qid s) = true ->
    (length (select_questions qid s) <= quiz_size_limit)%nat ->
    let count := correct_count (form req) (select_questions qid s) in
    let total := Z.max (Z.of_nat (length (select_questions qid s))) 1 in
    exists (s' : store) (resp : quiz_response),
      serve (quiz_take order_by_desc qid req) s
      = (Responded (Redirect EpQuizzes (Some (FlashScore (qr_score resp)))), s')
      /\ select_response qid (session_id req) s' = Some resp
      /\ qr_score resp = (float_of_Z count / float_of_Z total * 100)%float
      /\ is_percentage (qr_score resp) = true
      /\ near_percentage (qr_score resp) count total.
Proof.
  intros ord s qid req qz Hquiz Hpost Hrole Hnew Hok Hsize count total.
  set (qs := select_questions qid s) in *.
  exists (record_submission s qid (session_id req) (now req) (form req)).
  exists (QuizResponse (next_rowid qr_id (quiz_responses s)) qid
            (session_id req) (now req) (percentage (form req) qs)).
  split; [| split; [| split]].
  - unfold serve.
    rewrite (quiz_take_accepts ord s qid req qz Hquiz Hpost Hrole Hnew Hok).
    reflexivity.
  - now apply record_submission_response.
  - cbn [qr_score]. now rewrite percentage_count.
  - cbn [qr_score]. now apply percentage_sound.
Qed.

(** C1, the instance of the specification: correct labels A, B, C and
    answers A, A, C.  The stored REAL is 4691249611844266 / 2^46, which
    prints as 66.66666666666666 and is 66.7 to one decimal. *)
Lemma quiz_take_score_witness :
  exists (s' : store) (resp : quiz_response),
    serve (quiz_take Lib.sort_desc 1 Demo.answers) Demo.db0
    = (Responded (Redirect EpQuizzes (Some (FlashScore (qr_score resp)))), s')
    /\ select_response 1 2 s' = Some resp
    /\ qr_score resp = (2 / 3 * 100)%float
    /\ Prim2SF (qr_score resp) = S754_finite false 4691249611844266 (-46)
    /\ Qfloor (Q_of_float (qr_score resp) * 10 + (1 # 2)) = 667.
Proof.
  destruct (quiz_take_score Lib.sort_desc Demo.db0 1 Demo.answers Demo.quiz1
              eq_refl eq_refl eq_refl eq_refl eq_refl)
    as (s' & resp & Hrun & Hsel & Hscore & _).
  - unfold quiz_size_limit. cbn. lia.
  - exists s', resp. split; [exact Hrun |]. split; [exact Hsel |].
    assert (H : qr_score resp = (2 / 3 * 100)%float).
    { rewrite Hscore. vm_compute. reflexivity. }
    split; [exact H |].
    rewrite H. split; vm_compute; reflexivity.
Defined.

(** ** C3: no second attempt *)

(** C3. When the student already has a response for the quiz, a further
    POST is answered with the already-submitted notice and the database is
    left exactly as it was: no response row and no answer row is added. *)
Theorem quiz_take_no_retake :
  forall (order_by_desc : forall A : Type, (A -> string) -> list A -> list A)
         (s : store) (qid : Z) (req : request) (qz : quiz)
         (prior : quiz_response),
    select_quiz qid s = inr (Some qz) ->
    is_post req = true ->
    has_role req "student" = true ->
    select_response qid (session_id req) s = Some prior ->
    serve (quiz_take order_by_desc qid req) s
    = (Responded (AlreadySubmittedError qid), s).
Proof.
  intros ord s qid req qz prior Hquiz Hpost Hrole Hprior.
  unfold serve.
  now rewrite (quiz_take_second_attempt ord s qid req qz prior).
Qed.

(** C3 on the demo database: the first attempt is recorded, the second one
    is turned away and changes nothing. *)
Lemma quiz_take_no_retake_witness :
  let s1 := snd (serve (quiz_take Lib.sort_desc 1 Demo.answers) Demo.db0) in
  length (rows (quiz_responses s1)) = 1%nat
  /\ serve (quiz_take Lib.sort_desc 1 Demo.answers) s1
     = (Responded (AlreadySubmittedError 1), s1).
Proof.
  split; [reflexivity |].
  eapply (quiz_take_no_retake Lib.sort_desc _ 1 Demo.answers Demo.quiz1);
    reflexivity.
Defined.

(** ** C5: a quiz submission is all or nothing *)

Lemma add_answers_rows rid f qs : forall t,
  exists answers,
    rows (add_answers rid f qs t) = (rows t ++ answers)%list
    /\ map answer_fields answers
       = map (fun q => (rid, qq_id q, submitted_answer f q)) qs.
Proof.
  unfold add_answers.
  induction qs as [| q qs IH]; intros t; cbn [fold_left].
  - exists []. split; [now rewrite app_nil_r | reflexivity].
  - destruct (IH (insert_row qa_id
                    (fun i => QuizAnswer i rid (qq_id q) (submitted_answer f q))
                    t)) as (rest & Hrows & Hfields).
    exists (QuizAnswer (next_rowid qa_id t) rid (qq_id q) (submitted_answer f q)
            :: rest).
    split.
    + rewrite Hrows. unfold insert_row. cbn [rows].
      now rewrite <- app_assoc.
    + cbn [map]. now rewrite Hfields.
Qed.

Lemma record_submission_fully_recorded s qid uid submitted_at f :
  fully_recorded s (record_submission s qid uid submitted_at f)
                 qid uid submitted_at f.
Proof.
  unfold fully_recorded, record_submission.
  destruct (add_answers_rows (next_rowid qr_id (quiz_responses s)) f
              (select_questions qid s) (quiz_answers s))
    as (answers & Hrows & Hfields).
  exists (next_rowid qr_id (quiz_responses s)), answers.
  cbn. repeat split; assumption.
Qed.

(** C5. A student's POST to an existing quiz they have not answered yet is
    all or nothing.  When every answer passes the CHECK of [quiz_answers],
    the response row with its score and one answer row per question are
    stored, by one commit.  When some answer does not, the INSERT of that
    answer raises, the request ends in a server error, nothing was
    committed and the database is as it was, though the response row and
    the earlier answer rows had been written to the transaction.  And
    whatever the request, the database afterwards is the one before or
    holds one whole submission more, with no commit in between. *)
Theorem quiz_take_atomic :
  forall (order_by_desc : forall A : Type, (A -> string) -> list A -> list A)
         (s : store) (qid : Z) (req : request),
    let h := quiz_take order_by_desc qid req in
    let out := fst (serve h s) in
    let s' := snd (serve h s) in
    let valid :=
      forallb (fun q => answer_ok (submitted_answer (form req) q))
              (select_questions qid s) in
    ((exists qz, select_quiz qid s = inr (Some qz)) ->
     is_post req = true ->
     has_role req "student" = true ->
     select_response qid (session_id req) s = None ->
     (valid = true ->
      out = Responded (Redirect EpQuizzes
                         (Some (FlashScore
                                  (percentage (form req)
                                              (select_questions qid s)))))
      /\ fully_recorded s s' qid (session_id req) (now req) (form req)
      /\ commit_log h s = [s'])
     /\ (valid = false ->
         out = ServerError (IntegrityError "CHECK constraint failed: answer")
         /\ s' = s
         /\ commit_log h s = []))
    /\ ((s' = s /\ commit_log h s = [])
        \/ (fully_recorded s s' qid (session_id req) (now req) (form req)
            /\ commit_log h s = [s'])).
Proof.
  intros ord s qid req h out s' valid. subst h out s' valid. split.
  - intros [qz Hquiz] Hpost Hrole Hnew. split.
    + intros Hok. unfold serve, commit_log.
      rewrite (quiz_take_accepts ord s qid req qz Hquiz Hpost Hrole Hnew Hok).
      cbn [fst snd committed commits rev app].
      split; [reflexivity |].
      split; [apply record_submission_fully_recorded | reflexivity].
    + intros Hbad.
      destruct (quiz_take_rejects ord s qid req qz Hquiz Hpost Hrole Hnew Hbad)
        as (c & Hrun & Hc & Hl).
      unfold serve, commit_log. rewrite Hrun. cbn [fst snd]. rewrite Hl.
      repeat split. exact Hc.
  - destruct (quiz_take_outcome ord s qid req)
      as [(Hsame & Hlog & _) | (qz & _ & _ & _ & _ & _ & Hrun & Hlog)].
    + left. split; assumption.
    + right. rewrite Hrun, Hlog. cbn [snd].
      split; [apply record_submission_fully_recorded | reflexivity].
Qed.

(** C5 on the demo database.  With the answers A, X, C the second INSERT
    breaks the CHECK when the response row and the first answer row are
    already in the transaction: the request ends in a server error and the
    database is untouched.  With A, A, C one response row and three answer
    rows are stored. *)
Lemma quiz_take_atomic_witness :
  let bad := quiz_take Lib.sort_desc 1 Demo.bad_answers in
  let good := quiz_take Lib.sort_desc 1 Demo.answers in
  (length (rows (quiz_responses
                   (working (snd (bad (Conn Demo.db0 Demo.db0 [])))))) = 1%nat
   /\ length (rows (quiz_answers
                      (working (snd (bad (Conn Demo.db0 Demo.db0 [])))))) = 1%nat
   /\ serve bad Demo.db0
      = (ServerError (IntegrityError "CHECK constraint failed: answer"),
         Demo.db0)
   /\ commit_log bad Demo.db0 = [])
  /\ (length (rows (quiz_responses (snd (serve good Demo.db0)))) = 1%nat
      /\ length (rows (quiz_answers (snd (serve good Demo.db0)))) = 3%nat
      /\ commit_log good Demo.db0 = [snd (serve good Demo.db0)]).
Proof.
  intros bad good.
  destruct (quiz_take_atomic Lib.sort_desc Demo.db0 1 Demo.bad_answers)
    as [Hbad _].
  destruct (quiz_take_atomic Lib.sort_desc Demo.db0 1 Demo.answers)
    as [Hgood _].
  destruct (Hbad (ex_intro _ Demo.quiz1 eq_refl) eq_refl eq_refl eq_refl)
    as [_ Hb].
  destruct (Hgood (ex_intro _ Demo.quiz1 eq_refl) eq_refl eq_refl eq_refl)
    as [Hg _].
  destruct (Hb eq_refl) as (Hout & Hsame & Hlog).
  destruct (Hg eq_refl) as (_ & _ & Hlog').
  split.
  - split; [reflexivity |]. split; [reflexivity |].
    split; [| exact Hlog].
    rewrite (surjective_pairing (serve bad Demo.db0)).
    unfold bad. now rewrite Hout, Hsame.
  - split; [reflexivity |]. split; [reflexivity | exact Hlog'].
Defined.

(** ** [assignment_detail]: what each path writes *)

Section AssignmentDetail.

Variable order_by_desc : forall A : Type, (A -> string) -> list A -> list A.
Variable text_as_rowid : string -> option Z.
Variable real_affinity : string -> real_value.

(** An id that does not fit a 64-bit INTEGER: the first SELECT raises. *)
Lemma assignment_detail_overflow aid req s e :
  select_assignment aid s = inl e ->
  serve (assignment_detail order_by_desc text_as_rowid real_affinity aid req) s
  = (ServerError e, s).
Proof.
  intros H. unfold serve, assignment_detail.
  erewrite bind_fetch_err by exact H. reflexivity.
Qed.

Lemma assignment_detail_missing aid req s :
  select_assignment aid s = inr None ->
  serve (assignment_detail order_by_desc text_as_rowid real_affinity aid req) s
  = (Responded (Redirect EpAssignments
                  (Some (Flash "Assignment not found." "warning"))), s).
Proof.
  intros H. unfold serve, assignment_detail.
  erewrite bind_fetch_ok by exact H. reflexivity.
Qed.

Lemma assignment_detail_submit aid req s a :
  select_assignment aid s = inr (Some a) ->
  has_role req "student" = true ->
  is_post req = true ->
  serve (assignment_detail order_by_desc text_as_rowid real_affinity aid req) s
  = (Responded (Redirect (EpAssignmentDetail aid)
                  (Some (Flash "Submission saved." "success"))),
     assignment_detail_effect text_as_rowid real_affinity aid req s).
Proof.
  intros Ha Hrole Hpost.
  unfold serve, assignment_detail, assignment_detail_effect.
  erewrite bind_fetch_ok by exact Ha. rewrite ?Ha. cbv beta iota zeta.
  rewrite Hrole, Hpost. rewrite bind_query. cbn [andb working].
  cbv beta iota. rewrite bind_query. cbn [working].
  destruct (select_submission aid (session_id req) s) as [ex |] eqn:Hex.
  - reflexivity.
  - unfold bind, execute, insert_submission. cbn [working].
    unfold select_submission in Hex.
    rewrite (find_none_existsb _ _ Hex). reflexivity.
Qed.

Lemma assignment_detail_grade aid req s a sid :
  select_assignment aid s = inr (Some a) ->
  has_role req "student" && is_post req = false ->
  form_get (form req) "sid" = Some sid ->
  has_role req "teacher" && is_post req && negb (String.eqb sid "") = true ->
  serve (assignment_detail order_by_desc text_as_rowid real_affinity aid req) s
  = (Responded (Redirect (EpAssignmentDetail aid)
                  (Some (Flash "Graded." "success"))),
     assignment_detail_effect text_as_rowid real_affinity aid req s).
Proof.
  intros Ha Hst Hsid Hgrade.
  unfold serve, assignment_detail, assignment_detail_effect.
  erewrite bind_fetch_ok by exact Ha. rewrite ?Ha. cbv beta iota zeta.
  rewrite Hst, Hsid. cbn [truthy]. rewrite Hgrade.
  destruct (has_role req "student"), (has_role req "teacher");
    reflexivity.
Qed.

(** The paths that reach [render_template]. *)
Lemma assignment_detail_render aid req s a :
  select_assignment aid s = inr (Some a) ->
  has_role req "student" && is_post req = false ->
  has_role req "teacher" && is_post req
    && truthy (form_get (form req) "sid") = false ->
  serve (assignment_detail order_by_desc text_as_rowid real_affinity aid req) s
  = (Responded
       (Render (AssignmentDetailPage a
                  (if has_role req "student"
                   then select_submission aid (session_id req) s
                   else None)
                  (if has_role req "teacher"
                   then select_submissions_of order_by_desc aid s
                   else []))),
     s).
Proof.
  intros Ha Hst Hgrade.
  unfold serve, assignment_detail.
  erewrite bind_fetch_ok by exact Ha. rewrite ?Ha. cbv beta iota zeta.
  rewrite Hst.
  destruct (form_get (form req) "sid") as [sid |] eqn:Hsid.
  - rewrite Hgrade.
    destruct (has_role req "student"), (has_role req "teacher");
      reflexivity.
  - destruct (has_role req "student"), (has_role req "teacher");
      reflexivity.
Qed.

Lemma assignment_detail_store aid req s :
  snd (serve (assignment_detail order_by_desc text_as_rowid real_affinity
        aid req) s)
  = assignment_detail_effect text_as_rowid real_affinity aid req s.
Proof.
  destruct (select_assignment aid s) as [e | [a |]] eqn:Ha.
  { rewrite (assignment_detail_overflow aid req s e) by exact Ha.
    unfold assignment_detail_effect. now rewrite Ha. }
  2:{ rewrite assignment_detail_missing by exact Ha.
      unfold assignment_detail_effect. now rewrite Ha. }
  destruct (has_role req "student" && is_post req) eqn:Hst.
  { apply andb_prop in Hst as [Hrole Hpost].
    now rewrite (assignment_detail_submit aid req s a). }
  destruct (has_role req "teacher" && is_post req
            && truthy (form_get (form req) "sid")) eqn:Hgrade.
  - destruct (form_get (form req) "sid") as [sid |] eqn:Hsid.
    + now rewrite (assignment_detail_grade aid req s a sid).
    + cbn [truthy] in Hgrade. rewrite andb_false_r in Hgrade. discriminate.
  - rewrite (assignment_detail_render aid req s a) by assumption.
    unfold assignment_detail_effect. rewrite Ha, Hst. cbn [snd].
    destruct (form_get (form req) "sid") as [sid |]; [| reflexivity].
    cbn [truthy] in Hgrade. now rewrite Hgrade.
Qed.

End AssignmentDetail.

(** ** The constraints of [submissions] are kept *)

Lemma filter_map_same {A} (p : A -> bool) (g : A -> A) (l : list A) :
  (forall x, p (g x) = p x) ->
  filter p (map g l) = map g (filter p l).
Proof.
  intros Hg. induction l as [| x l IH]; cbn [map filter]; [reflexivity |].
  rewrite Hg. destruct (p x); cbn [map]; now rewrite IH.
Qed.

Lemma find_none_filter {A} (p : A -> bool) (l : list A) :
  find p l = None -> filter p l = [].
Proof.
  induction l as [| x l IH]; cbn [find filter]; [reflexivity |].
  destruct (p x); [discriminate | exact IH].
Qed.

Lemma sub_of_pair aid uid r :
  sub_of aid uid r = true <-> sub_pair r = (aid, uid).
Proof.
  unfold sub_of, sub_pair. rewrite andb_true_iff, !Z.eqb_eq.
  split; [intros [-> ->]; reflexivity | intros H; inversion H; auto].
Qed.

(** Under UNIQUE(assignment_id, student_id) the WHERE clause selects one
    row at most. *)
Lemma filter_sub_of_unique aid uid (l : list submission) (x : submission) :
  NoDup (map sub_pair l) -> In x l -> sub_of aid uid x = true ->
  filter (sub_of aid uid) l = [x].
Proof.
  induction l as [| y l IH]; cbn [map filter In]; [tauto |].
  intros Hnd Hin Hx. inversion Hnd as [| ? ? Hnotin Hnd']; subst.
  assert (Hrest : forall z, In z l -> sub_of aid uid y = true ->
                            sub_of aid uid z = false).
  { intros z Hz Hy. destruct (sub_of aid uid z) eqn:Hpz; [| reflexivity].
    exfalso. apply Hnotin.
    apply sub_of_pair in Hy, Hpz. rewrite Hy, <- Hpz.
    now apply in_map. }
  destruct Hin as [-> | Hin].
  - rewrite Hx. f_equal.
    apply find_none_filter.
    destruct (find (sub_of aid uid) l) as [z |] eqn:Hf; [| reflexivity].
    apply find_some in Hf as [Hz Hpz].
    rewrite (Hrest z Hz Hx) in Hpz. discriminate.
  - destruct (sub_of aid uid y) eqn:Hy.
    + rewrite (Hrest x Hin eq_refl) in Hx. discriminate.
    + now apply IH.
Qed.

Lemma NoDup_snoc {A} (l : list A) (x : A) :
  NoDup l -> ~ In x l -> NoDup (l ++ [x]).
Proof.
  intros Hl Hx. apply NoDup_app; [exact Hl | repeat constructor; auto |].
  intros y Hy [<- | []]. exact (Hx Hy).
Qed.

Lemma update_rows_keeps {A B} (key : A -> B) sel upd (t : table A) :
  (forall r, key (upd r) = key r) ->
  map key (rows (update_rows sel upd t)) = map key (rows t).
Proof.
  intros H. unfold update_rows. cbn [rows]. rewrite map_map.
  apply map_ext. intros r. destruct (sel r); [apply H | reflexivity].
Qed.

Lemma assignment_detail_effect_ok tr ra aid req s :
  submissions_ok s -> submissions_ok (assignment_detail_effect tr ra aid req s).
Proof.
  intros [Hid Hpair]. unfold assignment_detail_effect.
  destruct (select_assignment aid s) as [e | [a |]];
    [split; assumption | | split; assumption].
  destruct (has_role req "student" && is_post req).
  - destruct (select_submission aid (session_id req) s) as [ex |] eqn:Hex;
      unfold submissions_ok; cbn [submissions with_submissions].
    + rewrite !update_rows_keeps by reflexivity. split; assumption.
    + unfold insert_row. cbn [rows]. rewrite !map_app. cbn [map]. split.
      * apply NoDup_snoc; [exact Hid |]. cbn [sub_id].
        intros Hin. apply in_map_iff in Hin as (r & Hr & Hin).
        pose proof (next_rowid_fresh sub_id (submissions s) r Hin). lia.
      * apply NoDup_snoc; [exact Hpair |]. unfold sub_pair at 1.
        cbn [sub_assignment_id sub_student_id].
        intros Hin. apply in_map_iff in Hin as (r & Hr & Hin).
        apply sub_of_pair in Hr.
        unfold select_submission in Hex.
        pose proof (find_none _ _ Hex r Hin) as Hno.
        rewrite Hr in Hno. discriminate.
  - destruct (form_get (form req) "sid") as [sid |]; [| split; assumption].
    destruct (has_role req "teacher" && is_post req && negb (String.eqb sid ""));
      [| split; assumption].
    unfold submissions_ok; cbn [submissions with_submissions].
    rewrite !update_rows_keeps by reflexivity. split; assumption.
Qed.

Lemma assignment_detail_effect_assignments tr ra aid req s :
  assignments_t (assignment_detail_effect tr ra aid req s) = assignments_t s.
Proof.
  unfold assignment_detail_effect.
  destruct (select_assignment aid s) as [e | [a |]];
    [reflexivity | | reflexivity].
  destruct (has_role req "student" && is_post req).
  - destruct (select_submission aid (session_id req) s); reflexivity.
  - destruct (form_get (form req) "sid") as [sid |]; [| reflexivity].
    destruct (has_role req "teacher" && is_post req && negb (String.eqb sid ""));
      reflexivity.
Qed.

Lemma serve_assignment_requests_ok ord tr ra reqs : forall s,
  submissions_ok s ->
  submissions_ok (serve_assignment_requests ord tr ra reqs s)
  /\ assignments_t (serve_assignment_requests ord tr ra reqs s) = assignments_t s.
Proof.
  unfold serve_assignment_requests.
  induction reqs as [| [aid req] reqs IH]; intros s Hok; cbn [fold_left fst snd].
  - split; [exact Hok | reflexivity].
  - rewrite assignment_detail_store.
    destruct (IH (assignment_detail_effect tr ra aid req s)
                 (assignment_detail_effect_ok tr ra aid req s Hok)) as [H1 H2].
    split; [exact H1 |].
    rewrite H2. apply assignment_detail_effect_assignments.
Qed.

(** One submission of a student on a database that meets its constraints. *)
Lemma submit_single_row tr ra aid req s a :
  submissions_ok s ->
  select_assignment aid s = inr (Some a) ->
  has_role req "student" = true ->
  is_post req = true ->
  let s' := assignment_detail_effect tr ra aid req s in
  (exists row,
      filter (sub_of aid (session_id req)) (rows (submissions s')) = [row]
      /\ sub_content row = Some (submitted_content req))
  /\ (select_submission aid (session_id req) s <> None ->
      map sub_id (rows (submissions s')) = map sub_id (rows (submissions s))).
Proof.
  intros [Hid Hpair] Ha Hrole Hpost s'. subst s'.
  unfold assignment_detail_effect. rewrite Ha, Hrole, Hpost. cbn [andb].
  destruct (select_submission aid (session_id req) s) as [ex |] eqn:Hex.
  - cbn [submissions with_submissions]. split.
    + unfold select_submission in Hex. apply find_some in Hex as [Hin Hp].
      unfold update_rows. cbn [rows].
      rewrite filter_map_same.
      2:{ intros r. destruct (sub_id r =? sub_id ex); reflexivity. }
      rewrite (filter_sub_of_unique aid (session_id req) _ ex Hpair Hin Hp).
      cbn [map]. rewrite Z.eqb_refl. eexists. split; reflexivity.
    + intros _. now apply update_rows_keeps.
  - split; [| intros H; now elim H].
    cbn [submissions with_submissions]. unfold insert_row. cbn [rows].
    rewrite filter_app. unfold select_submission in Hex.
    rewrite (find_none_filter _ _ Hex). cbn [filter app].
    unfold sub_of at 1. cbn [sub_assignment_id sub_student_id].
    rewrite !Z.eqb_refl. cbn [andb]. eexists. split; reflexivity.
Qed.

(** ** C2: one row per assignment and student *)

(** C2. On a database that meets the constraints of [submissions], after
    any run of requests to the assignment pages followed by a submission of
    a student, the table holds exactly one row for that assignment and
    student, and its content is the content just submitted; when the row
    was there before the submission, the table keeps the same rowids (the
    row is updated in place, none is inserted). *)
Theorem resubmission_single_row :
  forall (order_by_desc : forall A : Type, (A -> string) -> list A -> list A)
         (text_as_rowid : string -> option Z)
         (real_affinity : string -> real_value)
         (s : store) (aid : Z) (a : assignment)
         (earlier : list (Z * request)) (last : request),
    submissions_ok s ->
    select_assignment aid s = inr (Some a) ->
    is_post last = true ->
    has_role last "student" = true ->
    let before :=
      serve_assignment_requests order_by_desc text_as_rowid real_affinity
                                earlier s in
    let after :=
      snd (serve (assignment_detail order_by_desc text_as_rowid real_affinity
                                    aid last) before) in
    (exists row,
        filter (sub_of aid (session_id last)) (rows (submissions after)) = [row]
        /\ sub_content row = Some (submitted_content last))
    /\ (select_submission aid (session_id last) before <> None ->
        map sub_id (rows (submissions after))
        = map sub_id (rows (submissions before))).
Proof.
  intros ord tr ra s aid a earlier last Hok Ha Hpost Hrole before after.
  subst after. rewrite assignment_detail_store.
  destruct (serve_assignment_requests_ok ord tr ra earlier s Hok) as [Hok' Hasg].
  fold before in Hok', Hasg.
  apply (submit_single_row tr ra aid last before a); try assumption.
  unfold select_assignment in *. now rewrite Hasg.
Qed.

(** C2 on the demo database: first draft, grading, second draft. *)
Lemma resubmission_single_row_witness :
  let after :=
    snd (serve (assignment_detail Lib.sort_desc Lib.rowid_of_text
          Lib.real_of_text 1
                                  Demo.second_draft) Demo.db_graded) in
  (exists row,
      filter (sub_of 1 2) (rows (submissions after)) = [row]
      /\ sub_content row = Some "second draft")
  /\ map sub_id (rows (submissions after)) = [1].
Proof.
  destruct (resubmission_single_row Lib.sort_desc Lib.rowid_of_text
        Lib.real_of_text
              Demo.db0 1 Demo.assignment1
              [(1, Demo.first_draft); (1, Demo.grading)] Demo.second_draft)
    as [Hrow Hids].
  - split; constructor.
  - reflexivity.
  - reflexivity.
  - reflexivity.
  - split; [exact Hrow |].
    etransitivity; [apply Hids; discriminate | reflexivity].
Defined.

(** ** C7: a resubmission keeps the grade *)

Lemma Forall2_map_r {A} (R : A -> A -> Prop) (g : A -> A) (l : list A) :
  (forall x, In x l -> R x (g x)) -> Forall2 R l (map g l).
Proof.
  induction l as [| x l IH]; intros H; cbn [map]; constructor.
  - apply H. now left.
  - apply IH. intros y Hy. apply H. now right.
Qed.

Lemma find_map_update {A} (p : A -> bool) (g : A -> A) (l : list A) (x : A) :
  (forall y, p (g y) = p y) ->
  find p l = Some x -> find p (map g l) = Some (g x).
Proof.
  intros Hg. induction l as [| y l IH]; cbn [find map]; [discriminate |].
  rewrite Hg. destruct (p y); [intros [= ->]; reflexivity | exact IH].
Qed.

Lemma NoDup_map_same_key {A B} (key : A -> B) (l : list A) (x y : A) :
  NoDup (map key l) -> In x l -> In y l -> key x = key y -> x = y.
Proof.
  induction l as [| z l IH]; cbn [map In]; [tauto |].
  intros Hnd Hx Hy Hk. inversion Hnd as [| ? ? Hnotin Hnd']; subst.
  destruct Hx as [-> | Hx], Hy as [-> | Hy]; auto.
  - exfalso. apply Hnotin. rewrite Hk. now apply in_map.
  - exfalso. apply Hnotin. rewrite <- Hk. now apply in_map.
Qed.

(** C7. When the student already has a row for the assignment, a further
    submission rewrites [content] and [submitted_at] of that row and
    nothing else: every row keeps its rowid, its assignment and student,
    its score and its feedback, every other row is untouched, and so is
    every other table. *)
Theorem resubmission_keeps_grade :
  forall (order_by_desc : forall A : Type, (A -> string) -> list A -> list A)
         (text_as_rowid : string -> option Z)
         (real_affinity : string -> real_value)
         (s : store) (aid : Z) (a : assignment) (req : request)
         (ex : submission),
    submissions_ok s ->
    select_assignment aid s = inr (Some a) ->
    is_post req = true ->
    has_role req "student" = true ->
    select_submission aid (session_id req) s = Some ex ->
    let s' :=
      snd (serve (assignment_detail order_by_desc text_as_rowid real_affinity
            aid req) s) in
    select_submission aid (session_id req) s'
    = Some (Submission (sub_id ex) (sub_assignment_id ex) (sub_student_id ex)
                       (Some (submitted_content req)) (now req)
                       (sub_score ex) (sub_feedback ex))
    /\ Forall2 (fun r r' =>
                  sub_id r' = sub_id r /\ sub_pair r' = sub_pair r
                  /\ sub_score r' = sub_score r
                  /\ sub_feedback r' = sub_feedback r
                  /\ (r <> ex -> r' = r))
               (rows (submissions s)) (rows (submissions s'))
    /\ s' = with_submissions s (submissions s').
Proof.
  intros ord tr ra s aid a req ex [Hid _] Ha Hpost Hrole Hex s'. subst s'.
  rewrite assignment_detail_store. unfold assignment_detail_effect.
  rewrite Ha, Hrole, Hpost, Hex. cbn [andb submissions with_submissions].
  unfold update_rows. cbn [rows].
  split; [| split; [| reflexivity]].
  - unfold select_submission. cbn [submissions with_submissions rows].
    unfold select_submission in Hex.
    erewrite find_map_update; [| | exact Hex].
    + now rewrite Z.eqb_refl.
    + intros y. destruct (sub_id y =? sub_id ex); reflexivity.
  - apply Forall2_map_r. intros r Hr.
    destruct (Z.eqb_spec (sub_id r) (sub_id ex)) as [Heq | Hne].
    + cbn. repeat split; try reflexivity.
      intros Hdiff. exfalso. apply Hdiff.
      unfold select_submission in Hex. apply find_some in Hex as [Hin _].
      exact (NoDup_map_same_key sub_id _ r ex Hid Hr Hin Heq).
    + repeat split; reflexivity.
Qed.

(** C7 on the demo database: the grade given to the first draft is still
    on the row after the second draft. *)
Lemma resubmission_keeps_grade_witness :
  let s' :=
    snd (serve (assignment_detail Lib.sort_desc Lib.rowid_of_text
          Lib.real_of_text 1
                                  Demo.second_draft) Demo.db_graded) in
  select_submission 1 2 Demo.db_graded
  = Some (Submission 1 1 2 (Some "first draft") "2024-01-03T10:00:00"
                     (Some (RealNumber 90)) (Some "Good start"))
  /\ select_submission 1 2 s'
     = Some (Submission 1 1 2 (Some "second draft") "2024-01-05T18:30:00"
                        (Some (RealNumber 90)) (Some "Good start")).
Proof.
  split; [reflexivity |].
  refine (proj1 (resubmission_keeps_grade Lib.sort_desc Lib.rowid_of_text
        Lib.real_of_text
                   Demo.db_graded 1 Demo.assignment1 Demo.second_draft
                   (Submission 1 1 2 (Some "first draft") "2024-01-03T10:00:00"
                               (Some (RealNumber 90)) (Some "Good start"))
                   _ eq_refl eq_refl eq_refl eq_refl)).
  split; repeat constructor; simpl; intuition discriminate.
Defined.

(** ** C10: a POST that is neither a submission nor a grading *)

(** C10. For an existing assignment, a POST from a requester who is not a
    student, and who is either not a teacher or sends no submission id,
    writes nothing and is answered with the detail page: no redirect to the
    login page, no error. *)
Theorem assignment_detail_post_falls_through :
  forall (order_by_desc : forall A : Type, (A -> string) -> list A -> list A)
         (text_as_rowid : string -> option Z)
         (real_affinity : string -> real_value)
         (s : store) (aid : Z) (a : assignment) (req : request),
    select_assignment aid s = inr (Some a) ->
    is_post req = true ->
    (session req = None
     \/ (has_role req "teacher" = true
         /\ truthy (form_get (form req) "sid") = false)
     \/ (has_role req "student" = false /\ has_role req "teacher" = false)) ->
    serve (assignment_detail order_by_desc text_as_rowid real_affinity
          aid req) s
    = (Responded
         (Render (AssignmentDetailPage a None
                    (if has_role req "teacher"
                     then select_submissions_of order_by_desc aid s
                     else []))),
       s).
Proof.
  intros ord tr ra s aid a req Ha Hpost Hwho.
  assert (Hst : has_role req "student" = false).
  { destruct Hwho as [Hnone | [[Ht _] | [Hs _]]].
    - unfold has_role. now rewrite Hnone.
    - unfold has_role in *. destruct (session req) as [u |]; [| reflexivity].
      apply String.eqb_eq in Ht. now rewrite Ht.
    - exact Hs. }
  rewrite (assignment_detail_render ord tr ra aid req s a Ha).
  - now rewrite Hst.
  - now rewrite Hst.
  - destruct Hwho as [Hnone | [[_ Hsid] | [_ Ht]]].
    + unfold has_role. now rewrite Hnone.
    + rewrite Hsid. apply andb_false_r.
    + now rewrite Ht.
Qed.

(** C10 on the graded demo database: an anonymous POST, even one that
    carries content and a submission id, and a teacher's POST without a
    submission id both come back as the detail page and change nothing. *)
Lemma assignment_detail_post_falls_through_witness :
  serve (assignment_detail Lib.sort_desc Lib.rowid_of_text Lib.real_of_text 1
                           Demo.anonymous_post) Demo.db_graded
  = (Responded (Render (AssignmentDetailPage Demo.assignment1 None [])),
     Demo.db_graded)
  /\ snd (serve (assignment_detail Lib.sort_desc Lib.rowid_of_text
        Lib.real_of_text 1
                                   Demo.teacher_post_without_sid)
                Demo.db_graded)
     = Demo.db_graded.
Proof.
  split.
  - apply (assignment_detail_post_falls_through Lib.sort_desc
             Lib.rowid_of_text Lib.real_of_text
                   Demo.db_graded 1 Demo.assignment1
             Demo.anonymous_post eq_refl eq_refl).
    left. reflexivity.
  - rewrite (assignment_detail_post_falls_through Lib.sort_desc
               Lib.rowid_of_text Lib.real_of_text
                     Demo.db_graded 1 Demo.assignment1
               Demo.teacher_post_without_sid eq_refl eq_refl).
    + reflexivity.
    + right. left. split; reflexivity.
Defined.

(** ** [quiz_new] *)

Lemma in_list_In (k : string) (l : list string) :
  in_list k l = true <-> In k l.
Proof.
  unfold in_list. rewrite existsb_exists. split.
  - intros (x & Hx & Heq). apply String.eqb_eq in Heq. now subst.
  - intros H. exists k. split; [exact H | apply String.eqb_refl].
Qed.

(** The guard of the loop lets through exactly the fully filled rows. *)
Lemma question_row_spec (f : form_data) (i : Z) row :
  question_row f i = Some row <-> fully_filled f i row.
Proof.
  unfold question_row, fully_filled.
  destruct row as [[[[[p a] b] c] d] k].
  destruct (form_get f (question_key i "_prompt")) as [p' |];
    [| cbn; split; [discriminate | intros [[[=] _] _]]].
  destruct (form_get f (question_key i "_a")) as [a' |];
    [| cbn; rewrite ?andb_false_r; split;
       [discriminate | intros (_ & [[=] _] & _)]].
  destruct (form_get f (question_key i "_b")) as [b' |];
    [| cbn; rewrite ?andb_false_r; split;
       [discriminate | intros (_ & _ & [[=] _] & _)]].
  destruct (form_get f (question_key i "_c")) as [c' |];
    [| cbn; rewrite ?andb_false_r; split;
       [discriminate | intros (_ & _ & _ & [[=] _] & _)]].
  destruct (form_get f (question_key i "_d")) as [d' |];
    [| cbn; rewrite ?andb_false_r; split;
       [discriminate | intros (_ & _ & _ & _ & [[=] _] & _)]].
  destruct (form_get f (question_key i "_correct")) as [k' |];
    [| cbn; rewrite ?andb_false_r; split;
       [discriminate | intros (_ & _ & _ & _ & _ & [=] & _)]].
  change (in_strs (Some k') labels) with (in_list k' labels).
  unfold filled. cbn [truthy].
  destruct (negb (p' =? "")%string && negb (a' =? "")%string
            && negb (b' =? "")%string && negb (c' =? "")%string
            && negb (d' =? "")%string && in_list k' labels) eqn:G.
  - rewrite !andb_true_iff, !negb_true_iff, !String.eqb_neq in G.
    destruct G as [[[[[Hp Ha] Hb] Hc] Hd] Hk]. apply in_list_In in Hk.
    split.
    + intros [= <- <- <- <- <- <-]. repeat split; assumption.
    + intros ([[= <-] _] & [[= <-] _] & [[= <-] _] & [[= <-] _]
              & [[= <-] _] & [= <-] & _). reflexivity.
  - split; [discriminate |].
    intros ([[= <-] Hp] & [[= <-] Ha] & [[= <-] Hb] & [[= <-] Hc]
            & [[= <-] Hd] & [= <-] & Hk).
    apply in_list_In in Hk. apply String.eqb_neq in Hp, Ha, Hb, Hc, Hd.
    rewrite Hp, Ha, Hb, Hc, Hd, Hk in G. discriminate.
Qed.

Lemma question_row_label f i p a b c d k :
  question_row f i = Some (p, a, b, c, d, k) -> in_list k labels = true.
Proof.
  intros H. apply question_row_spec in H.
  apply in_list_In. apply H.
Qed.

(** The loop over the form rows never raises. *)
Lemma question_loop quiz_id f idx : forall c,
  for_each idx (question_step quiz_id f) tt c
  = (inr tt,
     Conn (committed c)
          (with_quiz_questions (working c)
             (add_questions quiz_id f idx (quiz_questions (working c))))
          (commits c)).
Proof.
  unfold add_questions.
  induction idx as [| i idx IH]; intros c; cbn [for_each fold_left].
  - unfold ret. destruct c as [cm w l]. destruct w. reflexivity.
  - unfold question_step at 1.
    destruct (question_row f i) as [[[[[[p a] b] cc] d] k] |] eqn:Hrow.
    + erewrite bind_execute_ok.
      2:{ unfold insert_quiz_question.
          rewrite (question_row_label _ _ _ _ _ _ _ _ Hrow). reflexivity. }
      rewrite IH. reflexivity.
    + rewrite bind_ret, IH. reflexivity.
Qed.

Lemma add_questions_rows quiz_id f idx : forall t,
  exists qrows,
    rows (add_questions quiz_id f idx t) = (rows t ++ qrows)%list
    /\ map question_fields qrows
       = map (fun row => (quiz_id, row))
             (flat_map (fun i => match question_row f i with
                                 | Some row => [row]
                                 | None => []
                                 end) idx).
Proof.
  unfold add_questions.
  induction idx as [| i idx IH]; intros t; cbn [fold_left flat_map].
  - exists []. split; [now rewrite app_nil_r | reflexivity].
  - destruct (question_row f i) as [[[[[[p a] b] c] d] k] |].
    + destruct (IH (insert_row qq_id
                      (fun id => QuizQuestion id quiz_id p a b c d k) t))
        as (rest & Hrows & Hfields).
      exists (QuizQuestion (next_rowid qq_id t) quiz_id p a b c d k :: rest).
      split.
      * rewrite Hrows. unfold insert_row. cbn [rows]. now rewrite <- app_assoc.
      * cbn [map app]. now rewrite Hfields.
    + destruct (IH t) as (rest & Hrows & Hfields).
      exists rest. split; assumption.
Qed.

Lemma max_after_fresh (x n : Z) (l : list Z) :
  x < n -> (forall y, In y l -> y < n) ->
  fold_right Z.max x (l ++ [n]) = n.
Proof.
  intros Hx. induction l as [| y l IH]; intros Hl; cbn [app fold_right].
  - lia.
  - rewrite IH by (intros z Hz; apply Hl; now right).
    specialize (Hl y (or_introl eq_refl)). lia.
Qed.

(** ORDER BY id DESC LIMIT 1 right after the INSERT finds the new quiz. *)
Lemma select_last_quiz_id_new (s : store) (mk : Z -> quiz) :
  (forall i, qz_id (mk i) = i) ->
  select_last_quiz_id (with_quizzes s (insert_row qz_id mk (quizzes_t s)))
  = Some (next_rowid qz_id (quizzes_t s)).
Proof.
  intros Hmk. unfold select_last_quiz_id, insert_row.
  cbn [quizzes_t with_quizzes rows]. rewrite map_app. cbn [map].
  rewrite Hmk.
  assert (Hfresh : forall y, In y (map qz_id (rows (quizzes_t s))) ->
                             y < next_rowid qz_id (quizzes_t s)).
  { intros y Hy. apply in_map_iff in Hy as (r & <- & Hr).
    now apply next_rowid_fresh. }
  destruct (map qz_id (rows (quizzes_t s))) as [| x l]; [reflexivity |].
  cbn [app]. f_equal. apply max_after_fresh.
  - apply Hfresh. now left.
  - intros y Hy. apply Hfresh. now right.
Qed.

Section QuizNew.

Variables (s : store) (req : request).
Hypothesis Hrole : has_role req "teacher" = true.
Hypothesis Hpost : is_post req = true.

Let s1 := with_quizzes s (Table (rows (quizzes_t s) ++ [new_quiz s req])
                                (next_rowid qz_id (quizzes_t s))).

(** The quiz row is committed before the loop over the form rows starts. *)
Lemma quiz_new_commits_quiz_first :
  quiz_new req (Conn s s []) = quiz_new_questions req (Conn s1 s1 [s1]).
Proof.
  unfold quiz_new. rewrite Hrole, Hpost. cbn [negb].
  erewrite bind_execute_ok by reflexivity.
  rewrite bind_commit. reflexivity.
Qed.

Lemma quiz_new_run :
  quiz_new req (Conn s s [])
  = (inr (Redirect EpQuizzes (Some (Flash "Quiz created." "success"))),
     let s' := with_quiz_questions s1
                 (add_questions (next_rowid qz_id (quizzes_t s)) (form req)
                                [1; 2; 3; 4; 5] (quiz_questions s)) in
     Conn s' s' [s'; s1]).
Proof.
  rewrite quiz_new_commits_quiz_first. unfold quiz_new_questions.
  rewrite bind_query. cbn [working].
  replace (select_last_quiz_id s1)
    with (Some (next_rowid qz_id (quizzes_t s))).
  2:{ symmetry.
      apply (select_last_quiz_id_new s
               (fun i => Quiz i (or_str (form_get (form req) "title")
                                        "Untitled Quiz")
                              (now req) (Some (session_id req)))).
      reflexivity. }
  cbv beta iota.
  unfold bind at 1. rewrite question_loop. cbn [working committed].
  rewrite bind_commit. reflexivity.
Qed.

End QuizNew.

Lemma kept_rows_flat_map f quiz_id idx :
  kept_rows f quiz_id idx
    (map (fun row => (quiz_id, row))
         (flat_map (fun i => match question_row f i with
                             | Some row => [row]
                             | None => []
                             end) idx)).
Proof.
  induction idx as [| i idx IH]; cbn [flat_map map]; [constructor |].
  destruct (question_row f i) as [row |] eqn:Hrow.
  - cbn [app map]. apply kept_take; [now apply question_row_spec | exact IH].
  - cbn [app]. apply kept_skip; [| exact IH].
    intros row Hfilled. apply question_row_spec in Hfilled. congruence.
Qed.

Lemma add_questions_none quiz_id f idx t :
  (forall i, In i idx -> question_row f i = None) ->
  add_questions quiz_id f idx t = t.
Proof.
  unfold add_questions. revert t.
  induction idx as [| i idx IH]; intros t H; cbn [fold_left]; [reflexivity |].
  rewrite (H i (or_introl eq_refl)). apply IH.
  intros j Hj. apply H. now right.
Qed.

(** ** C6: which question rows are stored *)

(** C6. A teacher's POST to the quiz form stores, after the question rows
    already there, one question row for every form row 1..5 that has a
    prompt, four choices and a label among A-D, with exactly those fields
    and in form order; a row that is not fully filled adds nothing and
    raises nothing. *)
Theorem quiz_new_persists_filled_rows :
  forall (s : store) (req : request),
    has_role req "teacher" = true ->
    is_post req = true ->
    exists (s' : store) (qrows : list quiz_question),
      serve (quiz_new req) s
      = (Responded (Redirect EpQuizzes (Some (Flash "Quiz created." "success"))),
         s')
      /\ rows (quiz_questions s') = (rows (quiz_questions s) ++ qrows)%list
      /\ kept_rows (form req) (qz_id (new_quiz s req)) [1; 2; 3; 4; 5]
                   (map question_fields qrows).
Proof.
  intros s req Hrole Hpost.
  destruct (add_questions_rows (next_rowid qz_id (quizzes_t s)) (form req)
              [1; 2; 3; 4; 5] (quiz_questions s))
    as (qrows & Hrows & Hfields).
  eexists _, qrows. split; [| split].
  - unfold serve. rewrite (quiz_new_run s req Hrole Hpost). reflexivity.
  - exact Hrows.
  - rewrite Hfields. apply kept_rows_flat_map.
Qed.

(** C6 on the demo database: of the five form rows two are fully filled,
    and two question rows join the three that were there. *)
Lemma quiz_new_persists_filled_rows_witness :
  exists (s' : store) (qrows : list quiz_question),
    serve (quiz_new Demo.quiz_form) Demo.db0
    = (Responded (Redirect EpQuizzes (Some (Flash "Quiz created." "success"))),
       s')
    /\ rows (quiz_questions s')
       = (rows (quiz_questions Demo.db0) ++ qrows)%list
    /\ map question_fields qrows
       = [ (2, ("2+2?", "3", "4", "5", "6", "B"));
           (2, ("H2O is?", "Salt", "Gold", "Water", "Air", "C")) ].
Proof.
  destruct (quiz_new_persists_filled_rows Demo.db0 Demo.quiz_form
              eq_refl eq_refl)
    as (s' & qrows & Hrun & Hrows & _).
  exists s', qrows. split; [exact Hrun |]. split; [exact Hrows |].
  apply (f_equal snd) in Hrun. cbn [snd] in Hrun. subst s'.
  vm_compute in Hrows. injection Hrows as <-. reflexivity.
Defined.

(** ** C9: the quiz row stays *)

(** C9. A teacher's POST to the quiz form commits twice.  The first commit
    comes before any question row is looked at: its snapshot is the
    database of before plus the quiz row, with the table of questions as it
    was.  The second commit is the final database.  So the quiz row is in
    the final database whatever the form rows are, and when no form row is
    fully filled the final database is the first snapshot: a quiz without
    questions. *)
Theorem quiz_new_keeps_quiz :
  forall (s : store) (req : request),
    has_role req "teacher" = true ->
    is_post req = true ->
    let s1 := with_quizzes s (Table (rows (quizzes_t s) ++ [new_quiz s req])
                                    (next_rowid qz_id (quizzes_t s))) in
    let s' := snd (serve (quiz_new req) s) in
    commit_log (quiz_new req) s = [s1; s']
    /\ quiz_questions s1 = quiz_questions s
    /\ rows (quizzes_t s') = (rows (quizzes_t s) ++ [new_quiz s req])%list
    /\ ((forall i row, In i [1; 2; 3; 4; 5] -> ~ fully_filled (form req) i row)
        -> s' = s1).
Proof.
  intros s req Hrole Hpost s1 s'. subst s1 s'.
  unfold serve, commit_log. rewrite (quiz_new_run s req Hrole Hpost).
  cbn [snd committed commits rev app].
  split; [reflexivity |]. split; [reflexivity |]. split; [reflexivity |].
  intros Hnone. rewrite add_questions_none.
  - reflexivity.
  - intros i Hi. destruct (question_row (form req) i) as [row |] eqn:Hrow;
      [| reflexivity].
    apply question_row_spec in Hrow. now elim (Hnone i row Hi).
Qed.

(** C9 on the demo database: a form without a complete row leaves a quiz
    that has no question, committed by the first of two commits. *)
Lemma quiz_new_keeps_quiz_witness :
  let s' := snd (serve (quiz_new Demo.empty_quiz_form) Demo.db0) in
  rows (quizzes_t s')
  = [Demo.quiz1; Quiz 2 "Draft" "2024-01-07T12:00:00" (Some 1)]
  /\ select_questions 2 s' = []
  /\ quiz_questions s' = quiz_questions Demo.db0
  /\ commit_log (quiz_new Demo.empty_quiz_form) Demo.db0 = [s'; s'].
Proof.
  destruct (quiz_new_keeps_quiz Demo.db0 Demo.empty_quiz_form eq_refl eq_refl)
    as (Hlog & _ & Hquiz & Hnone).
  split; [exact Hquiz |].
  rewrite Hlog.
  rewrite Hnone; [repeat split; reflexivity |].
  intros i row Hi Hfilled. apply question_row_spec in Hfilled.
  cbn [In] in Hi.
  destruct Hi as [<- | [<- | [<- | [<- | [<- | []]]]]]; discriminate Hfilled.
Defined.

(** ** [register] *)

Section Register.

Variables py_strip py_lower generate_password_hash : string -> string.

(** Every path of [register]. *)
Lemma register_effect (req : request) (s : store) :
  serve (register py_strip py_lower generate_password_hash req) s
  = if is_post req then
      if fields_ok py_strip py_lower req then
        if email_taken (form_email py_strip py_lower req) s then
          (Responded DuplicateEmailError, s)
        else
          (Responded (Redirect EpLogin
                        (Some (Flash "Registration successful. Please login."
                                     "success"))),
           with_users s
             (Table (rows (users s)
                     ++ [new_user py_strip py_lower generate_password_hash s req])
                    (next_rowid u_id (users s))))
      else
        (Responded (Redirect EpRegister
                      (Some (Flash "Fill all fields correctly." "danger"))), s)
    else (Responded (Render RegisterPage), s).
Proof.
  unfold serve, register, fields_ok, new_user, form_role.
  fold (form_name py_strip req). fold (form_email py_strip py_lower req).
  fold (form_password req).
  destruct (is_post req); [| reflexivity].
  destruct (form_get (form req) "role") as [r |];
    [| cbn [in_strs existsb eq_opt_str]; rewrite andb_false_r; reflexivity].
  change (in_strs (Some r) roles) with (in_list r roles).
  destruct (String.eqb (form_name py_strip req) "");
    [reflexivity | cbn [negb andb orb]].
  destruct (String.eqb (form_email py_strip py_lower req) "");
    [reflexivity | cbn [negb andb orb]].
  destruct (String.eqb (form_password req) "");
    [reflexivity | cbn [negb andb orb]].
  destruct (in_list r roles) eqn:Hr; [cbn [negb] | reflexivity].
  unfold try_integrity, bind, execute, insert_user, email_taken.
  cbn [working]. rewrite Hr. cbn [negb].
  destruct (existsb (fun u => String.eqb (u_email u)
                                         (form_email py_strip py_lower req))
                    (rows (users s)));
    reflexivity.
Qed.


End Register.

(** The ASCII instances: lower-casing and trimming commute, so two inputs
    that differ in letter case only are normalised to the same address. *)
Lemma is_space_lower_char (c : ascii) :
  Lib.is_space (Lib.lower_char c) = Lib.is_space c.
Proof. destruct c as [[] [] [] [] [] [] [] []]; reflexivity. Qed.

Lemma lower_as_map (e : string) :
  list_ascii_of_string (Lib.lower e)
  = map Lib.lower_char (list_ascii_of_string e).
Proof.
  induction e as [| c e IH]; cbn [Lib.lower list_ascii_of_string map];
    [reflexivity | now rewrite IH].
Qed.

Lemma lstrip_lower (l : list ascii) :
  Lib.lstrip (map Lib.lower_char l) = map Lib.lower_char (Lib.lstrip l).
Proof.
  induction l as [| c l IH]; cbn [map Lib.lstrip]; [reflexivity |].
  rewrite is_space_lower_char. destruct (Lib.is_space c); [exact IH | reflexivity].
Qed.

Lemma lower_strip (e : string) :
  Lib.lower (Lib.strip e) = Lib.strip (Lib.lower e).
Proof.
  rewrite <- (string_of_list_ascii_of_string (Lib.lower (Lib.strip e))).
  rewrite lower_as_map. unfold Lib.strip.
  rewrite list_ascii_of_string_of_list_ascii, lower_as_map.
  now rewrite lstrip_lower, <- map_rev, lstrip_lower, <- map_rev.
Qed.

Lemma same_letters_same_address (e1 e2 : string) :
  Lib.lower e1 = Lib.lower e2 ->
  Lib.lower (Lib.strip e1) = Lib.lower (Lib.strip e2).
Proof. intros H. now rewrite !lower_strip, H. Qed.

(** ** C4: addresses are stored in lower case and compared that way *)



(** ** ORDER BY created_at DESC *)

Lemma leb_trans (a b c : string) :
  String.leb a b = true -> String.leb b c = true -> String.leb a c = true.
Proof.
  unfold String.leb. intros Hab Hbc.
  destruct (String.compare a b) eqn:Cab; try discriminate;
    destruct (String.compare b c) eqn:Cbc; try discriminate.
  - apply String_as_OT.cmp_eq in Cab, Cbc. subst.
    pose proof (proj2 (String_as_OT.cmp_eq c c) eq_refl) as Hcc.
    unfold String_as_OT.cmp in Hcc. now rewrite Hcc.
  - apply String_as_OT.cmp_eq in Cab. subst. now rewrite Cbc.
  - apply String_as_OT.cmp_eq in Cbc. subst. now rewrite Cab.
  - apply String_as_OT.cmp_lt in Cab, Cbc.
    pose proof (String_as_OT.lt_trans _ _ _ Cab Cbc) as Hac.
    apply String_as_OT.cmp_lt in Hac. unfold String_as_OT.cmp in Hac.
    now rewrite Hac.
Qed.

Lemma desc_by_trans {A} (key : A -> string) : Transitive (desc_by key).
Proof. intros x y z Hxy Hyz. unfold desc_by in *. eapply leb_trans; eauto. Qed.

Lemma insert_desc_perm {A} (key : A -> string) (x : A) (l : list A) :
  Permutation (Lib.insert_desc key x l) (x :: l).
Proof.
  induction l as [| y l IH]; cbn [Lib.insert_desc]; [reflexivity |].
  destruct (String.leb (key y) (key x)); [reflexivity |].
  rewrite IH. apply perm_swap.
Qed.

Lemma insert_desc_sorted {A} (key : A -> string) (x : A) (l : list A) :
  Sorted (desc_by key) l -> Sorted (desc_by key) (Lib.insert_desc key x l).
Proof.
  induction l as [| y l IH]; cbn [Lib.insert_desc]; intros Hl.
  - repeat constructor.
  - destruct (String.leb (key y) (key x)) eqn:Hyx.
    + constructor; [exact Hl | constructor; exact Hyx].
    + inversion Hl as [| ? ? Hl' Hhd]; subst.
      constructor; [exact (IH Hl') |].
      assert (Hxy : desc_by key y x).
      { unfold desc_by. destruct (String.leb_total (key x) (key y)) as [H | H];
          [exact H | congruence]. }
      destruct l as [| z l]; cbn [Lib.insert_desc].
      * constructor. exact Hxy.
      * destruct (String.leb (key z) (key x)); constructor;
          [exact Hxy | now inversion Hhd].
Qed.

Lemma sort_desc_sorts : sorts_desc Lib.sort_desc.
Proof.
  intros A key l. unfold Lib.sort_desc. split.
  - induction l as [| x l IH]; cbn [fold_right]; [reflexivity |].
    rewrite insert_desc_perm. now constructor.
  - apply Sorted_StronglySorted; [apply desc_by_trans |].
    induction l as [| x l IH]; cbn [fold_right]; [constructor |].
    now apply insert_desc_sorted.
Qed.

(** Under the PRIMARY KEY of [users] the LEFT JOIN yields one row for each
    row on its left. *)
Lemma filter_all_false {A} (p : A -> bool) (l : list A) :
  (forall x, In x l -> p x = false) -> filter p l = [].
Proof.
  induction l as [| x l IH]; intros H; cbn [filter]; [reflexivity |].
  rewrite (H x (or_introl eq_refl)). apply IH.
  intros y Hy. apply H. now right.
Qed.

Lemma user_by_id_unique (us : list user) (i : Z) :
  NoDup (map u_id us) ->
  filter (fun u => u_id u =? i) us = []
  \/ exists u, filter (fun u => u_id u =? i) us = [u].
Proof.
  induction us as [| u us IH]; cbn [map filter]; intros Hnd; [now left |].
  inversion Hnd as [| ? ? Hnotin Hnd']; subst.
  destruct (Z.eqb_spec (u_id u) i) as [Heq | Hne]; [| exact (IH Hnd')].
  right. exists u. f_equal. apply filter_all_false.
  intros v Hv. apply Z.eqb_neq. intros Hvi. apply Hnotin.
  rewrite Heq, <- Hvi. now apply in_map.
Qed.

Lemma left_join_user_fst {A} (fk : A -> option Z) (us : list user)
  (l : list A) :
  NoDup (map u_id us) ->
  map fst (flat_map (left_join_user fk us) l) = l.
Proof.
  intros Hnd. induction l as [| a l IH]; cbn [flat_map]; [reflexivity |].
  rewrite map_app, IH. unfold left_join_user.
  destruct (fk a) as [i |].
  - destruct (user_by_id_unique us i Hnd) as [-> | [u ->]]; reflexivity.
  - rewrite filter_all_false by reflexivity. reflexivity.
Qed.

(** ** C8: the list of announcements *)

Lemma find_hd_filter {A} (p : A -> bool) (l : list A) :
  find p l = hd_error (filter p l).
Proof.
  induction l as [| x l IH]; cbn [find filter]; [reflexivity |].
  destruct (p x); [reflexivity | exact IH].
Qed.

(** The author column of a joined row is the name of the user the foreign
    key names, or NULL when there is none. *)
Lemma left_join_user_author {A} (fk : A -> option Z) (s : store) (l : list A)
  (p : A * option string) :
  NoDup (map u_id (rows (users s))) ->
  In p (flat_map (left_join_user fk (rows (users s))) l) ->
  snd p = author_of s (fk (fst p)).
Proof.
  intros Hnd H. apply in_flat_map in H as (a & _ & Hp).
  unfold left_join_user in Hp.
  destruct (fk a) as [i |] eqn:Hfk.
  - destruct (user_by_id_unique (rows (users s)) i Hnd) as [Hnone | [u Hu]].
    + rewrite Hnone in Hp. destruct Hp as [<- | []]. cbn [fst snd].
      unfold author_of. now rewrite Hfk, find_hd_filter, Hnone.
    + rewrite Hu in Hp. destruct Hp as [<- | []]. cbn [fst snd].
      unfold author_of. now rewrite Hfk, find_hd_filter, Hu.
  - rewrite filter_all_false in Hp by reflexivity.
    destruct Hp as [<- | []]. cbn [fst snd].
    unfold author_of. now rewrite Hfk.
Qed.

Lemma StronglySorted_app_inv {A} (R : A -> A -> Prop) (l1 l2 : list A) :
  StronglySorted R (l1 ++ l2) ->
  StronglySorted R l1
  /\ StronglySorted R l2
  /\ forall x y, In x l1 -> In y l2 -> R x y.
Proof.
  induction l1 as [| a l1 IH]; cbn [app]; intros H.
  - split; [constructor | split; [exact H | intros x y []]].
  - inversion H as [| ? ? Hs Hall]; subst.
    destruct (IH Hs) as (H1 & H2 & H12).
    apply Forall_app in Hall as [Ha1 Ha2].
    split; [constructor; assumption |]. split; [exact H2 |].
    intros x y [<- | Hx] Hy.
    + rewrite Forall_forall in Ha2. now apply Ha2.
    + now apply H12.
Qed.

Lemma StronglySorted_filter {A} (R : A -> A -> Prop) (p : A -> bool)
  (l : list A) :
  StronglySorted R l -> StronglySorted R (filter p l).
Proof.
  induction 1 as [| x l Hl IH Hall]; cbn [filter]; [constructor |].
  destruct (p x); [| exact IH].
  constructor; [exact IH |].
  rewrite Forall_forall in *. intros y Hy. apply filter_In in Hy as [Hy _].
  now apply Hall.
Qed.

Lemma StronglySorted_map {A B} (R : B -> B -> Prop) (g : A -> B)
  (l : list A) :
  StronglySorted R (map g l) -> StronglySorted (fun x y => R (g x) (g y)) l.
Proof.
  induction l as [| x l IH]; cbn [map]; intros H; [constructor |].
  inversion H as [| ? ? Hs Hall]; subst.
  constructor; [exact (IH Hs) |].
  rewrite Forall_forall in *. intros y Hy. apply Hall. now apply in_map.
Qed.

(** In a table in rowid order, of two rows the one that comes first has
    the smaller rowid. *)
Lemma rowid_order_between {A} (rowid : A -> Z) (p : A -> bool)
  (l l1 l2 l3 : list A) (a b : A) :
  StronglySorted Z.lt (map rowid l) ->
  filter p l = (l1 ++ a :: l2 ++ b :: l3)%list ->
  rowid a < rowid b.
Proof.
  intros Hl Heq. apply StronglySorted_map in Hl.
  apply (StronglySorted_filter _ p) in Hl. rewrite Heq in Hl.
  apply StronglySorted_app_inv in Hl as (_ & Hl & _).
  inversion Hl as [| ? ? _ Hall]; subst.
  rewrite Forall_forall in Hall. apply Hall.
  apply in_or_app. right. now left.
Qed.

(** AUTOINCREMENT keeps a table in rowid order. *)
Lemma insert_row_rowid_order {A} (rowid : A -> Z) (mk : Z -> A)
  (t : table A) :
  (forall i, rowid (mk i) = i) ->
  in_rowid_order rowid t -> in_rowid_order rowid (insert_row rowid mk t).
Proof.
  intros Hmk. unfold in_rowid_order, insert_row. cbn [rows].
  rewrite map_app. cbn [map]. rewrite Hmk.
  assert (Hfresh : forall i, In i (map rowid (rows t)) ->
                             i < next_rowid rowid t).
  { intros i Hi. apply in_map_iff in Hi as (r & <- & Hr).
    now apply next_rowid_fresh. }
  revert Hfresh. generalize (next_rowid rowid t) as n.
  induction (map rowid (rows t)) as [| i l IH]; intros n Hfresh Hl;
    cbn [app].
  - repeat constructor.
  - inversion Hl as [| ? ? Hs Hall]; subst. constructor.
    + apply IH; [| exact Hs]. intros j Hj. apply Hfresh. now right.
    + apply Forall_app. split; [exact Hall |].
      constructor; [| constructor]. apply Hfresh. now left.
Qed.

(** The insertion sort is such a sorter: a row goes in front of the rows
    with the same key that were fed after it. *)
Lemma insert_desc_ties {A} (key : A -> string) (x : A) (l : list A)
  (k : string) :
  filter (fun y => String.eqb (key y) k) (Lib.insert_desc key x l)
  = filter (fun y => String.eqb (key y) k) (x :: l).
Proof.
  induction l as [| y l IH]; cbn [Lib.insert_desc]; [reflexivity |].
  destruct (String.leb (key y) (key x)) eqn:Hyx; [reflexivity |].
  cbn [filter] in *. rewrite IH.
  destruct (String.eqb_spec (key y) k) as [Hy | Hy];
    destruct (String.eqb_spec (key x) k) as [Hx | Hx]; try reflexivity.
  exfalso. rewrite Hy, Hx in Hyx.
  destruct (String.leb_total k k) as [H | H]; congruence.
Qed.

Lemma sort_desc_keeps_ties : keeps_ties Lib.sort_desc.
Proof.
  intros A key l k. unfold Lib.sort_desc.
  induction l as [| x l IH]; cbn [fold_right]; [reflexivity |].
  rewrite insert_desc_ties. cbn [filter]. now rewrite IH.
Qed.

Lemma filter_map_fst {A B} (p : A -> bool) (l : list (A * B)) :
  filter p (map fst l) = map fst (filter (fun r => p (fst r)) l).
Proof.
  induction l as [| r l IH]; cbn [map filter]; [reflexivity |].
  destruct (p (fst r)); cbn [map]; now rewrite IH.
Qed.

(** C8. With SQLite's sorter, which meets the ORDER BY contract and keeps
    rows with equal keys in scan order, the list shows every announcement
    once, each with the name of its author, every announcement before
    those with an earlier or equal [created_at], and announcements with the
    same [created_at] in ascending id.  The query itself names no second
    key: the order of the ties is the sorter's. *)
Theorem announcements_newest_first :
  forall (order_by_desc : forall A : Type, (A -> string) -> list A -> list A)
         (s : store),
    sorts_desc order_by_desc ->
    keeps_ties order_by_desc ->
    NoDup (map u_id (rows (users s))) ->
    in_rowid_order an_id (announcements_t s) ->
    exists listing : list (announcement * option string),
      serve (announcements order_by_desc) s
      = (Responded (Render (AnnouncementsPage listing)), s)
      /\ Permutation (map fst listing) (rows (announcements_t s))
      /\ StronglySorted (desc_by (fun r => an_created_at (fst r))) listing
      /\ ties_in_id_order (map fst listing)
      /\ Forall (fun r => snd r = author_of s (an_created_by (fst r))) listing.
Proof.
  intros ord s Hord Hties Hpk Hrowid.
  exists (select_announcements ord s). split; [reflexivity |].
  unfold select_announcements.
  set (joined := flat_map (left_join_user an_created_by (rows (users s)))
                          (rows (announcements_t s))).
  set (key := fun r : announcement * option string => an_created_at (fst r)).
  destruct (Hord _ key joined) as [Hperm Hsorted].
  assert (Hfst : map fst joined = rows (announcements_t s))
    by now apply left_join_user_fst.
  split; [| split; [exact Hsorted | split]].
  - rewrite (Permutation_map fst Hperm). now rewrite Hfst.
  - intros l1 l2 l3 a b Heq Hsame.
    set (k := an_created_at a) in *.
    set (p := fun x : announcement => String.eqb (an_created_at x) k).
    assert (Hk : forall l : list (announcement * option string),
               filter p (map fst l)
               = map fst (filter (fun r => String.eqb (key r) k) l))
      by (intros l; exact (filter_map_fst p l)).
    apply (rowid_order_between an_id p (rows (announcements_t s))
             (filter p l1) (filter p l2) (filter p l3));
      [exact Hrowid |].
    rewrite <- Hfst, Hk, <- (Hties _ key joined k), <- Hk, Heq.
    rewrite !filter_app. cbn [filter]. rewrite !filter_app. cbn [filter].
    unfold p at 2 4. rewrite <- Hsame. unfold k. rewrite String.eqb_refl.
    reflexivity.
  - apply Forall_forall. intros r Hr.
    apply (left_join_user_author an_created_by s (rows (announcements_t s)));
      [exact Hpk |].
    fold joined. apply (Permutation_in _ Hperm). exact Hr.
Qed.

(** C8 on the demo notices with the insertion sort as the sorter: the two
    notices of the same instant come with the smaller id first. *)
Lemma announcements_newest_first_witness :
  exists listing : list (announcement * option string),
    serve (announcements Lib.sort_desc) Demo.db_notices
    = (Responded (Render (AnnouncementsPage listing)), Demo.db_notices)
    /\ map (fun r => (an_id (fst r), snd r)) listing
       = [(3, None); (1, Some "Teacher Demo"); (2, Some "Teacher Demo")]
    /\ StronglySorted (desc_by (fun r => an_created_at (fst r))) listing
    /\ ties_in_id_order (map fst listing).
Proof.
  destruct (announcements_newest_first Lib.sort_desc Demo.db_notices
              sort_desc_sorts sort_desc_keeps_ties)
    as (listing & Hrun & _ & Hsorted & Hties & _).
  - repeat constructor; simpl; intuition discriminate.
  - unfold in_rowid_order. cbn. repeat constructor.
  - exists listing. split; [exact Hrun |].
    split; [| split; [exact Hsorted | exact Hties]].
    injection Hrun as <-. reflexivity.
Defined.

(** * Further properties of the handlers *)

(** ** [register]: the check of the fields and the constraints of [users] *)

Lemma in_strs_In (o : option string) (l : list string) :
  in_strs o l = true <-> exists r, o = Some r /\ In r l.
Proof.
  destruct o as [r |].
  - change (in_strs (Some r) l) with (in_list r l). rewrite in_list_In.
    split; [intros H; exists r; auto | intros (r' & [= <-] & H); exact H].
  - unfold in_strs. split.
    + intros H. apply existsb_exists in H as (x & _ & Hx). discriminate.
    + intros (r & [=] & _).
Qed.

(** X1. A registration form with a blank name (blank once trimmed), a
    blank address, an empty password, or a role that is missing or is
    neither "teacher" nor "student" is turned away with the notice to fill
    all fields, and nothing is written. *)
Theorem register_rejects_bad_fields :
  forall (py_strip py_lower generate_password_hash : string -> string)
         (s : store) (req : request),
    is_post req = true ->
    (py_strip (or_str (form_get (form req) "name") "") = ""
     \/ py_lower (py_strip (or_str (form_get (form req) "email") "")) = ""
     \/ or_str (form_get (form req) "password") "" = ""
     \/ (forall r, form_get (form req) "role" = Some r -> ~ In r roles)) ->
    serve (register py_strip py_lower generate_password_hash req) s
    = (Responded (Redirect EpRegister
                    (Some (Flash "Fill all fields correctly." "danger"))), s).
Proof.
  intros strip lower hash s req Hpost Hbad.
  rewrite register_effect, Hpost.
  assert (Hno : fields_ok strip lower req = false).
  { unfold fields_ok, form_name, form_email, form_password.
    destruct Hbad as [-> | [-> | [-> | Hrole]]]; cbn [String.eqb negb andb];
      rewrite ?andb_false_r; try reflexivity.
    destruct (in_strs (form_get (form req) "role") roles) eqn:Hin;
      [| now rewrite andb_false_r].
    apply in_strs_In in Hin as (r & Hr & Hin). now elim (Hrole r Hr). }
  now rewrite Hno.
Qed.

Lemma register_rejects_bad_fields_witness :
  serve (register Lib.strip Lib.lower Lib.hash
           (Request POST [("name", "   "); ("email", "eve@example.org");
                          ("password", "pw"); ("role", "student")]
                    None "2024-02-01T08:00:00")) Demo.db0
  = (Responded (Redirect EpRegister
                  (Some (Flash "Fill all fields correctly." "danger"))),
     Demo.db0)
  /\ serve (register Lib.strip Lib.lower Lib.hash
              (Request POST [("name", "Eve"); ("email", "eve@example.org");
                             ("password", "pw"); ("role", "admin")]
                       None "2024-02-01T08:00:00")) Demo.db0
     = (Responded (Redirect EpRegister
                     (Some (Flash "Fill all fields correctly." "danger"))),
        Demo.db0).
Proof.
  split; apply register_rejects_bad_fields; try reflexivity.
  - left. reflexivity.
  - right. right. right. intros r [= <-] [H | [H | []]]; discriminate.
Defined.

(** X2. [register] keeps the constraints of [users] (unique ids, unique
    addresses, roles among "teacher" and "student") and touches no other
    table, whatever the request. *)
Theorem register_keeps_users_ok :
  forall (py_strip py_lower generate_password_hash : string -> string)
         (s : store) (req : request),
    users_ok s ->
    let s' := snd (serve (register py_strip py_lower generate_password_hash
                                   req) s) in
    users_ok s' /\ s' = with_users s (users s').
Proof.
  intros strip lower hash s req (Hid & Hmail & Hrole) s'. subst s'.
  rewrite register_effect.
  assert (Hsame : s = with_users s (users s)) by (destruct s; reflexivity).
  destruct (is_post req); [| split; [repeat split; assumption | exact Hsame]].
  destruct (fields_ok strip lower req) eqn:Hok;
    [| split; [repeat split; assumption | exact Hsame]].
  destruct (email_taken (form_email strip lower req) s) eqn:Htaken;
    [split; [repeat split; assumption | exact Hsame] |].
  cbn [snd]. split; [| reflexivity].
  unfold users_ok. cbn [users with_users rows]. rewrite !map_app. cbn [map].
  repeat split.
  - apply NoDup_snoc; [exact Hid |]. unfold new_user. cbn [u_id].
    intros Hin. apply in_map_iff in Hin as (u & Hu & Hin).
    pose proof (next_rowid_fresh u_id (users s) u Hin). lia.
  - apply NoDup_snoc; [exact Hmail |]. unfold new_user. cbn [u_email].
    intros Hin. apply in_map_iff in Hin as (u & Hu & Hin).
    unfold email_taken in Htaken.
    assert (Hex : existsb (fun u0 => String.eqb (u_email u0)
                                       (form_email strip lower req))
                          (rows (users s)) = true).
    { apply existsb_exists. exists u. split; [exact Hin |].
      rewrite Hu. apply String.eqb_refl. }
    congruence.
  - apply Forall_app. split; [exact Hrole |]. constructor; [| constructor].
    unfold new_user, form_role. cbn [u_role].
    unfold fields_ok in Hok. apply andb_prop in Hok as [_ Hin].
    apply in_strs_In in Hin as (r & -> & Hin). exact Hin.
Qed.

Lemma register_keeps_users_ok_witness :
  users_ok (snd (serve (register Lib.strip Lib.lower Lib.hash
                                 Demo.ada_registers) Demo.db0)).
Proof.
  apply (register_keeps_users_ok Lib.strip Lib.lower Lib.hash Demo.db0
           Demo.ada_registers).
  repeat split; repeat constructor; simpl; intuition discriminate.
Defined.

(** ** [assignment_detail]: grading, and what no request can do *)

Lemma with_submissions_same (s : store) : with_submissions s (submissions s) = s.
Proof. destruct s; reflexivity. Qed.

Lemma update_rows_none {A} (sel : A -> bool) (upd : A -> A) (t : table A) :
  (forall r, In r (rows t) -> sel r = false) -> update_rows sel upd t = t.
Proof.
  intros H. unfold update_rows. destruct t as [l n]. cbn [rows seq] in *.
  f_equal. rewrite <- (map_id l) at 2. apply map_ext_in.
  intros r Hr. now rewrite (H r Hr).
Qed.

Lemma teacher_is_no_student (req : request) :
  has_role req "teacher" = true -> has_role req "student" = false.
Proof.
  unfold has_role. destruct (session req) as [u |]; [| discriminate].
  intros H. apply String.eqb_eq in H. now rewrite H.
Qed.

(** X3. No request to [assignment_detail] changes a table other than
    [submissions], and none deletes or re-keys a submission: the rows
    keep their rowid, assignment and student, and at most one row is
    added. *)
Theorem assignment_detail_only_adds_submissions :
  forall (order_by_desc : forall A : Type, (A -> string) -> list A -> list A)
         (text_as_rowid : string -> option Z)
         (real_affinity : string -> real_value)
         (s : store) (aid : Z) (req : request),
    let s' := snd (serve (assignment_detail order_by_desc text_as_rowid
          real_affinity
                                            aid req) s) in
    s' = with_submissions s (submissions s')
    /\ exists extra : list submission,
         map (fun r => (sub_id r, sub_pair r)) (rows (submissions s'))
         = (map (fun r => (sub_id r, sub_pair r)) (rows (submissions s))
            ++ map (fun r => (sub_id r, sub_pair r)) extra)%list
         /\ (length extra <= 1)%nat.
Proof.
  intros ord tr ra s aid req s'. subst s'.
  rewrite assignment_detail_store. unfold assignment_detail_effect.
  assert (Hnone : s = with_submissions s (submissions s)
                  /\ exists extra : list submission,
                       map (fun r => (sub_id r, sub_pair r)) (rows (submissions s))
                       = (map (fun r => (sub_id r, sub_pair r))
                              (rows (submissions s))
                          ++ map (fun r => (sub_id r, sub_pair r)) extra)%list
                       /\ (length extra <= 1)%nat).
  { split; [now rewrite with_submissions_same |].
    exists []. cbn. rewrite app_nil_r. split; [reflexivity | lia]. }
  assert (Hupd : forall sel upd,
             (forall r, sub_id (upd r) = sub_id r /\ sub_pair (upd r) = sub_pair r) ->
             with_submissions s (update_rows sel upd (submissions s))
             = with_submissions s
                 (submissions
                    (with_submissions s (update_rows sel upd (submissions s))))
             /\ exists extra : list submission,
                  map (fun r => (sub_id r, sub_pair r))
                      (rows (submissions
                               (with_submissions s
                                  (update_rows sel upd (submissions s)))))
                  = (map (fun r => (sub_id r, sub_pair r))
                         (rows (submissions s))
                     ++ map (fun r => (sub_id r, sub_pair r)) extra)%list
                  /\ (length extra <= 1)%nat).
  { intros sel upd Hk. split; [reflexivity |]. exists [].
    cbn [submissions with_submissions map length]. rewrite app_nil_r.
    split; [| lia].
    apply update_rows_keeps. intros r. destruct (Hk r) as [-> ->]. reflexivity. }
  destruct (select_assignment aid s) as [e | [a |]];
    [exact Hnone | | exact Hnone].
  destruct (has_role req "student" && is_post req).
  - destruct (select_submission aid (session_id req) s) as [ex |].
    + apply Hupd. intros r. split; reflexivity.
    + split; [reflexivity |].
      eexists [_]. cbn [submissions with_submissions insert_row rows].
      rewrite map_app. split; [reflexivity | cbn; lia].
  - destruct (form_get (form req) "sid") as [sid |]; [| exact Hnone].
    destruct (has_role req "teacher" && is_post req && negb (String.eqb sid ""));
      [| exact Hnone].
    apply Hupd. intros r. split; reflexivity.
Qed.

(** X4. A teacher's POST with a submission id sets [feedback] of the row
    with that id to the text of the form and [score] to what the REAL
    column makes of the text of the form: the number it reads as, or the
    text itself, whatever its value (there is no range check), or NULL when
    the field is absent.  Content and time of the row stay, and every other
    row is untouched.  The row need not belong to the assignment of the
    page. *)
Theorem grade_sets_score_and_feedback :
  forall (order_by_desc : forall A : Type, (A -> string) -> list A -> list A)
         (text_as_rowid : string -> option Z)
         (real_affinity : string -> real_value)
         (s : store) (aid : Z) (a : assignment) (req : request)
         (sid : string) (target : submission),
    submissions_ok s ->
    select_assignment aid s = inr (Some a) ->
    is_post req = true ->
    has_role req "teacher" = true ->
    form_get (form req) "sid" = Some sid ->
    sid <> "" ->
    text_as_rowid sid = Some (sub_id target) ->
    In target (rows (submissions s)) ->
    let out := serve (assignment_detail order_by_desc text_as_rowid
          real_affinity aid req) s in
    fst out = Responded (Redirect (EpAssignmentDetail aid)
                           (Some (Flash "Graded." "success")))
    /\ Forall2 (fun r r' =>
                  (r = target ->
                   r' = Submission (sub_id r) (sub_assignment_id r)
                          (sub_student_id r) (sub_content r)
                          (sub_submitted_at r)
                          (option_map real_affinity
                                      (form_get (form req) "score"))
                          (form_get (form req) "feedback"))
                  /\ (r <> target -> r' = r))
               (rows (submissions s)) (rows (submissions (snd out)))
    /\ snd out = with_submissions s (submissions (snd out)).
Proof.
  intros ord tr ra s aid a req sid target [Hid _] Ha Hpost Hteacher Hsid Hne
         Htr Hin out. subst out.
  pose proof (teacher_is_no_student req Hteacher) as Hst.
  rewrite (assignment_detail_grade ord tr ra aid req s a sid Ha).
  2:{ now rewrite Hst. }
  2:{ exact Hsid. }
  2:{ rewrite Hteacher, Hpost. apply String.eqb_neq in Hne. now rewrite Hne. }
  cbn [fst snd]. split; [reflexivity |].
  unfold assignment_detail_effect. rewrite Ha, Hst, Hsid, Hteacher, Hpost.
  apply String.eqb_neq in Hne. rewrite Hne. cbn [andb negb].
  cbn [submissions with_submissions]. split; [| reflexivity].
  unfold update_rows. cbn [rows]. rewrite Htr.
  apply Forall2_map_r. intros r Hr.
  destruct (Z.eqb_spec (sub_id r) (sub_id target)) as [Heq | Hdiff].
  - assert (r = target)
      by exact (NoDup_map_same_key sub_id _ r target Hid Hr Hin Heq).
    subst r. split; [reflexivity | intros H; now elim H].
  - split; [intros ->; now elim Hdiff | reflexivity].
Qed.

Lemma grade_sets_score_and_feedback_witness :
  let before := snd (serve (assignment_detail Lib.sort_desc Lib.rowid_of_text
        Lib.real_of_text
                                              1 Demo.first_draft) Demo.db0) in
  let out := serve (assignment_detail Lib.sort_desc Lib.rowid_of_text
        Lib.real_of_text
                                      1 Demo.grading) before in
  fst out = Responded (Redirect (EpAssignmentDetail 1)
                         (Some (Flash "Graded." "success")))
  /\ rows (submissions (snd out))
     = [Submission 1 1 2 (Some "first draft") "2024-01-03T10:00:00"
                   (Some (RealNumber 90)) (Some "Good start")].
Proof.
  intros before out.
  destruct (grade_sets_score_and_feedback Lib.sort_desc Lib.rowid_of_text
        Lib.real_of_text
              before 1 Demo.assignment1 Demo.grading "1"
              (Submission 1 1 2 (Some "first draft") "2024-01-03T10:00:00"
                          None None))
    as (Hout & _ & _).
  - split; repeat constructor; simpl; intuition discriminate.
  - reflexivity.
  - reflexivity.
  - reflexivity.
  - reflexivity.
  - discriminate.
  - reflexivity.
  - left. reflexivity.
  - split; [exact Hout | reflexivity].
Defined.

(** X5. A teacher's POST whose submission id matches no row still answers
    "Graded." and leaves the database as it was. *)
Theorem grade_of_unknown_submission :
  forall (order_by_desc : forall A : Type, (A -> string) -> list A -> list A)
         (text_as_rowid : string -> option Z)
         (real_affinity : string -> real_value)
         (s : store) (aid : Z) (a : assignment) (req : request) (sid : string),
    select_assignment aid s = inr (Some a) ->
    is_post req = true ->
    has_role req "teacher" = true ->
    form_get (form req) "sid" = Some sid ->
    sid <> "" ->
    (forall r, In r (rows (submissions s)) ->
               text_as_rowid sid <> Some (sub_id r)) ->
    serve (assignment_detail order_by_desc text_as_rowid real_affinity
          aid req) s
    = (Responded (Redirect (EpAssignmentDetail aid)
                    (Some (Flash "Graded." "success"))), s).
Proof.
  intros ord tr ra s aid a req sid Ha Hpost Hteacher Hsid Hne Hnone.
  pose proof (teacher_is_no_student req Hteacher) as Hst.
  rewrite (assignment_detail_grade ord tr ra aid req s a sid Ha).
  2:{ now rewrite Hst. }
  2:{ exact Hsid. }
  2:{ rewrite Hteacher, Hpost. apply String.eqb_neq in Hne. now rewrite Hne. }
  f_equal.
  unfold assignment_detail_effect. rewrite Ha, Hst, Hsid, Hteacher, Hpost.
  apply String.eqb_neq in Hne. rewrite Hne. cbn [andb negb].
  rewrite update_rows_none; [apply with_submissions_same |].
  intros r Hr. specialize (Hnone r Hr).
  destruct (tr sid) as [i |]; [| reflexivity].
  apply Z.eqb_neq. intros Heq. apply Hnone. now rewrite Heq.
Qed.

Lemma grade_of_unknown_submission_witness :
  serve (assignment_detail Lib.sort_desc Lib.rowid_of_text Lib.real_of_text 1
           (Request POST [("sid", "7"); ("score", "50")]
                    (Some Demo.as_teacher) "2024-01-04T10:00:00"))
        Demo.db_graded
  = (Responded (Redirect (EpAssignmentDetail 1)
                  (Some (Flash "Graded." "success"))), Demo.db_graded).
Proof.
  apply (grade_of_unknown_submission Lib.sort_desc Lib.rowid_of_text
        Lib.real_of_text
           Demo.db_graded 1 Demo.assignment1 _ "7");
    try reflexivity; try discriminate.
  intros r [<- | []]. discriminate.
Defined.

(** ** [quiz_take]: who may write, and what stays true of the tables *)

(** X6. Only a student's POST can make [quiz_take] write: a GET, and a POST
    by anyone who is not logged in as a student, leave the database as it
    was.  They are answered without an error when the id of the URL fits a
    64-bit INTEGER; a larger id makes the first SELECT raise OverflowError,
    whoever asks. *)
Theorem quiz_take_only_students_write :
  forall (order_by_desc : forall A : Type, (A -> string) -> list A -> list A)
         (s : store) (qid : Z) (req : request),
    is_post req = false \/ has_role req "student" = false ->
    let out := serve (quiz_take order_by_desc qid req) s in
    snd out = s
    /\ (sqlite_int qid = true -> exists r : response, fst out = Responded r)
    /\ (sqlite_int qid = false -> fst out = ServerError OverflowError).
Proof.
  intros ord s qid req Hwho out. subst out.
  destruct (quiz_take_outcome ord s qid req)
    as [(Hsame & _ & Hout) | (qz & _ & Hpost & Hrole & _)].
  - split; [exact Hsame | exact (Hout Hwho)].
  - destruct Hwho; congruence.
Qed.

Lemma quiz_take_only_students_write_witness :
  (exists r, serve (quiz_take Lib.sort_desc 1
                      (Request POST [("q1", "A")] (Some Demo.as_teacher)
                               "2024-01-02T11:00:00")) Demo.db0
             = (Responded r, Demo.db0))
  /\ (exists r, serve (quiz_take Lib.sort_desc 1
                         (Request GET [] (Some Demo.as_student)
                                  "2024-01-02T11:00:00")) Demo.db0
                = (Responded r, Demo.db0))
  /\ serve (quiz_take Lib.sort_desc (2 ^ 63)
              (Request GET [] None "2024-01-02T11:00:00")) Demo.db0
     = (ServerError OverflowError, Demo.db0).
Proof.
  pose proof (quiz_take_only_students_write Lib.sort_desc Demo.db0 1
                (Request POST [("q1", "A")] (Some Demo.as_teacher)
                         "2024-01-02T11:00:00") (or_intror eq_refl))
    as (H1 & H1' & _).
  pose proof (quiz_take_only_students_write Lib.sort_desc Demo.db0 1
                (Request GET [] (Some Demo.as_student) "2024-01-02T11:00:00")
                (or_introl eq_refl))
    as (H2 & H2' & _).
  pose proof (quiz_take_only_students_write Lib.sort_desc Demo.db0 (2 ^ 63)
                (Request GET [] None "2024-01-02T11:00:00")
                (or_introl eq_refl))
    as (H3 & _ & H3').
  split; [| split].
  - destruct (H1' eq_refl) as [r Hr]. exists r.
    rewrite (surjective_pairing (serve _ _)). now rewrite Hr, H1.
  - destruct (H2' eq_refl) as [r Hr]. exists r.
    rewrite (surjective_pairing (serve _ _)). now rewrite Hr, H2.
  - rewrite (surjective_pairing (serve _ _)). now rewrite (H3' eq_refl), H3.
Defined.

(** X7. [quiz_take] keeps every stored score a percentage, a finite number
    between 0 and 100, on quizzes of up to [quiz_size_limit] questions, for
    which the binary64 arithmetic was checked. *)
Theorem quiz_take_keeps_scores_in_range :
  forall (order_by_desc : forall A : Type, (A -> string) -> list A -> list A)
         (s : store) (qid : Z) (req : request),
    scores_in_range s ->
    (length (select_questions qid s) <= quiz_size_limit)%nat ->
    scores_in_range (snd (serve (quiz_take order_by_desc qid req) s)).
Proof.
  intros ord s qid req Hs Hsize.
  destruct (quiz_take_outcome ord s qid req)
    as [(-> & _) | (qz & _ & _ & _ & _ & _ & -> & _)]; [exact Hs |].
  cbn [snd]. unfold scores_in_range, record_submission.
  cbn [quiz_responses with_quiz_answers with_quiz_responses rows].
  apply Forall_app. split; [exact Hs |].
  constructor; [| constructor]. cbn [qr_score].
  now apply percentage_sound.
Qed.

Lemma quiz_take_keeps_scores_in_range_witness :
  scores_in_range (snd (serve (quiz_take Lib.sort_desc 1 Demo.answers)
                              Demo.db0)).
Proof.
  apply quiz_take_keeps_scores_in_range; [constructor |].
  unfold quiz_size_limit. cbn. lia.
Defined.

(** X8. [quiz_take] keeps the constraints of [quiz_responses]: unique
    rowids and at most one response for a quiz and a student. *)
Theorem quiz_take_keeps_responses_ok :
  forall (order_by_desc : forall A : Type, (A -> string) -> list A -> list A)
         (s : store) (qid : Z) (req : request),
    responses_ok s ->
    responses_ok (snd (serve (quiz_take order_by_desc qid req) s)).
Proof.
  intros ord s qid req [Hid Hpair].
  destruct (quiz_take_outcome ord s qid req)
    as [(-> & _) | (qz & _ & _ & _ & Hnew & _ & -> & _)];
    [split; assumption |].
  cbn [snd]. unfold responses_ok, record_submission.
  cbn [quiz_responses with_quiz_answers with_quiz_responses rows].
  rewrite !map_app. cbn [map qr_id]. split.
  - apply NoDup_snoc; [exact Hid |].
    intros Hin. apply in_map_iff in Hin as (r & Hr & Hin).
    pose proof (next_rowid_fresh qr_id (quiz_responses s) r Hin). lia.
  - apply NoDup_snoc; [exact Hpair |]. unfold resp_pair at 1.
    cbn [qr_quiz_id qr_student_id].
    intros Hin. apply in_map_iff in Hin as (r & Hr & Hin).
    unfold select_response in Hnew.
    pose proof (find_none _ _ Hnew r Hin) as Hno.
    unfold resp_pair in Hr. injection Hr as H1 H2.
    unfold resp_of in Hno. rewrite H1, H2, !Z.eqb_refl in Hno. discriminate.
Qed.

Lemma quiz_take_keeps_responses_ok_witness :
  responses_ok (snd (serve (quiz_take Lib.sort_desc 1 Demo.answers) Demo.db0)).
Proof.
  apply quiz_take_keeps_responses_ok. split; constructor.
Defined.

(** X9. [quiz_take] keeps the answers sound: every answer row holds no
    answer or one of A-D, and belongs to a response row that exists,
    though the schema's foreign key is not enforced. *)
Theorem quiz_take_keeps_answers_sound :
  forall (order_by_desc : forall A : Type, (A -> string) -> list A -> list A)
         (s : store) (qid : Z) (req : request),
    answers_sound s ->
    answers_sound (snd (serve (quiz_take order_by_desc qid req) s)).
Proof.
  intros ord s qid req Hs.
  destruct (quiz_take_outcome ord s qid req)
    as [(-> & _) | (qz & _ & _ & _ & _ & Hok & -> & _)]; [exact Hs |].
  cbn [snd]. unfold answers_sound, record_submission.
  cbn [quiz_responses quiz_answers with_quiz_answers with_quiz_responses rows].
  destruct (add_answers_rows (next_rowid qr_id (quiz_responses s)) (form req)
              (select_questions qid s) (quiz_answers s))
    as (answers & -> & Hfields).
  apply Forall_app. split.
  - eapply Forall_impl; [| exact Hs]. cbn beta.
    intros a (Hlabel & r & Hr & Hid). split; [exact Hlabel |].
    exists r. split; [apply in_or_app; now left | exact Hid].
  - apply Forall_forall. intros a Ha.
    assert (Hin : In (answer_fields a)
                     (map (fun q => (next_rowid qr_id (quiz_responses s),
                                     qq_id q, submitted_answer (form req) q))
                          (select_questions qid s))).
    { rewrite <- Hfields. now apply in_map. }
    apply in_map_iff in Hin as (q & Hq & Hqin).
    unfold answer_fields in Hq. injection Hq as Hresp _ Hans.
    split.
    + rewrite <- Hans.
      rewrite forallb_forall in Hok. exact (Hok q Hqin).
    + eexists. split; [apply in_or_app; right; left; reflexivity |].
      cbn [qr_id]. now rewrite Hresp.
Qed.

Lemma quiz_take_keeps_answers_sound_witness :
  answers_sound (snd (serve (quiz_take Lib.sort_desc 1 Demo.answers) Demo.db0)).
Proof.
  apply quiz_take_keeps_answers_sound. constructor.
Defined.

(** X10. A quiz without questions can be submitted: [len(questions) or 1]
    makes the divisor 1, so the division does not raise ZeroDivisionError;
    the student gets a response with score 0.0, and no answer row is
    written. *)
Theorem quiz_take_empty_quiz :
  forall (order_by_desc : forall A : Type, (A -> string) -> list A -> list A)
         (s : store) (qid : Z) (req : request) (qz : quiz),
    select_quiz qid s = inr (Some qz) ->
    select_questions qid s = [] ->
    is_post req = true ->
    has_role req "student" = true ->
    select_response qid (session_id req) s = None ->
    exists s' : store,
      serve (quiz_take order_by_desc qid req) s
      = (Responded (Redirect EpQuizzes (Some (FlashScore 0))), s')
      /\ select_response qid (session_id req) s'
         = Some (QuizResponse (next_rowid qr_id (quiz_responses s)) qid
                              (session_id req) (now req) 0)
      /\ quiz_answers s' = quiz_answers s.
Proof.
  intros ord s qid req qz Hquiz Hempty Hpost Hrole Hnew.
  assert (Hok : forallb (fun q => answer_ok (submitted_answer (form req) q))
                        (select_questions qid s) = true)
    by now rewrite Hempty.
  assert (Hpct : percentage (form req) (select_questions qid s) = 0%float)
    by now rewrite Hempty.
  exists (record_submission s qid (session_id req) (now req) (form req)).
  split; [| split].
  - unfold serve.
    rewrite (quiz_take_accepts ord s qid req qz Hquiz Hpost Hrole Hnew Hok).
    now rewrite Hpct.
  - rewrite record_submission_response by exact Hnew. now rewrite Hpct.
  - unfold record_submission. rewrite Hempty.
    cbn [quiz_answers with_quiz_answers add_answers fold_left]. reflexivity.
Qed.

Lemma quiz_take_empty_quiz_witness :
  exists s' : store,
    serve (quiz_take Lib.sort_desc 2
             (Request POST [] (Some Demo.as_student) "2024-01-08T09:00:00"))
          (snd (serve (quiz_new Demo.empty_quiz_form) Demo.db0))
    = (Responded (Redirect EpQuizzes (Some (FlashScore 0))), s')
    /\ select_response 2 2 s'
       = Some (QuizResponse 1 2 2 "2024-01-08T09:00:00" 0)
    /\ rows (quiz_answers s') = [].
Proof.
  destruct (quiz_take_empty_quiz Lib.sort_desc
              (snd (serve (quiz_new Demo.empty_quiz_form) Demo.db0)) 2
              (Request POST [] (Some Demo.as_student) "2024-01-08T09:00:00")
              (Quiz 2 "Draft" "2024-01-07T12:00:00" (Some 1))
              eq_refl eq_refl eq_refl eq_refl eq_refl)
    as (s' & Hrun & Hsel & Hans).
  exists s'. split; [exact Hrun |]. split; [exact Hsel |]. now rewrite Hans.
Defined.

(** X11. After an accepted submission, every further POST of that student
    to the quiz is turned away and writes nothing, so the response of the
    first submission stays the only one for the pair. *)
Theorem quiz_take_once :
  forall (order_by_desc : forall A : Type, (A -> string) -> list A -> list A)
         (s : store) (qid : Z) (first again : request) (qz : quiz),
    select_quiz qid s = inr (Some qz) ->
    is_post first = true ->
    has_role first "student" = true ->
    select_response qid (session_id first) s = None ->
    forallb (fun q => answer_ok (submitted_answer (form first) q))
            (select_questions qid s) = true ->
    is_post again = true ->
    has_role again "student" = true ->
    session_id again = session_id first ->
    let s1 := snd (serve (quiz_take order_by_desc qid first) s) in
    serve (quiz_take order_by_desc qid again) s1
    = (Responded (AlreadySubmittedError qid), s1)
    /\ exists resp,
         filter (resp_of qid (session_id first)) (rows (quiz_responses s1))
         = [resp]
         /\ qr_score resp = percentage (form first) (select_questions qid s).
Proof.
  intros ord s qid first again qz Hquiz Hpost Hrole Hnew Hok Hpost2 Hrole2
         Hsame s1.
  assert (Hs1 : s1 = record_submission s qid (session_id first) (now first)
                                       (form first)).
  { subst s1. unfold serve.
    now rewrite (quiz_take_accepts ord s qid first qz Hquiz Hpost Hrole Hnew Hok). }
  clearbody s1.
  assert (Hsel : select_response qid (session_id first) s1
                 = Some (QuizResponse (next_rowid qr_id (quiz_responses s)) qid
                           (session_id first) (now first)
                           (percentage (form first) (select_questions qid s)))).
  { rewrite Hs1. unfold select_response, record_submission.
    cbn [quiz_responses with_quiz_answers with_quiz_responses rows].
    unfold select_response in Hnew.
    rewrite (find_app_none _ _ _ Hnew). unfold resp_of at 1.
    cbn [find qr_quiz_id qr_student_id]. rewrite !Z.eqb_refl. reflexivity. }
  split.
  - rewrite <- Hsame in Hsel. unfold serve.
    assert (Hquiz1 : select_quiz qid s1 = inr (Some qz))
      by (rewrite Hs1; exact Hquiz).
    rewrite (quiz_take_second_attempt ord s1 qid again qz _
               Hquiz1 Hpost2 Hrole2 Hsel).
    reflexivity.
  - exists (QuizResponse (next_rowid qr_id (quiz_responses s)) qid
              (session_id first) (now first)
              (percentage (form first) (select_questions qid s))).
    split; [| reflexivity].
    rewrite Hs1. unfold record_submission.
    cbn [quiz_responses with_quiz_answers with_quiz_responses rows].
    rewrite filter_app. unfold select_response in Hnew.
    rewrite (find_none_filter _ _ Hnew). cbn [app filter].
    unfold resp_of at 1. cbn [qr_quiz_id qr_student_id].
    rewrite !Z.eqb_refl. reflexivity.
Qed.

Lemma quiz_take_once_witness :
  let s1 := snd (serve (quiz_take Lib.sort_desc 1 Demo.answers) Demo.db0) in
  serve (quiz_take Lib.sort_desc 1
           (Request POST [("q1", "A"); ("q2", "B"); ("q3", "C")]
                    (Some Demo.as_student) "2024-01-02T10:05:00")) s1
  = (Responded (AlreadySubmittedError 1), s1).
Proof.
  apply (quiz_take_once Lib.sort_desc Demo.db0 1 Demo.answers _ Demo.quiz1);
    reflexivity.
Defined.

(** ** [quiz_new]: who may write, and the quiz page afterwards *)

Lemma filter_all_true {A} (p : A -> bool) (l : list A) :
  (forall x, In x l -> p x = true) -> filter p l = l.
Proof.
  induction l as [| x l IH]; intros H; cbn [filter]; [reflexivity |].
  rewrite (H x (or_introl eq_refl)). f_equal. apply IH.
  intros y Hy. apply H. now right.
Qed.

Lemma find_fresh_row {A} (rowid : A -> Z) (t : table A) (mk : Z -> A) :
  (forall i, rowid (mk i) = i) ->
  find (fun r => rowid r =? next_rowid rowid t)
       (rows t ++ [mk (next_rowid rowid t)])
  = Some (mk (next_rowid rowid t))
  /\ find (fun r => rowid r =? next_rowid rowid t) (rows t) = None.
Proof.
  intros Hmk.
  assert (Hnone : find (fun r => rowid r =? next_rowid rowid t) (rows t) = None).
  { destruct (find _ (rows t)) as [r |] eqn:Hf; [| reflexivity].
    apply find_some in Hf as [Hin Heq]. apply Z.eqb_eq in Heq.
    pose proof (next_rowid_fresh rowid t r Hin). lia. }
  split; [| exact Hnone].
  rewrite (find_app_none _ _ _ Hnone). cbn [find].
  now rewrite Hmk, Z.eqb_refl.
Qed.

(** X12. [quiz_new] writes exactly when a teacher POSTs: the database
    changes if and only if the requester is logged in as a teacher and
    the method is POST; anyone else is sent to the login page. *)
Theorem quiz_new_writes_iff_teacher_posts :
  forall (s : store) (req : request),
    (snd (serve (quiz_new req) s) <> s
     <-> has_role req "teacher" = true /\ is_post req = true)
    /\ (has_role req "teacher" = false ->
        fst (serve (quiz_new req) s)
        = Responded (Redirect EpLogin
                       (Some (Flash "Teacher login required." "warning")))).
Proof.
  intros s req.
  destruct (has_role req "teacher") eqn:Hrole.
  - destruct (is_post req) eqn:Hpost.
    + split; [| discriminate]. split; [auto |]. intros _.
      unfold serve. rewrite (quiz_new_run s req Hrole Hpost). cbn [snd committed].
      intros Heq.
      apply (f_equal (fun s => length (rows (quizzes_t s)))) in Heq.
      cbn [quizzes_t with_quiz_questions with_quizzes rows] in Heq.
      rewrite length_app in Heq. cbn [length] in Heq. lia.
    + split; [| discriminate].
      unfold serve, quiz_new. rewrite Hrole, Hpost. cbn.
      split; [intros H; now elim H | intros [_ H]; discriminate H].
  - unfold serve, quiz_new. rewrite Hrole. cbn.
    split; [| reflexivity].
    split; [intros H; now elim H | intros [H _]; discriminate H].
Qed.

(** X13. After a teacher's POST to the quiz form the quiz page of the new
    id shows the new quiz, and, when every question row belonged to a quiz
    before, exactly the question rows of the fully filled form rows; the
    id was not a quiz before.  The new id is taken to be a 64-bit integer,
    as every rowid SQLite hands out is. *)
Theorem quiz_new_then_quiz_page :
  forall (order_by_desc : forall A : Type, (A -> string) -> list A -> list A)
         (s : store) (req view : request),
    has_role req "teacher" = true ->
    is_post req = true ->
    questions_refer s ->
    is_post view = false ->
    sqlite_int (qz_id (new_quiz s req)) = true ->
    let qid := qz_id (new_quiz s req) in
    let s' := snd (serve (quiz_new req) s) in
    select_quiz qid s = inr None
    /\ exists qrows : list quiz_question,
         serve (quiz_take order_by_desc qid view) s'
         = (Responded
              (Render (QuizTakePage (new_quiz s req) qrows
                         (if has_role view "teacher"
                          then select_results order_by_desc qid s'
                          else []))), s')
         /\ kept_rows (form req) qid [1; 2; 3; 4; 5]
                      (map question_fields qrows).
Proof.
  intros ord s req view Hrole Hpost Hrefer Hget Hint qid s'.
  assert (Hs' : s' = with_quiz_questions
                       (with_quizzes s
                          (Table (rows (quizzes_t s) ++ [new_quiz s req])
                                 (next_rowid qz_id (quizzes_t s))))
                       (add_questions (next_rowid qz_id (quizzes_t s))
                                      (form req) [1; 2; 3; 4; 5]
                                      (quiz_questions s))).
  { subst s'. unfold serve. now rewrite (quiz_new_run s req Hrole Hpost). }
  clearbody s'. subst qid. unfold new_quiz in Hint. cbn [qz_id] in Hint.
  unfold new_quiz at 1 2 4. cbn [qz_id].
  destruct (find_fresh_row qz_id (quizzes_t s)
              (fun i => Quiz i (or_str (form_get (form req) "title")
                                       "Untitled Quiz")
                             (now req) (Some (session_id req)))
              (fun i => eq_refl)) as [Hfound Hfresh].
  split; [unfold select_quiz; now rewrite Hfresh, bind_int_ok |].
  destruct (add_questions_rows (next_rowid qz_id (quizzes_t s)) (form req)
              [1; 2; 3; 4; 5] (quiz_questions s))
    as (qrows & Hrows & Hfields).
  exists qrows. split.
  - assert (Hquiz : select_quiz (next_rowid qz_id (quizzes_t s)) s'
                    = inr (Some (new_quiz s req))).
    { rewrite Hs'. unfold select_quiz, new_quiz.
      cbn [quizzes_t with_quiz_questions with_quizzes rows].
      now rewrite Hfound, bind_int_ok. }
    assert (Hqs : select_questions (next_rowid qz_id (quizzes_t s)) s' = qrows).
    { rewrite Hs'. unfold select_questions.
      cbn [quiz_questions with_quiz_questions]. rewrite Hrows, filter_app.
      rewrite filter_all_false, filter_all_true; [reflexivity | |].
      - intros q Hq. apply Z.eqb_eq.
        assert (Hin : In (question_fields q)
                         (map (fun row => (next_rowid qz_id (quizzes_t s), row))
                              (flat_map
                                 (fun i => match question_row (form req) i with
                                           | Some row => [row]
                                           | None => []
                                           end) [1; 2; 3; 4; 5]))).
        { rewrite <- Hfields. now apply in_map. }
        apply in_map_iff in Hin as (row & Heq & _).
        unfold question_fields in Heq. now injection Heq as <- _.
      - intros q Hq. apply Z.eqb_neq. intros Heq.
        destruct (Hrefer q Hq) as (z & Hz & Hid).
        pose proof (next_rowid_fresh qz_id (quizzes_t s) z Hz). lia. }
    unfold serve, quiz_take. erewrite bind_fetch_ok by exact Hquiz.
    cbv beta iota. rewrite bind_query. cbn [working].
    rewrite Hqs, Hget.
    destruct (has_role view "teacher"); reflexivity.
  - rewrite Hfields. apply kept_rows_flat_map.
Qed.

Lemma quiz_new_then_quiz_page_witness :
  let s' := snd (serve (quiz_new Demo.quiz_form) Demo.db0) in
  exists qrows : list quiz_question,
    serve (quiz_take Lib.sort_desc 2
             (Request GET [] (Some Demo.as_student) "2024-01-06T13:00:00")) s'
    = (Responded (Render (QuizTakePage
                            (Quiz 2 "Week 1" "2024-01-06T12:00:00" (Some 1))
                            qrows [])), s')
    /\ length qrows = 2%nat.
Proof.
  intros s'.
  destruct (quiz_new_then_quiz_page Lib.sort_desc Demo.db0 Demo.quiz_form
              (Request GET [] (Some Demo.as_student) "2024-01-06T13:00:00")
              eq_refl eq_refl)
    as (_ & qrows & Hrun & _).
  - intros q Hq. exists Demo.quiz1. split; [now left |].
    cbn in Hq. destruct Hq as [<- | [<- | [<- | []]]]; reflexivity.
  - reflexivity.
  - reflexivity.
  - exists qrows. split; [exact Hrun |].
    apply (f_equal fst) in Hrun. cbn [fst] in Hrun.
    vm_compute in Hrun. injection Hrun as <-. reflexivity.
Defined.

(** ** [login] *)

Lemma find_some_existsb' {A} (p : A -> bool) (l : list A) (x : A) :
  find p l = Some x -> existsb p l = true.
Proof.
  intros H. apply find_some in H as [Hin Hp].
  apply existsb_exists. now exists x.
Qed.


Lemma find_by_unique_email (l : list user) (u : user) :
  NoDup (map u_email l) -> In u l ->
  find (fun v => String.eqb (u_email v) (u_email u)) l = Some u.
Proof.
  induction l as [| v l IH]; cbn [map In find]; [tauto |].
  intros Hnd Hin. inversion Hnd as [| ? ? Hnotin Hnd']; subst.
  destruct Hin as [-> | Hin]; [now rewrite String.eqb_refl |].
  destruct (String.eqb_spec (u_email v) (u_email u)) as [Heq | _];
    [| now apply IH].
  exfalso. apply Hnotin. rewrite Heq. now apply in_map.
Qed.

(** X14. With unique addresses, a POST whose address normalises to the
    address of a user and whose password passes the hash check logs that
    user in: the session holds the id, name, role and address of the row,
    and nothing is written. *)
Theorem login_accepts :
  forall (py_strip py_lower : string -> string)
         (check_password_hash : string -> string -> bool)
         (s : store) (req : request) (u : user),
    NoDup (map u_email (rows (users s))) ->
    In u (rows (users s)) ->
    is_post req = true ->
    py_lower (py_strip (or_str (form_get (form req) "email") "")) = u_email u ->
    check_password_hash (u_password_hash u)
                        (or_str (form_get (form req) "password") "") = true ->
    run (login py_strip py_lower check_password_hash req) s
    = (inr (Go ToDashboard (Some (Flash "Welcome back!" "success")),
            Some (Identity (u_id u) (u_name u) (u_role u) (u_email u))),
       s).
Proof.
  intros strip lower check s req u Hnd Hin Hpost Hmail Hpw.
  unfold run, login. rewrite Hpost, Hmail. rewrite bind_query. cbn [working].
  unfold select_user_by_email. rewrite (find_by_unique_email _ u Hnd Hin).
  now rewrite Hpw.
Qed.

Lemma login_accepts_witness :
  run (login Lib.strip Lib.lower Lib2.check_hash
         (Request POST [("email", " Student@ClassHub.local");
                        ("password", "password123")]
                  None "2024-01-02T09:00:00")) Demo.db0
  = (inr (Go ToDashboard (Some (Flash "Welcome back!" "success")),
          Some Demo.as_student), Demo.db0).
Proof.
  apply (login_accepts Lib.strip Lib.lower Lib2.check_hash Demo.db0 _
           Demo.student).
  - repeat constructor; simpl; intuition discriminate.
  - right. left. reflexivity.
  - reflexivity.
  - reflexivity.
  - reflexivity.
Defined.

(** X15. A POST to [login] with an address no user holds, or with a
    password that fails the hash check for every user of that address, is
    answered "Invalid credentials."; the session stays as it was and
    nothing is written. *)
Theorem login_rejects :
  forall (py_strip py_lower : string -> string)
         (check_password_hash : string -> string -> bool)
         (s : store) (req : request),
    is_post req = true ->
    (forall u, In u (rows (users s)) ->
               u_email u
               = py_lower (py_strip (or_str (form_get (form req) "email") "")) ->
               check_password_hash
                 (u_password_hash u)
                 (or_str (form_get (form req) "password") "") = false) ->
    run (login py_strip py_lower check_password_hash req) s
    = (inr (Go (To EpLogin) (Some (Flash "Invalid credentials." "danger")),
            session req), s).
Proof.
  intros strip lower check s req Hpost Hbad.
  unfold run, login. rewrite Hpost. rewrite bind_query. cbn [working].
  unfold select_user_by_email.
  destruct (find _ (rows (users s))) as [u |] eqn:Hf; [| reflexivity].
  apply find_some in Hf as [Hin Heq]. apply String.eqb_eq in Heq.
  now rewrite (Hbad u Hin Heq).
Qed.

Lemma login_rejects_witness :
  run (login Lib.strip Lib.lower Lib2.check_hash
         (Request POST [("email", "student@classhub.local");
                        ("password", "letmein")]
                  None "2024-01-02T09:00:00")) Demo.db0
  = (inr (Go (To EpLogin) (Some (Flash "Invalid credentials." "danger")),
          None), Demo.db0)
  /\ run (login Lib.strip Lib.lower Lib2.check_hash
            (Request POST [("email", "nobody@classhub.local");
                           ("password", "password123")]
                     (Some Demo.as_teacher) "2024-01-02T09:00:00")) Demo.db0
     = (inr (Go (To EpLogin) (Some (Flash "Invalid credentials." "danger")),
             Some Demo.as_teacher), Demo.db0).
Proof.
  split; apply login_rejects; try reflexivity;
    intros u [<- | [<- | []]]; (reflexivity || discriminate).
Defined.

(** X16. Registering and logging in compose: when the hash check accepts
    the hash of the same password, a login with the registered password
    and an address that normalises like the registered one succeeds right
    after the registration, and the session carries the new user's id,
    name, role and lower-cased address. *)
Theorem register_then_login :
  forall (py_strip py_lower generate_password_hash : string -> string)
         (check_password_hash : string -> string -> bool)
         (s : store) (reg log : request),
    (forall pw, check_password_hash (generate_password_hash pw) pw = true) ->
    is_post reg = true ->
    fields_ok py_strip py_lower reg = true ->
    email_taken (form_email py_strip py_lower reg) s = false ->
    is_post log = true ->
    form_email py_strip py_lower log = form_email py_strip py_lower reg ->
    form_password log = form_password reg ->
    let s1 := snd (serve (register py_strip py_lower generate_password_hash
                                   reg) s) in
    run (login py_strip py_lower check_password_hash log) s1
    = (inr (Go ToDashboard (Some (Flash "Welcome back!" "success")),
            Some (Identity (next_rowid u_id (users s))
                           (form_name py_strip reg)
                           (form_role reg)
                           (form_email py_strip py_lower reg))),
       s1).
Proof.
  intros strip lower hash check s reg log Hcheck Hpost Hok Hfree Hpost2
         Hmail Hpw s1.
  assert (Hs1 : s1 = with_users s
                       (Table (rows (users s) ++ [new_user strip lower hash s reg])
                              (next_rowid u_id (users s)))).
  { subst s1. now rewrite register_effect, Hpost, Hok, Hfree. }
  clearbody s1. subst s1.
  unfold run, login. rewrite Hpost2. rewrite bind_query. cbn [working].
  fold (form_email strip lower log). fold (form_password log).
  rewrite Hmail, Hpw.
  unfold select_user_by_email. cbn [users with_users rows].
  unfold email_taken in Hfree.
  assert (Hnone : find (fun u => String.eqb (u_email u)
                                            (form_email strip lower reg))
                       (rows (users s)) = None).
  { destruct (find _ (rows (users s))) as [u |] eqn:Hf; [| reflexivity].
    rewrite (find_some_existsb' _ _ _ Hf) in Hfree. discriminate. }
  rewrite (find_app_none _ _ _ Hnone). unfold new_user at 1.
  cbn [find u_email]. rewrite String.eqb_refl.
  unfold new_user. cbn [u_password_hash u_id u_name u_role u_email identity_of].
  rewrite Hcheck. reflexivity.
Qed.

Lemma register_then_login_witness :
  let s1 := snd (serve (register Lib.strip Lib.lower Lib.hash
                                 Demo.ada_registers) Demo.db0) in
  run (login Lib.strip Lib.lower Lib2.check_hash
         (Request POST [("email", "ADA@EXAMPLE.ORG"); ("password", "s3cret")]
                  None "2024-01-08T08:05:00")) s1
  = (inr (Go ToDashboard (Some (Flash "Welcome back!" "success")),
          Some (Identity 3 "Ada" "student" "ada@example.org")), s1).
Proof.
  apply (register_then_login Lib.strip Lib.lower Lib.hash Lib2.check_hash
           Demo.db0 Demo.ada_registers); try reflexivity.
  intros pw. apply String.eqb_refl.
Defined.

(** ** [index]: the four latest announcements *)

(** X17. The home page shows at most four announcements, and they are the
    latest: they come newest first, there are four of them unless the
    table has fewer, and no announcement left out is newer than one that
    is shown. *)
Theorem index_shows_latest_four :
  forall (order_by_desc : forall A : Type, (A -> string) -> list A -> list A)
         (s : store),
    sorts_desc order_by_desc ->
    exists latest rest : list announcement,
      run (index order_by_desc) s = (inr (Show (HomePage latest)), s)
      /\ Permutation (latest ++ rest) (rows (announcements_t s))
      /\ length latest = Nat.min 4 (length (rows (announcements_t s)))
      /\ StronglySorted (desc_by an_created_at) latest
      /\ forall x y, In x latest -> In y rest ->
                     String.leb (an_created_at y) (an_created_at x) = true.
Proof.
  intros ord s Hord.
  destruct (Hord _ an_created_at (rows (announcements_t s))) as [Hperm Hsorted].
  set (l := ord announcement an_created_at (rows (announcements_t s))) in *.
  exists (firstn 4 l), (skipn 4 l).
  rewrite <- (firstn_skipn 4 l) in Hsorted.
  destruct (StronglySorted_app_inv _ _ _ Hsorted) as (H1 & _ & H12).
  split; [reflexivity |]. split; [now rewrite firstn_skipn |].
  split; [rewrite length_firstn, (Permutation_length Hperm); reflexivity |].
  split; [exact H1 | exact H12].
Qed.

Lemma index_shows_latest_four_witness :
  exists latest : list announcement,
    run (index Lib.sort_desc) Demo.db_notices
    = (inr (Show (HomePage latest)), Demo.db_notices)
    /\ map an_id latest = [3; 1; 2].
Proof.
  destruct (index_shows_latest_four Lib.sort_desc Demo.db_notices
              sort_desc_sorts)
    as (latest & rest & Hrun & _).
  exists latest. split; [exact Hrun |].
  injection Hrun as <-. reflexivity.
Defined.

(** ** [announcement_new] and the list of announcements *)

Lemma left_join_user_in {A} (fk : A -> option Z) (us : list user)
  (l : list A) (p : A * option string) :
  In p (flat_map (left_join_user fk us) l) -> In (fst p) l.
Proof.
  intros H. apply in_flat_map in H as (a & Ha & Hp).
  unfold left_join_user in Hp.
  destruct (filter _ us) as [| u m].
  - destruct Hp as [<- | []]. exact Ha.
  - apply in_map_iff in Hp as (v & <- & _). exact Ha.
Qed.

Lemma left_join_user_found {A} (fk : A -> option Z) (us : list user)
  (a : A) (u : user) :
  NoDup (map u_id us) -> In u us -> fk a = Some (u_id u) ->
  left_join_user fk us a = [(a, Some (u_name u))].
Proof.
  intros Hnd Hin Hfk. unfold left_join_user. rewrite Hfk.
  destruct (user_by_id_unique us (u_id u) Hnd) as [Hnone | [v Hv]].
  - exfalso.
    assert (Hu : In u (filter (fun w => u_id w =? u_id u) us)).
    { apply filter_In. split; [exact Hin | apply Z.eqb_refl]. }
    now rewrite Hnone in Hu.
  - rewrite Hv.
    assert (Hu : In u (filter (fun w => u_id w =? u_id u) us)).
    { apply filter_In. split; [exact Hin | apply Z.eqb_refl]. }
    rewrite Hv in Hu. destruct Hu as [-> | []]. reflexivity.
Qed.

(** X18. [announcement_new] writes exactly when a teacher POSTs; anyone
    else, whatever the method, is sent to the login page and no
    announcement is stored. *)
Theorem announcement_new_writes_iff_teacher_posts :
  forall (s : store) (req : request),
    (snd (run (announcement_new req) s) <> s
     <-> has_role req "teacher" = true /\ is_post req = true)
    /\ (has_role req "teacher" = false ->
        run (announcement_new req) s
        = (inr (Go (To EpLogin)
                   (Some (Flash "Teacher login required." "warning"))), s)).
Proof.
  intros s req. unfold run, announcement_new, not_teacher.
  destruct (has_role req "teacher"); cbn [negb].
  - destruct (is_post req).
    + split; [| discriminate]. split; [auto |]. intros _.
      cbn. intros Heq.
      apply (f_equal (fun s => length (rows (announcements_t s)))) in Heq.
      cbn [announcements_t rows insert_row] in Heq.
      rewrite length_app in Heq. cbn [length] in Heq. lia.
    + split; [| discriminate]. cbn.
      split; [intros H; now elim H | intros [_ H]; discriminate H].
  - cbn. split; [| reflexivity].
    split; [intros H; now elim H | intros [H _]; discriminate H].
Qed.

(** X19. An announcement posted by a teacher is on the list afterwards,
    with the title of the form ("Untitled" when blank) and the teacher's
    name as author; when its timestamp is later than every timestamp in
    the table it heads the list. *)
Theorem announcement_new_then_listed :
  forall (order_by_desc : forall A : Type, (A -> string) -> list A -> list A)
         (s : store) (req : request) (author : user),
    sorts_desc order_by_desc ->
    NoDup (map u_id (rows (users s))) ->
    In author (rows (users s)) ->
    u_id author = session_id req ->
    has_role req "teacher" = true ->
    is_post req = true ->
    let posted :=
      Announcement (next_rowid an_id (announcements_t s))
                   (or_str (form_get (form req) "title") "Untitled")
                   (or_str (form_get (form req) "body") "")
                   (now req) (Some (session_id req)) in
    let s' := snd (run (announcement_new req) s) in
    exists listing : list (announcement * option string),
      serve (announcements order_by_desc) s'
      = (Responded (Render (AnnouncementsPage listing)), s')
      /\ In (posted, Some (u_name author)) listing
      /\ ((forall a, In a (rows (announcements_t s)) ->
                     String.leb (now req) (an_created_at a) = false) ->
          hd_error listing = Some (posted, Some (u_name author))).
Proof.
  intros ord s req author Hord Hpk Hin Hid Hrole Hpost posted s'.
  assert (Hs' : s' = Store (users s)
                       (Table (rows (announcements_t s) ++ [posted])
                              (next_rowid an_id (announcements_t s)))
                       (assignments_t s) (submissions s) (quizzes_t s)
                       (quiz_questions s) (quiz_responses s) (quiz_answers s)).
  { subst s'. unfold run, announcement_new, not_teacher.
    rewrite Hrole, Hpost. reflexivity. }
  clearbody s'.
  exists (select_announcements ord s'). split; [reflexivity |].
  unfold select_announcements. rewrite Hs'. cbn [users announcements_t rows].
  rewrite flat_map_app. cbn [flat_map]. rewrite app_nil_r.
  rewrite (left_join_user_found an_created_by (rows (users s)) posted author
             Hpk Hin) by (cbn; now rewrite Hid).
  set (joined := (flat_map (left_join_user an_created_by (rows (users s)))
                           (rows (announcements_t s))
                  ++ [(posted, Some (u_name author))])%list).
  destruct (Hord _ (fun r : announcement * option string =>
                      an_created_at (fst r)) joined) as [Hperm Hsorted].
  assert (Hlisted : In (posted, Some (u_name author))
                       (ord _ (fun r : announcement * option string =>
                                 an_created_at (fst r)) joined)).
  { apply (Permutation_in _ (Permutation_sym Hperm)).
    subst joined. apply in_or_app. right. now left. }
  split; [exact Hlisted |].
  intros Hnewest.
  destruct (ord _ (fun r : announcement * option string =>
                     an_created_at (fst r)) joined) as [| h t] eqn:Hl;
    [destruct Hlisted |].
  cbn [hd_error]. f_equal.
  destruct Hlisted as [Hh | Ht]; [exact Hh |].
  assert (Hhin : In h joined).
  { apply (Permutation_in _ Hperm). now left. }
  subst joined. apply in_app_or in Hhin as [Hold | [<- | []]];
    [| reflexivity].
  exfalso.
  apply left_join_user_in in Hold. specialize (Hnewest _ Hold).
  inversion Hsorted as [| ? ? _ Hall]; subst.
  rewrite Forall_forall in Hall. specialize (Hall _ Ht).
  unfold desc_by in Hall. subst posted. cbn [fst an_created_at] in Hall.
  congruence.
Qed.

Lemma announcement_new_then_listed_witness :
  let s' := snd (run (announcement_new
                        (Request POST [("title", ""); ("body", "No class on Monday")]
                                 (Some Demo.as_teacher) "2024-01-10T08:00:00"))
                     Demo.db0) in
  exists listing : list (announcement * option string),
    serve (announcements Lib.sort_desc) s'
    = (Responded (Render (AnnouncementsPage listing)), s')
    /\ hd_error listing
       = Some (Announcement 2 "Untitled" "No class on Monday"
                            "2024-01-10T08:00:00" (Some 1),
               Some "Teacher Demo").
Proof.
  intros s'.
  destruct (announcement_new_then_listed Lib.sort_desc Demo.db0
              (Request POST [("title", ""); ("body", "No class on Monday")]
                       (Some Demo.as_teacher) "2024-01-10T08:00:00")
              Demo.teacher sort_desc_sorts)
    as (listing & Hrun & _ & Hhead).
  - repeat constructor; simpl; intuition discriminate.
  - left. reflexivity.
  - reflexivity.
  - reflexivity.
  - reflexivity.
  - exists listing. split; [exact Hrun |]. apply Hhead.
    intros a [<- | []]. reflexivity.
Defined.

(** ** [assignment_new] and the assignment pages *)

(** X20. [assignment_new] writes exactly when a teacher POSTs; anyone
    else is sent to the login page and no assignment is stored. *)
Theorem assignment_new_writes_iff_teacher_posts :
  forall (s : store) (req : request),
    (snd (run (assignment_new req) s) <> s
     <-> has_role req "teacher" = true /\ is_post req = true)
    /\ (has_role req "teacher" = false ->
        run (assignment_new req) s
        = (inr (Go (To EpLogin)
                   (Some (Flash "Teacher login required." "warning"))), s)).
Proof.
  intros s req. unfold run, assignment_new, not_teacher.
  destruct (has_role req "teacher"); cbn [negb].
  - destruct (is_post req).
    + split; [| discriminate]. split; [auto |]. intros _.
      cbn. intros Heq.
      apply (f_equal (fun s => length (rows (assignments_t s)))) in Heq.
      cbn [assignments_t rows insert_row] in Heq.
      rewrite length_app in Heq. cbn [length] in Heq. lia.
    + split; [| discriminate]. cbn.
      split; [intros H; now elim H | intros [_ H]; discriminate H].
  - cbn. split; [| reflexivity].
    split; [intros H; now elim H | intros [H _]; discriminate H].
Qed.

(** X21. The assignment a teacher creates gets an id that was no
    assignment before, and its detail page is found afterwards: it shows
    the title ("Untitled" when blank), the description, and a due date
    that is NULL when the field is missing or empty.  The new id is taken
    to be a 64-bit integer, as every rowid SQLite hands out is. *)
Theorem assignment_new_then_detail :
  forall (order_by_desc : forall A : Type, (A -> string) -> list A -> list A)
         (text_as_rowid : string -> option Z)
         (real_affinity : string -> real_value)
         (s : store) (req view : request),
    has_role req "teacher" = true ->
    is_post req = true ->
    is_post view = false ->
    sqlite_int (next_rowid as_id (assignments_t s)) = true ->
    let created :=
      Assignment (next_rowid as_id (assignments_t s))
                 (or_str (form_get (form req) "title") "Untitled")
                 (Some (or_str (form_get (form req) "description") ""))
                 (or_null (form_get (form req) "due_date"))
                 (now req) (Some (session_id req)) in
    let s' := snd (run (assignment_new req) s) in
    select_assignment (as_id created) s = inr None
    /\ serve (assignment_detail order_by_desc text_as_rowid real_affinity
                                (as_id created) view) s'
       = (Responded
            (Render (AssignmentDetailPage created
                       (if has_role view "student"
                        then select_submission (as_id created)
                                               (session_id view) s'
                        else None)
                       (if has_role view "teacher"
                        then select_submissions_of order_by_desc
                                                   (as_id created) s'
                        else []))), s').
Proof.
  intros ord tr ra s req view Hrole Hpost Hget Hint created s'.
  assert (Hs' : s' = Store (users s) (announcements_t s)
                       (Table (rows (assignments_t s) ++ [created])
                              (next_rowid as_id (assignments_t s)))
                       (submissions s) (quizzes_t s)
                       (quiz_questions s) (quiz_responses s) (quiz_answers s)).
  { subst s'. unfold run, assignment_new, not_teacher.
    rewrite Hrole, Hpost. reflexivity. }
  clearbody s'.
  destruct (find_fresh_row as_id (assignments_t s)
              (fun i => Assignment i
                          (or_str (form_get (form req) "title") "Untitled")
                          (Some (or_str (form_get (form req) "description") ""))
                          (or_null (form_get (form req) "due_date"))
                          (now req) (Some (session_id req)))
              (fun i => eq_refl)) as [Hfound Hfresh].
  subst created. cbn [as_id].
  split; [unfold select_assignment; now rewrite Hfresh, bind_int_ok |].
  apply assignment_detail_render.
  - rewrite Hs'. unfold select_assignment. cbn [assignments_t rows].
    now rewrite Hfound, bind_int_ok.
  - rewrite Hget. apply andb_false_r.
  - rewrite Hget, andb_false_r. reflexivity.
Qed.

Lemma assignment_new_then_detail_witness :
  let s' := snd (run (assignment_new
                        (Request POST [("title", "Essay"); ("due_date", "")]
                                 (Some Demo.as_teacher) "2024-01-11T08:00:00"))
                     Demo.db0) in
  serve (assignment_detail Lib.sort_desc Lib.rowid_of_text Lib.real_of_text 2
           (Request GET [] None "2024-01-11T09:00:00")) s'
  = (Responded
       (Render (AssignmentDetailPage
                  (Assignment 2 "Essay" (Some "") None "2024-01-11T08:00:00"
                              (Some 1))
                  None [])), s').
Proof.
  apply (assignment_new_then_detail Lib.sort_desc Lib.rowid_of_text
           Lib.real_of_text Demo.db0
           (Request POST [("title", "Essay"); ("due_date", "")]
                    (Some Demo.as_teacher) "2024-01-11T08:00:00")
           (Request GET [] None "2024-01-11T09:00:00")); reflexivity.
Defined.

(** ** The lists of assignments and of quizzes *)

Lemma joined_listing {A}
  (order_by_desc : forall A : Type, (A -> string) -> list A -> list A)
  (fk : A -> option Z) (key : A -> string) (us : list user) (l : list A) :
  sorts_desc order_by_desc ->
  NoDup (map u_id us) ->
  Permutation
    (map fst (order_by_desc _ (fun r : A * option string => key (fst r))
                             (flat_map (left_join_user fk us) l))) l
  /\ StronglySorted (desc_by (fun r : A * option string => key (fst r)))
       (order_by_desc _ (fun r : A * option string => key (fst r))
                      (flat_map (left_join_user fk us) l)).
Proof.
  intros Hord Hpk.
  destruct (Hord _ (fun r : A * option string => key (fst r))
                 (flat_map (left_join_user fk us) l)) as [Hperm Hsorted].
  split; [| exact Hsorted].
  rewrite (Permutation_map fst Hperm). now rewrite left_join_user_fst.
Qed.

(** X22. The lists of assignments, of quizzes and of discussions write
    nothing and show every row of their table once, newest first. *)
Theorem listings_newest_first :
  forall (order_by_desc : forall A : Type, (A -> string) -> list A -> list A)
         (s : Forum.database),
    sorts_desc order_by_desc ->
    NoDup (map u_id (rows (users (Forum.core s)))) ->
    (exists listing : list (assignment * option string),
        run (assignments order_by_desc) (Forum.core s)
        = (inr (Show (AssignmentsPage listing)), Forum.core s)
        /\ Permutation (map fst listing) (rows (assignments_t (Forum.core s)))
        /\ StronglySorted (desc_by (fun r => as_created_at (fst r))) listing)
    /\ (exists listing : list (quiz * option string),
           run (quizzes order_by_desc) (Forum.core s)
           = (inr (Show (QuizzesPage listing)), Forum.core s)
           /\ Permutation (map fst listing) (rows (quizzes_t (Forum.core s)))
           /\ StronglySorted (desc_by (fun r => qz_created_at (fst r)))
                             listing)
    /\ (exists listing : list (Forum.discussion * option string),
           Forum.frun (Forum.discussions order_by_desc) s
           = (inr (Forum.FShow (Forum.DiscussionsPage listing)), s)
           /\ Permutation (map fst listing) (rows (Forum.discussions_t s))
           /\ StronglySorted
                (desc_by (fun r => Forum.d_created_at (fst r))) listing).
Proof.
  intros ord s Hord Hpk. split; [| split].
  - exists (select_assignments ord (Forum.core s)). split; [reflexivity |].
    apply joined_listing; assumption.
  - exists (select_quizzes ord (Forum.core s)). split; [reflexivity |].
    apply joined_listing; assumption.
  - exists (Forum.select_discussions ord s). split; [reflexivity |].
    apply joined_listing; assumption.
Qed.

Lemma listings_newest_first_witness :
  (exists listing : list (assignment * option string),
      run (assignments Lib.sort_desc) Demo.db0
      = (inr (Show (AssignmentsPage listing)), Demo.db0)
      /\ Permutation (map fst listing) [Demo.assignment1])
  /\ (exists listing : list (Forum.discussion * option string),
         Forum.frun (Forum.discussions Lib.sort_desc) forum_demo
         = (inr (Forum.FShow (Forum.DiscussionsPage listing)), forum_demo)
         /\ length listing = 1%nat).
Proof.
  destruct (listings_newest_first Lib.sort_desc forum_demo sort_desc_sorts)
    as ((la & Ha & Hpa & _) & _ & (ld & Hd & Hpd & _)).
  - repeat constructor; simpl; intuition discriminate.
  - split; [exists la | exists ld]; split; try assumption.
    rewrite <- (length_map fst), (Permutation_length Hpd). reflexivity.
Defined.

(** ** Discussions *)

Lemma insert_asc_perm {A} (key : A -> string) (x : A) (l : list A) :
  Permutation (Lib2.insert_asc key x l) (x :: l).
Proof.
  induction l as [| y l IH]; cbn [Lib2.insert_asc]; [reflexivity |].
  destruct (String.leb (key x) (key y)); [reflexivity |].
  rewrite IH. apply perm_swap.
Qed.

Lemma insert_asc_sorted {A} (key : A -> string) (x : A) (l : list A) :
  Sorted (asc_by key) l -> Sorted (asc_by key) (Lib2.insert_asc key x l).
Proof.
  induction l as [| y l IH]; cbn [Lib2.insert_asc]; intros Hl.
  - repeat constructor.
  - destruct (String.leb (key x) (key y)) eqn:Hxy.
    + constructor; [exact Hl | constructor; exact Hxy].
    + inversion Hl as [| ? ? Hl' Hhd]; subst.
      constructor; [exact (IH Hl') |].
      assert (Hyx : asc_by key y x).
      { unfold asc_by. destruct (String.leb_total (key x) (key y)) as [H | H];
          [congruence | exact H]. }
      destruct l as [| z l]; cbn [Lib2.insert_asc].
      * constructor. exact Hyx.
      * destruct (String.leb (key x) (key z)); constructor;
          [exact Hyx | now inversion Hhd].
Qed.

Lemma asc_by_trans {A} (key : A -> string) : Transitive (asc_by key).
Proof. intros x y z Hxy Hyz. unfold asc_by in *. eapply leb_trans; eauto. Qed.

Lemma sort_asc_sorts : sorts_asc Lib2.sort_asc.
Proof.
  intros A key l. unfold Lib2.sort_asc. split.
  - induction l as [| x l IH]; cbn [fold_right]; [reflexivity |].
    rewrite insert_asc_perm. now constructor.
  - apply Sorted_StronglySorted; [apply asc_by_trans |].
    induction l as [| x l IH]; cbn [fold_right]; [constructor |].
    now apply insert_asc_sorted.
Qed.

(** X23. What the thread page refuses, writing nothing in any of the
    cases: an id of the URL that does not fit a 64-bit INTEGER makes the
    first SELECT raise OverflowError, a server error; an id that is no
    discussion is answered with the not-found notice; a POST without a
    session to a discussion that exists is answered with the request to log
    in. *)
Theorem discussion_detail_refuses :
  forall (order_by_asc : forall A : Type, (A -> string) -> list A -> list A)
         (s : Forum.database) (did : Z) (req : request),
    (sqlite_int did = false ->
     Forum.frun (Forum.discussion_detail order_by_asc did req) s
     = (inl OverflowError, s))
    /\ (Forum.select_discussion did s = inr None ->
        Forum.frun (Forum.discussion_detail order_by_asc did req) s
        = (inr (Forum.FGo Forum.ToDiscussions
                  (Some (Flash "Discussion not found." "warning"))), s))
    /\ ((exists d, Forum.select_discussion did s = inr (Some d)) ->
        is_post req = true -> session req = None ->
        Forum.frun (Forum.discussion_detail order_by_asc did req) s
        = (inr (Forum.FGo Forum.ToLogin
                  (Some (Flash "Login first." "warning"))), s)).
Proof.
  intros asc s did req.
  unfold Forum.frun, Forum.discussion_detail, Forum.fbind, Forum.ffetch,
    Forum.fquery.
  cbn [Forum.fworking].
  split; [| split].
  - intros Hint. unfold Forum.select_discussion, bind_int.
    now rewrite Hint.
  - intros ->. reflexivity.
  - intros [d ->] -> ->. reflexivity.
Qed.

Lemma discussion_detail_refuses_witness :
  Forum.frun (Forum.discussion_detail Lib2.sort_asc (2 ^ 63)
                (Request GET [] None "2024-01-03T08:00:00")) forum_demo
  = (inl OverflowError, forum_demo)
  /\ Forum.frun (Forum.discussion_detail Lib2.sort_asc 7
                   (Request GET [] None "2024-01-03T08:00:00")) forum_demo
     = (inr (Forum.FGo Forum.ToDiscussions
               (Some (Flash "Discussion not found." "warning"))), forum_demo)
  /\ Forum.frun (Forum.discussion_detail Lib2.sort_asc 1
                   (Request POST [("body", "Hello")] None
                            "2024-01-03T08:00:00")) forum_demo
     = (inr (Forum.FGo Forum.ToLogin (Some (Flash "Login first." "warning"))),
        forum_demo).
Proof.
  split; [| split].
  - apply (discussion_detail_refuses Lib2.sort_asc forum_demo (2 ^ 63)).
    reflexivity.
  - apply (discussion_detail_refuses Lib2.sort_asc forum_demo 7).
    reflexivity.
  - apply (discussion_detail_refuses Lib2.sort_asc forum_demo 1);
      [eexists; reflexivity | reflexivity | reflexivity].
Defined.

(** X24. A POST of anyone who is logged in, student or teacher, appends
    one post to the thread, signed with the session's id and holding the
    body of the form (the empty text when the field is missing); the other
    threads, the discussions and the other tables stay as they were. *)
Theorem discussion_detail_adds_post :
  forall (order_by_asc : forall A : Type, (A -> string) -> list A -> list A)
         (s : Forum.database) (did : Z) (req : request)
         (d : Forum.discussion) (u : identity),
    Forum.select_discussion did s = inr (Some d) ->
    is_post req = true ->
    session req = Some u ->
    let out := Forum.frun (Forum.discussion_detail order_by_asc did req) s in
    fst out = inr (Forum.FGo (Forum.ToDiscussionDetail did) None)
    /\ thread did (snd out)
       = (thread did s
          ++ [Forum.DiscussionPost
                (next_rowid Forum.p_id (Forum.discussion_posts s))
                did (id_id u) (or_str (form_get (form req) "body") "")
                (now req)])%list
    /\ (forall other, other <> did -> thread other (snd out) = thread other s)
    /\ Forum.core (snd out) = Forum.core s
    /\ Forum.discussions_t (snd out) = Forum.discussions_t s.
Proof.
  intros asc s did req d u Hd Hpost Hu out. subst out.
  unfold Forum.frun, Forum.discussion_detail, Forum.fbind, Forum.ffetch,
    Forum.fquery, Forum.fexecute, Forum.fcommit, Forum.fret.
  cbn [Forum.fworking]. rewrite Hd, Hpost, Hu.
  cbn [Forum.insert_post Forum.fworking Forum.fcommitted fst snd
       Forum.core Forum.discussions_t].
  split; [reflexivity |].
  unfold thread, insert_row. cbn [Forum.discussion_posts rows].
  repeat split.
  - rewrite filter_app. cbn [filter Forum.p_discussion_id].
    now rewrite Z.eqb_refl.
  - intros other Hother. rewrite filter_app. cbn [filter Forum.p_discussion_id].
    destruct (Z.eqb_spec did other) as [Heq | _];
      [now elim Hother | apply app_nil_r].
Qed.

Lemma discussion_detail_adds_post_witness :
  let out := Forum.frun
               (Forum.discussion_detail Lib2.sort_asc 1
                  (Request POST [] (Some Demo.as_student)
                           "2024-01-03T08:00:00")) forum_demo in
  fst out = inr (Forum.FGo (Forum.ToDiscussionDetail 1) None)
  /\ map Forum.p_body (thread 1 (snd out))
     = ["Hi, I am the student."; "Welcome!"; ""].
Proof.
  intros out.
  destruct (discussion_detail_adds_post Lib2.sort_asc forum_demo 1
              (Request POST [] (Some Demo.as_student) "2024-01-03T08:00:00")
              (Forum.Discussion 1 "Introduce yourself" "2024-01-01T09:00:00"
                                (Some 1))
              Demo.as_student eq_refl eq_refl eq_refl)
    as (Hout & Hthread & _).
  split; [exact Hout |].
  fold out in Hthread. rewrite Hthread. reflexivity.
Defined.

(** X25. The thread page writes nothing and shows the posts of its
    discussion and no others, each once, oldest first. *)
Theorem discussion_detail_shows_thread :
  forall (order_by_asc : forall A : Type, (A -> string) -> list A -> list A)
         (s : Forum.database) (did : Z) (req : request)
         (d : Forum.discussion),
    sorts_asc order_by_asc ->
    NoDup (map u_id (rows (users (Forum.core s)))) ->
    Forum.select_discussion did s = inr (Some d) ->
    is_post req = false ->
    exists posts : list (Forum.discussion_post * option string),
      Forum.frun (Forum.discussion_detail order_by_asc did req) s
      = (inr (Forum.FShow (Forum.DiscussionDetailPage d posts)), s)
      /\ Permutation (map fst posts) (thread did s)
      /\ StronglySorted (asc_by (fun r => Forum.p_created_at (fst r))) posts.
Proof.
  intros asc s did req d Hasc Hpk Hd Hget.
  exists (Forum.select_posts asc did s). split.
  - unfold Forum.frun, Forum.discussion_detail, Forum.fbind, Forum.ffetch,
      Forum.fquery.
    cbn [Forum.fworking]. now rewrite Hd, Hget.
  - unfold Forum.select_posts.
    destruct (Hasc _ (fun r : Forum.discussion_post * option string =>
                        Forum.p_created_at (fst r))
                   (flat_map (left_join_user
                                (fun p => Some (Forum.p_author_id p))
                                (rows (users (Forum.core s))))
                             (thread did s)))
      as [Hperm Hsorted].
    split; [| exact Hsorted].
    unfold thread in *. rewrite (Permutation_map fst Hperm).
    now rewrite left_join_user_fst.
Qed.

Lemma discussion_detail_shows_thread_witness :
  exists posts : list (Forum.discussion_post * option string),
    Forum.frun (Forum.discussion_detail Lib2.sort_asc 1
                  (Request GET [] None "2024-01-03T08:00:00")) forum_demo
    = (inr (Forum.FShow
              (Forum.DiscussionDetailPage
                 (Forum.Discussion 1 "Introduce yourself"
                                   "2024-01-01T09:00:00" (Some 1))
                 posts)), forum_demo)
    /\ map (fun r => (Forum.p_body (fst r), snd r)) posts
       = [("Hi, I am the student.", Some "Student Demo");
          ("Welcome!", Some "Teacher Demo")].
Proof.
  destruct (discussion_detail_shows_thread Lib2.sort_asc forum_demo 1
              (Request GET [] None "2024-01-03T08:00:00")
              (Forum.Discussion 1 "Introduce yourself" "2024-01-01T09:00:00"
                                (Some 1))
              sort_asc_sorts)
    as (posts & Hrun & _).
  - repeat constructor; simpl; intuition discriminate.
  - reflexivity.
  - reflexivity.
  - exists posts. split; [exact Hrun |].
    injection Hrun as <-. reflexivity.
Defined.



(** ** [seed_demo] *)

Lemma seed_demo_nothing_to_do (e : Forum.seed_env) (s : Forum.database) :
  rows (users (Forum.core s)) <> [] ->
  rows (announcements_t (Forum.core s)) <> [] ->
  Forum.frun (Forum.seed_demo e) s = (inr tt, s).
Proof.
  intros Hu Ha.
  destruct (rows (users (Forum.core s))) as [| u us] eqn:Hus; [now elim Hu |].
  destruct (rows (announcements_t (Forum.core s))) as [| a anns] eqn:Has;
    [now elim Ha |].
  unfold Forum.frun, Forum.seed_demo, Forum.fbind, Forum.fquery, Forum.fret.
  cbn [Forum.fworking]. rewrite Hus. cbn [length Nat.eqb Forum.fworking].
  rewrite Has. reflexivity.
Qed.

Lemma fbind_query {A B} (f : Forum.database -> A) (k : A -> Forum.fdb B)
  (c : Forum.fconn) :
  Forum.fbind (Forum.fquery f) k c = k (f (Forum.fworking c)) c.
Proof. reflexivity. Qed.

Lemma fbind_execute_ok {B} f (k : unit -> Forum.fdb B) (c : Forum.fconn)
  (w : Forum.database) :
  f (Forum.fworking c) = inr w ->
  Forum.fbind (Forum.fexecute f) k c = k tt (Forum.FConn (Forum.fcommitted c) w).
Proof. intros H. unfold Forum.fbind, Forum.fexecute. now rewrite H. Qed.

Lemma fbind_commit {B} (k : unit -> Forum.fdb B) (c : Forum.fconn) :
  Forum.fbind Forum.fcommit k c
  = k tt (Forum.FConn (Forum.fworking c) (Forum.fworking c)).
Proof. reflexivity. Qed.

Lemma on_core_ok (f : store -> exn + store) (s : Forum.database) (c : store) :
  f (Forum.core s) = inr c ->
  Forum.on_core f s
  = inr (Forum.Database c (Forum.discussions_t s) (Forum.discussion_posts s)).
Proof. intros H. unfold Forum.on_core. now rewrite H. Qed.

Lemma insert_user_ok (name email hash role created_at : string) (s : store) :
  in_list role roles = true ->
  email_taken email s = false ->
  insert_user name email hash role created_at s
  = inr (with_users s
           (insert_row u_id (fun i => User i name email hash role created_at)
                       (users s))).
Proof.
  intros Hrole Hfree. unfold insert_user, email_taken in *.
  now rewrite Hrole, Hfree.
Qed.

(** The first half of [seed_demo] inserts the two users when there is
    none, and the second half runs on what the first has committed. *)
Lemma seed_demo_split (e : Forum.seed_env) (s : Forum.database) :
  Forum.seed_demo e (Forum.FConn s s)
  = match rows (users (Forum.core s)) with
    | [] => seed_content e (Forum.FConn (with_seed_users e s)
                                        (with_seed_users e s))
    | _ :: _ => seed_content e (Forum.FConn s s)
    end.
Proof.
  unfold Forum.seed_demo. rewrite fbind_query. cbn [Forum.fworking].
  destruct (rows (users (Forum.core s))) as [| u us] eqn:Hus;
    cbn [length Nat.eqb]; [| reflexivity].
  unfold Forum.fbind at 1.
  erewrite fbind_execute_ok.
  2:{ cbn [Forum.fworking]. apply on_core_ok. apply insert_user_ok.
      - reflexivity.
      - unfold email_taken. now rewrite Hus. }
  erewrite fbind_execute_ok.
  2:{ cbn [Forum.fworking]. apply on_core_ok. cbn [Forum.core].
      apply insert_user_ok.
      - reflexivity.
      - unfold email_taken, insert_row. cbn [users with_users rows].
        rewrite Hus. reflexivity. }
  reflexivity.
Qed.

Lemma seed_content_skip (e : Forum.seed_env) (s : Forum.database) :
  rows (announcements_t (Forum.core s)) <> [] ->
  seed_content e (Forum.FConn s s) = (inr tt, Forum.FConn s s).
Proof.
  intros Ha. unfold seed_content. rewrite fbind_query. cbn [Forum.fworking].
  destruct (rows (announcements_t (Forum.core s))); [now elim Ha | reflexivity].
Qed.

Lemma seed_content_no_teacher (e : Forum.seed_env) (s : Forum.database) :
  rows (announcements_t (Forum.core s)) = [] ->
  Forum.select_a_teacher s = None ->
  seed_content e (Forum.FConn s s) = (inl TypeError, Forum.FConn s s).
Proof.
  intros Ha Ht. unfold seed_content. rewrite fbind_query. cbn [Forum.fworking].
  rewrite Ha. cbn [length Nat.eqb]. rewrite fbind_query. cbn [Forum.fworking].
  now rewrite Ht.
Qed.

Lemma seed_content_run (e : Forum.seed_env) (s : Forum.database) (t : user) :
  rows (announcements_t (Forum.core s)) = [] ->
  Forum.select_a_teacher s = Some t ->
  seed_content e (Forum.FConn s s)
  = (inr tt, Forum.FConn (with_seed_content e (u_id t) s)
                         (with_seed_content e (u_id t) s)).
Proof.
  intros Ha Ht. unfold seed_content. rewrite fbind_query. cbn [Forum.fworking].
  rewrite Ha. cbn [length Nat.eqb]. rewrite fbind_query. cbn [Forum.fworking].
  rewrite Ht. cbv beta iota zeta.
  erewrite fbind_execute_ok by (apply on_core_ok; reflexivity).
  erewrite fbind_execute_ok by (apply on_core_ok; reflexivity).
  erewrite fbind_execute_ok by reflexivity.
  erewrite fbind_execute_ok by (apply on_core_ok; reflexivity).
  rewrite fbind_query. cbn [Forum.fworking Forum.core].
  rewrite (select_last_quiz_id_new _
             (fun i => Quiz i "Orientation Quiz" (Forum.se_now_content e)
                            (Some (u_id t)))
             (fun i => eq_refl)).
  cbv beta iota.
  cbn [Forum.ffor_each Forum.seed_questions].
  reflexivity.
Qed.

Lemma app_cons_not_nil {A} (l : list A) (x : A) : (l ++ [x])%list <> [].
Proof. destruct l; discriminate. Qed.

Lemma rows_two_inserts {A} (rowid : A -> Z) (mk1 mk2 : Z -> A) (t : table A) :
  rows t = [] ->
  rows (insert_row rowid mk2 (insert_row rowid mk1 t))
  = [mk1 (next_rowid rowid t);
     mk2 (next_rowid rowid (insert_row rowid mk1 t))].
Proof.
  intros H.
  change (rows (insert_row rowid mk2 (insert_row rowid mk1 t)))
    with ((rows t ++ [mk1 (next_rowid rowid t)])
          ++ [mk2 (next_rowid rowid (insert_row rowid mk1 t))])%list.
  now rewrite H.
Qed.

Lemma seed_questions_rows (qid : Z)
  (l : list (string * string * string * string * string * string)) :
  forall t : table quiz_question,
  exists qrows,
    rows (fold_left
            (fun t q =>
               let '(p, a, b, c, d, ans) := q in
               insert_row qq_id (fun i => QuizQuestion i qid p a b c d ans) t)
            l t)
    = (rows t ++ qrows)%list
    /\ map question_fields qrows = map (fun row => (qid, row)) l.
Proof.
  induction l as [| [[[[[p a] b] c] d] ans] l IH]; intros t; cbn [fold_left].
  - exists []. split; [now rewrite app_nil_r | reflexivity].
  - destruct (IH (insert_row qq_id
                    (fun i => QuizQuestion i qid p a b c d ans) t))
      as (rest & Hrows & Hfields).
    exists (QuizQuestion (next_rowid qq_id t) qid p a b c d ans :: rest).
    split.
    + rewrite Hrows. unfold insert_row. cbn [rows]. now rewrite <- app_assoc.
    + cbn [map]. now rewrite Hfields.
Qed.

(** X27. On a database without users and without announcements
    [seed_demo] succeeds and leaves exactly two users, the demo teacher
    and the demo student, one announcement, and one more assignment,
    discussion and quiz than before, all created by the demo teacher; the
    quiz gets the three demo questions. *)
Theorem seed_demo_fresh :
  forall (e : Forum.seed_env) (s : Forum.database),
    rows (users (Forum.core s)) = [] ->
    rows (announcements_t (Forum.core s)) = [] ->
    exists (s' : Forum.database) (tid sid aid qid : Z)
           (qrows : list quiz_question),
      Forum.frun (Forum.seed_demo e) s = (inr tt, s')
      /\ tid <> sid
      /\ rows (users (Forum.core s'))
         = [ User tid "Teacher Demo" "teacher@classhub.local"
                  (Forum.se_hash_teacher e) "teacher" (Forum.se_now_users e);
             User sid "Student Demo" "student@classhub.local"
                  (Forum.se_hash_student e) "student" (Forum.se_now_users e) ]
      /\ rows (announcements_t (Forum.core s'))
         = [ Announcement aid "Welcome to ClassHub"
                          "Explore assignments, discussions, and quizzes."
                          (Forum.se_now_content e) (Some tid) ]
      /\ map as_created_by (rows (assignments_t (Forum.core s')))
         = (map as_created_by (rows (assignments_t (Forum.core s)))
            ++ [Some tid])%list
      /\ map Forum.d_created_by (rows (Forum.discussions_t s'))
         = (map Forum.d_created_by (rows (Forum.discussions_t s))
            ++ [Some tid])%list
      /\ rows (quizzes_t (Forum.core s'))
         = (rows (quizzes_t (Forum.core s))
            ++ [Quiz qid "Orientation Quiz" (Forum.se_now_content e)
                     (Some tid)])%list
      /\ rows (quiz_questions (Forum.core s'))
         = (rows (quiz_questions (Forum.core s)) ++ qrows)%list
      /\ map question_fields qrows
         = map (fun row => (qid, row)) Forum.seed_questions.
Proof.
  intros e s Hus Has.
  set (mk_teacher := fun i => User i "Teacher Demo" "teacher@classhub.local"
                                   (Forum.se_hash_teacher e) "teacher"
                                   (Forum.se_now_users e)).
  set (tid := next_rowid u_id (users (Forum.core s))).
  set (sid := next_rowid u_id (insert_row u_id mk_teacher
                                          (users (Forum.core s)))).
  assert (Hteacher : Forum.select_a_teacher (with_seed_users e s)
                     = Some (mk_teacher tid)).
  { unfold Forum.select_a_teacher, with_seed_users, insert_row.
    cbn [Forum.core users with_users rows]. rewrite Hus. reflexivity. }
  assert (Hrun : Forum.frun (Forum.seed_demo e) s
                 = (inr tt, with_seed_content e tid (with_seed_users e s))).
  { unfold Forum.frun. rewrite seed_demo_split, Hus.
    now rewrite (seed_content_run e (with_seed_users e s) (mk_teacher tid)
                   Has Hteacher). }
  destruct (seed_questions_rows (next_rowid qz_id (quizzes_t (Forum.core s)))
              Forum.seed_questions (quiz_questions (Forum.core s)))
    as (qrows & Hqrows & Hfields).
  exists (with_seed_content e tid (with_seed_users e s)), tid, sid,
         (next_rowid an_id (announcements_t (Forum.core s))),
         (next_rowid qz_id (quizzes_t (Forum.core s))), qrows.
  split; [exact Hrun |].
  split.
  { pose proof (next_rowid_fresh u_id
                  (insert_row u_id mk_teacher (users (Forum.core s)))
                  (mk_teacher tid)) as Hlt.
    cbn [u_id mk_teacher] in Hlt. fold sid in Hlt.
    assert (tid < sid); [| lia].
    apply Hlt. unfold insert_row. cbn [rows]. apply in_or_app. right.
    left. reflexivity. }
  split.
  { change (rows (users (Forum.core (with_seed_content e tid
                                       (with_seed_users e s)))))
      with (rows (insert_row u_id
                    (fun i => User i "Student Demo" "student@classhub.local"
                                   (Forum.se_hash_student e) "student"
                                   (Forum.se_now_users e))
                    (insert_row u_id mk_teacher (users (Forum.core s))))).
    now rewrite (rows_two_inserts u_id mk_teacher _ _ Hus). }
  split.
  { unfold with_seed_content, with_seed_users.
    cbn [Forum.core announcements_t with_users]. unfold insert_row.
    cbn [rows]. rewrite Has. reflexivity. }
  split.
  { unfold with_seed_content, with_seed_users.
    cbn [Forum.core assignments_t with_users]. unfold insert_row.
    cbn [rows]. rewrite map_app. reflexivity. }
  split.
  { unfold with_seed_content, with_seed_users.
    cbn [Forum.discussions_t]. unfold insert_row.
    cbn [rows]. rewrite map_app. reflexivity. }
  split.
  { unfold with_seed_content, with_seed_users.
    cbn [Forum.core quizzes_t with_users]. reflexivity. }
  split; [| exact Hfields].
  unfold with_seed_content, with_seed_users.
  cbn [Forum.core quiz_questions quizzes_t with_users]. exact Hqrows.
Qed.

Lemma seed_demo_fresh_witness :
  let out := Forum.frun (Forum.seed_demo demo_seed_env) empty_database in
  fst out = inr tt
  /\ map u_email (rows (users (Forum.core (snd out))))
     = ["teacher@classhub.local"; "student@classhub.local"]
  /\ map qq_correct (rows (quiz_questions (Forum.core (snd out))))
     = ["B"; "C"; "A"].
Proof.
  intros out.
  destruct (seed_demo_fresh demo_seed_env empty_database eq_refl eq_refl)
    as (s' & tid & sid & aid & qid & qrows & Hrun & _).
  fold out in Hrun. split; [now rewrite Hrun |].
  split; vm_compute; reflexivity.
Defined.

(** X28. [seed_demo] is idempotent: once it has run through, running it
    again, whatever the clock and the salts, changes nothing. *)
Theorem seed_demo_idempotent :
  forall (e e' : Forum.seed_env) (s s1 : Forum.database),
    Forum.frun (Forum.seed_demo e) s = (inr tt, s1) ->
    Forum.frun (Forum.seed_demo e') s1 = (inr tt, s1).
Proof.
  intros e e' s s1 Hrun.
  assert (Hfull : rows (users (Forum.core s1)) <> []
                  /\ rows (announcements_t (Forum.core s1)) <> []).
  { unfold Forum.frun in Hrun. rewrite seed_demo_split in Hrun.
    destruct (rows (users (Forum.core s))) as [| u us] eqn:Hus.
    - destruct (rows (announcements_t (Forum.core s))) as [| a anns] eqn:Has.
      + assert (Ht : Forum.select_a_teacher (with_seed_users e s)
                     = Some (User (next_rowid u_id (users (Forum.core s)))
                                  "Teacher Demo" "teacher@classhub.local"
                                  (Forum.se_hash_teacher e) "teacher"
                                  (Forum.se_now_users e))).
        { unfold Forum.select_a_teacher, with_seed_users, insert_row.
          cbn [Forum.core users with_users rows]. rewrite Hus. reflexivity. }
        rewrite (seed_content_run e (with_seed_users e s) _ Has Ht) in Hrun.
        injection Hrun as <-.
        unfold with_seed_content, with_seed_users, insert_row.
        cbn [Forum.core users with_users announcements_t rows].
        split; apply app_cons_not_nil.
      + rewrite seed_content_skip in Hrun.
        2:{ unfold with_seed_users. cbn [Forum.core announcements_t with_users].
            rewrite Has. discriminate. }
        injection Hrun as <-.
        unfold with_seed_users, insert_row.
        cbn [Forum.core users with_users announcements_t rows].
        split; [apply app_cons_not_nil | rewrite Has; discriminate].
    - destruct (rows (announcements_t (Forum.core s))) as [| a anns] eqn:Has.
      + destruct (Forum.select_a_teacher s) as [t |] eqn:Ht.
        * rewrite (seed_content_run e s t Has Ht) in Hrun.
          injection Hrun as <-.
          unfold with_seed_content, insert_row.
          cbn [Forum.core users announcements_t rows].
          split; [rewrite Hus; discriminate | apply app_cons_not_nil].
        * rewrite (seed_content_no_teacher e s Has Ht) in Hrun. discriminate.
      + rewrite seed_content_skip in Hrun by (rewrite Has; discriminate).
        injection Hrun as <-. split; [rewrite Hus | rewrite Has]; discriminate. }
  destruct Hfull as [Hu Ha]. now apply seed_demo_nothing_to_do.
Qed.

Lemma seed_demo_idempotent_witness :
  let s1 := snd (Forum.frun (Forum.seed_demo demo_seed_env) empty_database) in
  Forum.frun (Forum.seed_demo
                (Forum.SeedEnv "2024-02-01T00:00:00" "2024-02-01T00:00:01"
                               "2024-02-08" "pbkdf2:x" "pbkdf2:y")) s1
  = (inr tt, s1).
Proof.
  apply (seed_demo_idempotent demo_seed_env _ empty_database).
  vm_compute. reflexivity.
Defined.

(** X29. When there are users, none of them a teacher, and no
    announcement, [seed_demo] dies with a TypeError on the missing teacher
    row and leaves the database as it was. *)
Theorem seed_demo_without_teacher :
  forall (e : Forum.seed_env) (s : Forum.database),
    rows (users (Forum.core s)) <> [] ->
    rows (announcements_t (Forum.core s)) = [] ->
    (forall u, In u (rows (users (Forum.core s))) -> u_role u <> "teacher") ->
    Forum.frun (Forum.seed_demo e) s = (inl TypeError, s).
Proof.
  intros e s Hus Has Hnone.
  unfold Forum.frun. rewrite seed_demo_split.
  destruct (rows (users (Forum.core s))) as [| u us] eqn:Hrows;
    [now elim Hus |].
  rewrite seed_content_no_teacher; [reflexivity | exact Has |].
  unfold Forum.select_a_teacher. rewrite Hrows.
  destruct (find _ (u :: us)) as [t |] eqn:Hf; [| reflexivity].
  apply find_some in Hf as [Hin Hrole]. apply String.eqb_eq in Hrole.
  now elim (Hnone t Hin).
Qed.

Lemma seed_demo_without_teacher_witness :
  let s := Forum.Database
             (with_users (Forum.core empty_database)
                         (Table [Demo.student] 2))
             (Table [] 0) (Table [] 0) in
  Forum.frun (Forum.seed_demo demo_seed_env) s = (inl TypeError, s).
Proof.
  apply seed_demo_without_teacher.
  - discriminate.
  - reflexivity.
  - intros u [<- | []]. discriminate.
Defined.
